(** * nspower-tou-calc: time-of-use versus fixed-rate cost analysis

    A shallow embedding of [power-usage-analysis.py].  The script reads a
    utility export, classifies every interval reading into one of three
    season/peak periods, sums the usage per period, converts to kWh and prices
    the usage under two tariffs.

    Layout of the development:
    - [Py]       the few Python/pandas primitives the script relies on
                 (exceptions, string tests, [range], [isin], the cells of a
                 column of texts);
    - [Timestamp] [pd.to_datetime] for the format ["%m/%d/%Y %H:%M"];
    - [Arith]    the arithmetic interface of the script, with two
                 interpretations: exact rationals extended with the IEEE
                 special values ([xnum]) and binary64 ([float]);
    - [Engine]   [analyze_power_usage], [format_results] and [main];
    - [Readings] and [Samples]: tables of finite readings, sample inputs;
    - [Layout]   notions used to state the behaviour of the file handling;
    - the properties: primitives, timestamps, periods, exact sums, usage
      and cost, units, entry point; then the header row, the metadata, when
      a run fails or returns, which cells the result depends on, the order
      of the rows and the scale of the readings, bounds on cost and savings,
      reading back a timestamp, a total of zero, the report, and readings
      that are missing. *)

From Stdlib Require Import ZArith QArith Qabs Qfield Bool List String Ascii Lia Lqa Permutation.
From Stdlib Require Import Floats.PrimFloat Numbers.Cyclic.Int63.Uint63.
From Stdlib Require Floats.SpecFloat Floats.FloatOps Floats.FloatAxioms.
Import ListNotations.

Local Open Scope string_scope.
Local Open Scope list_scope.
Local Open Scope nat_scope.

(* ------------------------------------------------------------------------- *)
(** ** Python primitives *)

Module Py.

(** The exceptions the script can meet, each carrying its message
    ([str(e)] in [main]).  The wording of the messages that the libraries
    and the interpreter produce varies with their versions; it is kept
    short here and no property below depends on it, except for the message
    of a missing file. *)
Inductive exn : Type :=
| ValueError (msg : string)
| IndexError (msg : string)
| TypeError (msg : string)
| FileNotFoundError (msg : string).

Definition str_of_exn (e : exn) : string :=
  match e with
  | ValueError m | IndexError m | TypeError m | FileNotFoundError m => m
  end.

(** A computation that returns or raises. *)
Inductive result (A : Type) : Type :=
| Ok (a : A)
| Raise (e : exn).
Arguments Ok {A} & a.
Arguments Raise {A} e.

Definition bind {A B} (r : result A) (k : A -> result B) : result B :=
  match r with
  | Ok a => k a
  | Raise e => Raise e
  end.

Notation "x <- c ;; k" := (bind c (fun x => k))
  (at level 61, c at next level, right associativity).

Fixpoint mapM {A B} (f : A -> result B) (l : list A) : result (list B) :=
  match l with
  | [] => Ok []
  | a :: l' => b <- f a ;; bs <- mapM f l' ;; Ok (b :: bs)
  end.

(** [needle in hay] on strings. *)
Fixpoint str_in (needle hay : string) : bool :=
  String.prefix needle hay ||
  match hay with
  | EmptyString => false
  | String _ hay' => str_in needle hay'
  end.

(** [s.startswith(p)]. *)
Definition startswith (s p : string) : bool := String.prefix p s.

(** White space, as removed by [str.strip()] and matched by [\s].  A
    character of a text stands for the code point of its number, so the texts
    are those over the code points 0 to 255; among these the white space is
    the blank, 9 to 13, 28 to 31, 133 (next line) and 160 (no-break
    space). *)
Definition is_space (a : ascii) : bool :=
  let n := nat_of_ascii a in
  (n =? 32) || ((9 <=? n) && (n <=? 13)) || ((28 <=? n) && (n <=? 31))
  || (n =? 133) || (n =? 160).

Fixpoint lstrip (s : string) : string :=
  match s with
  | String a s' => if is_space a then lstrip s' else s
  | EmptyString => EmptyString
  end.

Fixpoint rstrip (s : string) : string :=
  match s with
  | String a s' =>
      match rstrip s' with
      | EmptyString => if is_space a then EmptyString else String a EmptyString
      | t => String a t
      end
  | EmptyString => EmptyString
  end.

Definition strip (s : string) : string := rstrip (lstrip s).

(** [s.split(",", 1)] for a string known to contain a comma: the text before
    the first comma and the text after it. *)
Fixpoint split_comma (s : string) : string * string :=
  match s with
  | EmptyString => (EmptyString, EmptyString)
  | String a s' =>
      if Ascii.eqb a "," then (EmptyString, s')
      else let (k, v) := split_comma s' in (String a k, v)
  end.

(** [range(a, b)]. *)
Definition range (a b : nat) : list nat := seq a (b - a).

(** [x in values], the element test behind [Series.isin]. *)
Definition isin (x : nat) (values : list nat) : bool :=
  existsb (Nat.eqb x) values.

(** A cell of a column of texts as [pd.read_csv] hands it over: the text of
    the field, or nothing (the float NaN) where the field is empty. *)
Inductive cell : Type :=
| Text (s : string)
| Missing.

Coercion Text : string >-> cell.

Definition isna (c : cell) : bool :=
  match c with
  | Missing => true
  | Text _ => false
  end.

(** [a + b] on the cells of two columns of texts: where a cell is missing
    nothing is added, and the sum is missing. *)
Definition cell_add (a b : cell) : cell :=
  match a, b with
  | Text x, Text y => Text (x ++ y)
  | _, _ => Missing
  end.

(** [col + text], as far as it can fail.  A column in which no field holds a
    text is not read as a column of texts but as one of floats (unless the
    table has no row at all), and a text cannot be added to a float. *)
Definition add_text_dtype (col : list cell) : result unit :=
  match col with
  | [] => Ok tt
  | _ :: _ =>
      if forallb isna col
      then Raise (TypeError
                    "ufunc 'add' did not contain a loop with signature matching types (dtype('float64'), dtype('<U1')) -> None")
      else Ok tt
  end.

(** The right operand of [in]: a text can be searched, a missing cell is a
    float and cannot.  In a column without any text ([float_column]) the
    float is one of numpy. *)
Definition searched (float_column : bool) (c : cell) : result string :=
  match c with
  | Text s => Ok s
  | Missing =>
      Raise (TypeError
               (if float_column
                then "argument of type 'numpy.float64' is not iterable"
                else "argument of type 'float' is not iterable"))
  end.

(** [d[k] = v] on a dict kept in insertion order. *)
Fixpoint dict_set (d : list (string * string)) (k v : string)
  : list (string * string) :=
  match d with
  | [] => [(k, v)]
  | (k', v') :: d' =>
      if String.eqb k' k then (k', v) :: d' else (k', v') :: dict_set d' k v
  end.

End Py.
Import Py.

(* ------------------------------------------------------------------------- *)
(** ** Timestamps *)

Module Timestamp.

(** A naive local timestamp, as [pd.to_datetime] yields for the script's
    format (seconds are always zero). *)
Record datetime : Type := mkDatetime {
  year : nat;
  month : nat;
  day : nat;
  hour : nat;
  minute : nat
}.

Definition is_leap (y : nat) : bool :=
  ((y mod 4 =? 0) && negb (y mod 100 =? 0)) || (y mod 400 =? 0).

Definition days_in_month (y m : nat) : nat :=
  match m with
  | 2 => if is_leap y then 29 else 28
  | 4 | 6 | 9 | 11 => 30
  | _ => 31
  end.

Definition digit_val (a : ascii) : option nat :=
  let n := nat_of_ascii a in
  if (48 <=? n) && (n <=? 57) then Some (n - 48) else None.

(** The matcher for ["%m/%d/%Y %H:%M"] reads the text left to right.  Its
    state names the field being read, the fields already read, and for the
    current field the number of digits [c] and their value [v].

    - [%m]: one or two digits, value 1..12;
    - [%d]: one or two digits, value 1..31, or a blank and one digit 1..9;
    - [%Y]: exactly four digits, not all zero;
    - the blank of the format: one or more white-space characters;
    - [%H]: one or two digits, value 0..23;
    - [%M]: one or two digits, value 0..59, then the end of the text.

    Every field is followed by a character that is not a digit, so taking the
    digits greedily agrees with the regular expression the library compiles
    the format to.  The range of years that the library can hold (it depends
    on the resolution of its timestamps) is not part of the matcher. *)
Inductive pstate : Type :=
| InMonth (c v : nat)
| InDay (mo : nat) (c v : nat)
| InDayPad (mo : nat)
| InYear (mo d : nat) (c v : nat)
| InBlank (mo d y : nat)
| InHour (mo d y : nat) (c v : nat)
| InMinute (mo d y h : nat) (c v : nat).

Definition sep (a : ascii) (x : ascii) : bool := Ascii.eqb a x.

Definition step (st : pstate) (a : ascii) : option pstate :=
  match st, digit_val a with
  | InMonth c v, Some x =>
      if c <? 2 then Some (InMonth (S c) (10 * v + x)) else None
  | InMonth c v, None =>
      if sep a "/" && (1 <=? c) && (1 <=? v) && (v <=? 12)
      then Some (InDay v 0 0) else None
  | InDay mo c v, Some x =>
      if c <? 2 then Some (InDay mo (S c) (10 * v + x)) else None
  | InDay mo c v, None =>
      if sep a "/" && (1 <=? c) && (1 <=? v) && (v <=? 31)
      then Some (InYear mo v 0 0)
      else if sep a " " && (c =? 0) then Some (InDayPad mo) else None
  | InDayPad mo, Some x =>
      if 1 <=? x then Some (InDay mo 2 x) else None
  | InDayPad mo, None => None
  | InYear mo d c v, Some x =>
      if c <? 4 then Some (InYear mo d (S c) (10 * v + x)) else None
  | InYear mo d c v, None =>
      if is_space a && (c =? 4) then Some (InBlank mo d v) else None
  | InBlank mo d y, Some x => Some (InHour mo d y 1 x)
  | InBlank mo d y, None =>
      if is_space a then Some (InBlank mo d y) else None
  | InHour mo d y c v, Some x =>
      if c <? 2 then Some (InHour mo d y (S c) (10 * v + x)) else None
  | InHour mo d y c v, None =>
      if sep a ":" && (1 <=? c) && (v <=? 23)
      then Some (InMinute mo d y v 0 0) else None
  | InMinute mo d y h c v, Some x =>
      if c <? 2 then Some (InMinute mo d y h (S c) (10 * v + x)) else None
  | InMinute _ _ _ _ _ _, None => None
  end.

Fixpoint run (st : pstate) (s : string) : option pstate :=
  match s with
  | EmptyString => Some st
  | String a s' =>
      match step st a with
      | Some st' => run st' s'
      | None => None
      end
  end.

(** End of the text: the minute must be complete, there is no year 0, and
    the day must exist in its month. *)
Definition finish (st : pstate) : option datetime :=
  match st with
  | InMinute mo d y h c v =>
      if (1 <=? c) && (v <=? 59) && (1 <=? y) && (d <=? days_in_month y mo)
      then Some (mkDatetime y mo d h v) else None
  | _ => None
  end.

Definition strptime (s : string) : option datetime :=
  match run (InMonth 0 0) s with
  | Some st => finish st
  | None => None
  end.

(** [pd.to_datetime(text, format="%m/%d/%Y %H:%M")] on one cell: a value that
    does not match raises [ValueError].  The message of the library also
    names the position of the cell and depends on its version; only its
    beginning is kept here, in short. *)
Definition to_datetime (s : string) : result datetime :=
  match strptime s with
  | Some dt => Ok dt
  | None =>
      Raise (ValueError ("time data " ++ s
                         ++ " doesn't match format %m/%d/%Y %H:%M")%string)
  end.

(** What the matcher guarantees about the fields. *)
Definition valid (dt : datetime) : Prop :=
  (1 <= month dt <= 12)%nat /\ (1 <= day dt <= 31)%nat /\
  (hour dt <= 23)%nat /\ (minute dt <= 59)%nat.

(** The fields a state has already accepted are in range. *)
Definition state_ok (st : pstate) : Prop :=
  match st with
  | InMonth _ _ => True
  | InDay mo _ _ | InDayPad mo => 1 <= mo <= 12
  | InYear mo d _ _ | InBlank mo d _ | InHour mo d _ _ _ =>
      1 <= mo <= 12 /\ 1 <= d <= 31
  | InMinute mo d _ h _ _ => 1 <= mo <= 12 /\ 1 <= d <= 31 /\ h <= 23
  end.

End Timestamp.
Import Timestamp.

(* ------------------------------------------------------------------------- *)
(** ** Arithmetic *)

(** The operations the script applies to usage values and money.  [lit m e]
    is the decimal literal [m * 10^-e] ([lit 34634 5] is [0.34634],
    [lit 1000 0] is [1000]). *)
Class Arith (T : Type) : Type := {
  lit : N -> nat -> T;
  add : T -> T -> T;
  sub : T -> T -> T;
  mul : T -> T -> T;
  div : T -> T -> T;
  ltb : T -> T -> bool;
  abs : T -> T;
  isnan : T -> bool
}.

(** *** Exact interpretation

    Rationals without rounding, together with the three special values of
    IEEE arithmetic, so that a division by zero yields what numpy yields
    (an infinity or a NaN, and no exception).  There is one zero, taken as
    positive where a sign is needed. *)
Module Exact.

Inductive xnum : Type :=
| Fin (q : Q)
| PInf
| NInf
| XNaN.

Definition is_zero (q : Q) : bool := Qeq_bool q 0.
Definition is_neg (q : Q) : bool := negb (Qle_bool 0 q).

Definition xneg (a : xnum) : xnum :=
  match a with
  | Fin q => Fin (- q)
  | PInf => NInf
  | NInf => PInf
  | XNaN => XNaN
  end.

Definition xadd (a b : xnum) : xnum :=
  match a, b with
  | XNaN, _ | _, XNaN => XNaN
  | Fin p, Fin q => Fin (p + q)
  | PInf, NInf | NInf, PInf => XNaN
  | PInf, _ | _, PInf => PInf
  | NInf, _ | _, NInf => NInf
  end.

Definition xsub (a b : xnum) : xnum := xadd a (xneg b).

(** An infinity of sign [neg] scaled by the finite [q]. *)
Definition scale_inf (neg : bool) (q : Q) : xnum :=
  if is_zero q then XNaN
  else if xorb neg (is_neg q) then NInf else PInf.

Definition xmul (a b : xnum) : xnum :=
  match a, b with
  | XNaN, _ | _, XNaN => XNaN
  | Fin p, Fin q => Fin (p * q)
  | PInf, Fin q | Fin q, PInf => scale_inf false q
  | NInf, Fin q | Fin q, NInf => scale_inf true q
  | PInf, PInf | NInf, NInf => PInf
  | PInf, NInf | NInf, PInf => NInf
  end.

Definition xdiv (a b : xnum) : xnum :=
  match a, b with
  | XNaN, _ | _, XNaN => XNaN
  | Fin p, Fin q =>
      if is_zero q then
        if is_zero p then XNaN else if is_neg p then NInf else PInf
      else Fin (p / q)
  | Fin _, (PInf | NInf) => Fin 0
  | PInf, Fin q => if is_neg q then NInf else PInf
  | NInf, Fin q => if is_neg q then PInf else NInf
  | (PInf | NInf), (PInf | NInf) => XNaN
  end.

Definition xltb (a b : xnum) : bool :=
  match a, b with
  | XNaN, _ | _, XNaN => false
  | Fin p, Fin q => negb (Qle_bool q p)
  | NInf, (Fin _ | PInf) => true
  | Fin _, PInf => true
  | _, _ => false
  end.

Definition xabs (a : xnum) : xnum :=
  match a with
  | Fin q => Fin (Qabs q)
  | PInf | NInf => PInf
  | XNaN => XNaN
  end.

Definition xisnan (a : xnum) : bool :=
  match a with XNaN => true | _ => false end.

Definition xlit (m : N) (e : nat) : xnum :=
  Fin (Qmake (Z.of_N m) (Z.to_pos (10 ^ Z.of_nat e))).

Definition finite (a : xnum) : Prop :=
  match a with Fin _ => True | _ => False end.

(** The rational a finite value stands for. *)
Definition qval (a : xnum) : Q :=
  match a with Fin q => q | _ => 0%Q end.

(** The sum of a list of rationals. *)
Definition Qsum (l : list Q) : Q := fold_right Qplus 0%Q l.

Definition is_inf (a : xnum) : bool :=
  match a with PInf | NInf => true | _ => false end.

(** A NaN or an infinity. *)
Definition nonfinite (a : xnum) : bool := xisnan a || is_inf a.

(** Equality of values up to the representation of the rational. *)
Definition xeqb (a b : xnum) : bool :=
  match a, b with
  | Fin p, Fin q => Qeq_bool p q
  | PInf, PInf | NInf, NInf | XNaN, XNaN => true
  | _, _ => false
  end.

End Exact.
Import Exact.

#[export] Instance Arith_exact : Arith xnum := {
  lit := xlit;
  add := xadd;
  sub := xsub;
  mul := xmul;
  div := xdiv;
  ltb := xltb;
  abs := xabs;
  isnan := xisnan
}.

(** *** Binary64 interpretation

    The machine's doubles.  A decimal literal with at most 15 digits is the
    correctly rounded quotient of two exactly representable integers. *)
Module Binary64.

Definition of_N (n : N) : float := PrimFloat.of_uint63 (Uint63.of_Z (Z.of_N n)).

Definition flit (m : N) (e : nat) : float :=
  PrimFloat.div (of_N m) (of_N (10 ^ N.of_nat e)).

(** A NaN or an infinity. *)
Definition nan_or_inf (x : float) : bool :=
  PrimFloat.is_nan x || PrimFloat.is_infinity x.

End Binary64.

#[export] Instance Arith_binary64 : Arith float := {
  lit := Binary64.flit;
  add := PrimFloat.add;
  sub := PrimFloat.sub;
  mul := PrimFloat.mul;
  div := PrimFloat.div;
  ltb := PrimFloat.ltb;
  abs := PrimFloat.abs;
  isnan := PrimFloat.is_nan
}.

(* ------------------------------------------------------------------------- *)
(** ** The analysis *)

Module Engine.

Section WithArith.

Context {T : Type} {arith : Arith T}.

(** Rate constants ($ per kWh). *)
Definition RATE_WINTER_PEAK : T := lit 34634 5.
Definition RATE_WINTER_OFF_PEAK : T := lit 17703 5.
Definition RATE_SUMMER : T := lit 12198 5.
Definition RATE_FIXED : T := lit 17703 5.

(** One row of the table, with the four columns the script reads.  [DATE],
    [START TIME] and [UNITS] are columns of texts, in which a field may be
    empty; [USAGE] is a column of floats (a column of whole numbers is summed
    in 64-bit integers, which gives the same figures as long as no sum
    leaves the range in which the floats hold every integer). *)
Record row : Type := mkRow {
  DATE : cell;
  START_TIME : cell;
  USAGE : T;
  UNITS : cell
}.

(** A row once the script has added the [datetime] column; [month] and
    [hour] are read off it. *)
Record trow : Type := mkTRow {
  cells : row;
  col_datetime : datetime
}.

Definition col_month (r : trow) : nat := month (col_datetime r).
Definition col_hour (r : trow) : nat := hour (col_datetime r).

(** A row of the table with the [datetime] column: it has a timestamp, or,
    where the date or the time is missing, none ([NaT]); its month and its
    hour are then NaN. *)
Inductive frow : Type :=
| Timed (tr : trow)
| NaT (r : row).

Coercion Timed : trow >-> frow.

Definition row_of (f : frow) : row :=
  match f with
  | Timed tr => cells tr
  | NaT r => r
  end.

(** [pd.to_datetime(df["DATE"] + " " + df["START TIME"], format=...)], row
    by row. *)
Definition add_datetime (r : row) : result frow :=
  match cell_add (cell_add (DATE r) " ") (START_TIME r) with
  | Text s => d <- to_datetime s ;; Ok (Timed (mkTRow r d))
  | Missing => Ok (NaT r)
  end.

Definition winter_months : list nat := [11; 12; 1; 2; 3].
Definition peak_hours : list nat := range 7 11 ++ range 17 21.
Definition summer_months : list nat := [4; 5; 6; 7; 8; 9; 10].

(** The three row selections. *)
Definition is_winter_peak (r : trow) : bool :=
  isin (col_month r) winter_months && isin (col_hour r) peak_hours.

Definition is_winter_off_peak (r : trow) : bool :=
  isin (col_month r) winter_months && negb (isin (col_hour r) peak_hours).

Definition is_summer (r : trow) : bool :=
  isin (col_month r) summer_months.

(** The three periods, and the periods whose selection takes a given row. *)
Inductive Bucket : Type := WinterPeak | WinterOffPeak | SummerAll.

Definition claims (b : Bucket) (r : trow) : bool :=
  match b with
  | WinterPeak => is_winter_peak r
  | WinterOffPeak => is_winter_off_peak r
  | SummerAll => is_summer r
  end.

Definition buckets_of (r : trow) : list Bucket :=
  filter (fun b => claims b r) [WinterPeak; WinterOffPeak; SummerAll].

(** A boolean mask on the table: [isin] is false of NaN, so a row without
    timestamp is in no selection (its month is in neither list). *)
Definition selected (p : trow -> bool) (f : frow) : bool :=
  match f with
  | Timed tr => p tr
  | NaT _ => false
  end.

(** The periods whose selection takes a row of the table. *)
Definition periods_of (f : frow) : list Bucket :=
  filter (fun b => selected (claims b) f) [WinterPeak; WinterOffPeak; SummerAll].

(** The rows that no selection can take. *)
Definition no_timestamp (f : frow) : bool :=
  match f with
  | Timed _ => false
  | NaT _ => true
  end.

(** numpy's sum of a contiguous array of floats.  Up to 128 values: eight
    running sums, each fed every eighth value for as long as eight values
    are left, then added up in pairs, then the values left over one by one;
    fewer than eight values are added one by one from zero. *)
Fixpoint unrolled (r0 r1 r2 r3 r4 r5 r6 r7 : T) (a : list T) : T :=
  match a with
  | a0 :: a1 :: a2 :: a3 :: a4 :: a5 :: a6 :: a7 :: a' =>
      unrolled (add r0 a0) (add r1 a1) (add r2 a2) (add r3 a3)
               (add r4 a4) (add r5 a5) (add r6 a6) (add r7 a7) a'
  | _ =>
      fold_left add a
        (add (add (add r0 r1) (add r2 r3)) (add (add r4 r5) (add r6 r7)))
  end.

Definition block_sum (a : list T) : T :=
  match a with
  | a0 :: a1 :: a2 :: a3 :: a4 :: a5 :: a6 :: a7 :: a' =>
      unrolled a0 a1 a2 a3 a4 a5 a6 a7 a'
  | _ => fold_left add a (lit 0 0)
  end.

(** More than 128 values are cut in two near the middle, at a multiple of
    eight, and the sums of the two parts are added.  Both parts are shorter
    than the whole, so a [fuel] of the number of values is never used up. *)
Fixpoint pairwise_sum (fuel : nat) (a : list T) : T :=
  match fuel with
  | S fuel' =>
      if List.length a <=? 128 then block_sum a
      else
        let n2 := List.length a / 2 in
        let n2 := n2 - n2 mod 8 in
        add (pairwise_sum fuel' (firstn n2 a)) (pairwise_sum fuel' (skipn n2 a))
  | O => block_sum a
  end.

(** A missing value counts as zero. *)
Definition fillna (x : T) : T := if isnan x then lit 0 0 else x.

(** [Series.sum()] on a column of floats: missing values are replaced by
    zero, and the sum of the column is added to the zero the reduction
    starts from.  (Whether a sum of negative zeros only is a negative zero
    varies with the version of numpy; here it is the positive zero.) *)
Definition series_sum (xs : list T) : T :=
  add (lit 0 0) (pairwise_sum (List.length xs) (map fillna xs)).

Definition col_usage (df : list frow) : list T :=
  map (fun f => USAGE (row_of f)) df.

Definition winter_peak (df : list frow) : T :=
  series_sum (col_usage (filter (selected is_winter_peak) df)).

Definition winter_off_peak (df : list frow) : T :=
  series_sum (col_usage (filter (selected is_winter_off_peak) df)).

Definition summer_all (df : list frow) : T :=
  series_sum (col_usage (filter (selected is_summer) df)).

(** [total_usage] of the source, before the conversion to kWh. *)
Definition all_usage (df : list frow) : T :=
  series_sum (col_usage df).

(** [col.iloc[0]]. *)
Definition iloc0 {A : Type} (col : list A) : result A :=
  match col with
  | x :: _ => Ok x
  | [] => Raise (IndexError "single positional indexer is out-of-bounds")
  end.

(** Convert Wh to kWh if the units are in Wh. *)
Definition conversion (units0 : string) : T :=
  if str_in "Wh" units0 then lit 1000 0 else lit 1 0.

(** The dictionary the analysis returns (its [metadata] entry is added by
    [analyze_power_usage]). *)
Record results : Type := mkResults {
  winter_peak_usage : T;
  winter_off_peak_usage : T;
  summer_usage : T;
  total_usage : T;
  winter_peak_percentage : T;
  winter_off_peak_percentage : T;
  summer_percentage : T;
  winter_peak_cost : T;
  winter_off_peak_cost : T;
  summer_cost : T;
  total_time_of_use_cost : T;
  total_fixed_rate_cost : T;
  savings : T
}.

(** The body of [analyze_power_usage] from the table on. *)
Definition analyze_frame (rows : list row) : result results :=
  texts <- add_text_dtype (map DATE rows) ;;
  df <- mapM add_datetime rows ;;
  let winter_peak := winter_peak df in
  let winter_off_peak := winter_off_peak df in
  let summer_all := summer_all df in
  let total_usage := all_usage df in
  cell0 <- iloc0 (map UNITS rows) ;;
  units0 <- searched (forallb isna (map UNITS rows)) cell0 ;;
  let conversion := conversion units0 in
  let winter_peak_kwh := div winter_peak conversion in
  let winter_off_peak_kwh := div winter_off_peak conversion in
  let summer_kwh := div summer_all conversion in
  let total_kwh := div total_usage conversion in
  let winter_peak_cost := mul winter_peak_kwh RATE_WINTER_PEAK in
  let winter_off_peak_cost := mul winter_off_peak_kwh RATE_WINTER_OFF_PEAK in
  let summer_cost := mul summer_kwh RATE_SUMMER in
  let total_time_of_use_cost :=
    add (add winter_peak_cost winter_off_peak_cost) summer_cost in
  let total_fixed_rate_cost := mul total_kwh RATE_FIXED in
  let savings := sub total_fixed_rate_cost total_time_of_use_cost in
  Ok {| winter_peak_usage := winter_peak_kwh;
        winter_off_peak_usage := winter_off_peak_kwh;
        summer_usage := summer_kwh;
        total_usage := total_kwh;
        winter_peak_percentage := mul (div winter_peak total_usage) (lit 100 0);
        winter_off_peak_percentage :=
          mul (div winter_off_peak total_usage) (lit 100 0);
        summer_percentage := mul (div summer_all total_usage) (lit 100 0);
        winter_peak_cost := winter_peak_cost;
        winter_off_peak_cost := winter_off_peak_cost;
        summer_cost := summer_cost;
        total_time_of_use_cost := total_time_of_use_cost;
        total_fixed_rate_cost := total_fixed_rate_cost;
        savings := savings |}.

(** *** Files *)

Definition dict : Type := list (string * string).

Fixpoint dict_get (d : dict) (k : string) : option string :=
  match d with
  | [] => None
  | (k', v) :: d' => if String.eqb k' k then Some v else dict_get d' k
  end.

Section Files.

(** The file system: the lines of each file that is there and is read as
    text.  A path for which [fs] has nothing names no file; the other ways
    in which opening or reading a file can fail (a directory, a file that
    may not be read, bytes that are no text) are not modelled.
    [read_csv path n] stands for [pd.read_csv(path, skiprows=n)], restricted
    to the four columns the script reads. *)
Variable fs : string -> option (list string).
Variable read_csv : string -> nat -> result (list row).

Definition open (file_path : string) : result (list string) :=
  match fs file_path with
  | Some lines => Ok lines
  | None =>
      Raise (FileNotFoundError
               ("[Errno 2] No such file or directory: '" ++ file_path ++ "'")%string)
  end.

Fixpoint find_header_from (i : nat) (lines : list string) : result nat :=
  match lines with
  | [] => Raise (ValueError "Could not find the header row in the CSV file")
  | line :: rest =>
      if startswith (strip line) "SERVICE,DATE," then Ok i
      else find_header_from (S i) rest
  end.

Definition find_header_row (file_path : string) : result nat :=
  lines <- open file_path ;;
  find_header_from 0 lines.

Definition extract_metadata (header_row : nat) (lines : list string) : dict :=
  fold_left
    (fun metadata raw =>
       let line := strip raw in
       if str_in "," line
       then let (key, value) := split_comma line in dict_set metadata key value
       else metadata)
    (firstn header_row lines) [].

Definition analyze_power_usage (file_path : string) : result (results * dict) :=
  header_row <- find_header_row file_path ;;
  rows <- read_csv file_path header_row ;;
  res <- analyze_frame rows ;;
  lines <- open file_path ;;
  Ok (res, extract_metadata header_row lines).

End Files.

(** *** Report and entry point *)

Section Report.

(** [fmt n x] stands for the rendering [f"{x:.nf}"]. *)
Variable fmt : nat -> T -> string.

Definition nl : string := String "010" EmptyString.

Fixpoint repeat_str (s : string) (n : nat) : string :=
  match n with
  | O => EmptyString
  | S n' => (s ++ repeat_str s n')%string
  end.

Definition rule : string := repeat_str "-" 60.

Definition print_if_present (metadata : dict) (key : string) : list string :=
  match dict_get metadata key with
  | Some v => [(key ++ ": " ++ v)%string]
  | None => []
  end.

(** The closing line: which tariff the report recommends. *)
Definition verdict (savings : T) : string :=
  if ltb (lit 0 0) savings
  then (nl ++ "Time-of-Use billing would save you: $" ++ fmt 2 (abs savings))%string
  else (nl ++ "Fixed rate billing would save you: $" ++ fmt 2 (abs savings))%string.

(** The lines [format_results] prints, one entry per [print]. *)
Definition format_results (res : results) (metadata : dict) : list string :=
  [(nl ++ "Account Information:")%string; rule]
  ++ print_if_present metadata "Name"
  ++ print_if_present metadata "Address"
  ++ print_if_present metadata "Account Number"
  ++ [(nl ++ "Power Usage Analysis Results:")%string;
      rule;
      "Usage Breakdown:";
      ("Winter Peak Hours (Nov-Mar, 7-11 & 17-21): "
         ++ fmt 2 (winter_peak_usage res) ++ " kWh ("
         ++ fmt 1 (winter_peak_percentage res) ++ "%)")%string;
      ("Winter Off-Peak Hours (Nov-Mar, other times): "
         ++ fmt 2 (winter_off_peak_usage res) ++ " kWh ("
         ++ fmt 1 (winter_off_peak_percentage res) ++ "%)")%string;
      ("Summer Usage (Apr-Oct, all hours): "
         ++ fmt 2 (summer_usage res) ++ " kWh ("
         ++ fmt 1 (summer_percentage res) ++ "%)")%string;
      ("Total Usage: " ++ fmt 2 (total_usage res) ++ " kWh")%string;
      (nl ++ "Cost Analysis:")%string;
      rule;
      "Time-of-Use Rate Breakdown:";
      ("Winter Peak Hours ($" ++ fmt 5 RATE_WINTER_PEAK ++ "/kWh): $"
         ++ fmt 2 (winter_peak_cost res))%string;
      ("Winter Off-Peak Hours ($" ++ fmt 5 RATE_WINTER_OFF_PEAK ++ "/kWh): $"
         ++ fmt 2 (winter_off_peak_cost res))%string;
      ("Summer Usage ($" ++ fmt 5 RATE_SUMMER ++ "/kWh): $"
         ++ fmt 2 (summer_cost res))%string;
      ("Total Time-of-Use Cost: $"
         ++ fmt 2 (total_time_of_use_cost res))%string;
      (nl ++ "Fixed Rate Cost ($" ++ fmt 5 RATE_FIXED ++ "/kWh): $"
         ++ fmt 2 (total_fixed_rate_cost res))%string;
      verdict (savings res)].

Variable fs : string -> option (list string).
Variable read_csv : string -> nat -> result (list row).

(** [main] once the command line is parsed: what it prints and what it
    returns. *)
Definition main (file_path : string) : list string * Z :=
  match analyze_power_usage fs read_csv file_path with
  | Ok (res, metadata) => (format_results res metadata, 0%Z)
  | Raise e => ([("Error processing file: " ++ str_of_exn e)%string], 1%Z)
  end.

(** The script's last statement calls [main()] and drops what it returns;
    the interpreter then ends normally, with status 0. *)
Definition script (file_path : string) : list string * Z :=
  let (stdout, _) := main file_path in
  (stdout, 0%Z).

End Report.

End WithArith.

Arguments row : clear implicits.
Arguments trow : clear implicits.
Arguments frow : clear implicits.
Arguments results : clear implicits.

End Engine.
Import Engine.

(* ------------------------------------------------------------------------- *)
(** ** Tables of finite readings *)

Module Readings.

(** Every reading of the table is a number (no NaN, no infinity). *)
Definition finite_usage (rows : list (row xnum)) : Prop :=
  Forall (fun r => finite (USAGE r)) rows.

(** [x] is a number, and it stands for [q]. *)
Definition is_sum (x : xnum) (q : Q) : Prop := finite x /\ (qval x == q)%Q.

(** A reading that is a number, or missing. *)
Definition number_or_nan (x : xnum) : Prop := finite x \/ x = XNaN.

(** Every reading of the table is a number or is missing. *)
Definition known_usage (rows : list (row xnum)) : Prop :=
  Forall (fun r => number_or_nan (USAGE r)) rows.

(** The exact sum of a usage column. *)
Definition qtotal (df : list (frow xnum)) : Q :=
  Qsum (map qval (col_usage df)).

(** The exact sum of the readings of a table. *)
Definition qreadings (rows : list (row xnum)) : Q :=
  Qsum (map (fun r => qval (USAGE r)) rows).

(** Every reading is zero or more. *)
Definition nonneg_usage (rows : list (row xnum)) : Prop :=
  Forall (fun r => (0 <= qval (USAGE r))%Q) rows.

(** The same value: the same special value, or equal rationals. *)
Definition xeq (a b : xnum) : Prop :=
  match a, b with
  | Fin p, Fin q => (p == q)%Q
  | PInf, PInf | NInf, NInf | XNaN, XNaN => True
  | _, _ => False
  end.

(** Two results with the same value in every entry. *)
Definition results_equiv (r r' : results xnum) : Prop :=
  xeq (winter_peak_usage r) (winter_peak_usage r') /\
  xeq (winter_off_peak_usage r) (winter_off_peak_usage r') /\
  xeq (summer_usage r) (summer_usage r') /\
  xeq (total_usage r) (total_usage r') /\
  xeq (winter_peak_percentage r) (winter_peak_percentage r') /\
  xeq (winter_off_peak_percentage r) (winter_off_peak_percentage r') /\
  xeq (summer_percentage r) (summer_percentage r') /\
  xeq (winter_peak_cost r) (winter_peak_cost r') /\
  xeq (winter_off_peak_cost r) (winter_off_peak_cost r') /\
  xeq (summer_cost r) (summer_cost r') /\
  xeq (total_time_of_use_cost r) (total_time_of_use_cost r') /\
  xeq (total_fixed_rate_cost r) (total_fixed_rate_cost r') /\
  xeq (savings r) (savings r').

(** A row [r] with the date and time of [r'] and [k] times its reading. *)
Definition scaled_reading (k : Q) (r r' : row xnum) : Prop :=
  DATE r = DATE r' /\ START_TIME r = START_TIME r' /\
  exists q, USAGE r' = Fin q /\ USAGE r = Fin (k * q).

(** The result written out from the exact sums [wp], [wo], [su] of the three
    periods, the exact sum [un] of the rows without timestamp and the
    conversion factor [c]. *)
Definition priced (wp wo su un c : Q) : results xnum :=
  let t := (wp + wo + su + un)%Q in
  let tou := (wp / c * (34634 # 100000) + wo / c * (17703 # 100000)
              + su / c * (12198 # 100000))%Q in
  {| winter_peak_usage := Fin (wp / c);
     winter_off_peak_usage := Fin (wo / c);
     summer_usage := Fin (su / c);
     total_usage := Fin (t / c);
     winter_peak_percentage := xmul (xdiv (Fin wp) (Fin t)) (Fin 100);
     winter_off_peak_percentage := xmul (xdiv (Fin wo) (Fin t)) (Fin 100);
     summer_percentage := xmul (xdiv (Fin su) (Fin t)) (Fin 100);
     winter_peak_cost := Fin (wp / c * (34634 # 100000));
     winter_off_peak_cost := Fin (wo / c * (17703 # 100000));
     summer_cost := Fin (su / c * (12198 # 100000));
     total_time_of_use_cost := Fin tou;
     total_fixed_rate_cost := Fin (t / c * (17703 # 100000));
     savings := Fin (t / c * (17703 # 100000) - tou) |}.

End Readings.
Import Readings.

(* ------------------------------------------------------------------------- *)
(** ** Sample tables *)

Module Samples.

(** Three readings: a winter morning peak, a winter afternoon and a summer
    noon, all with the unit [u]. *)
Definition three_rows {T : Type} (two one three : T) (u : string)
  : list (row T) :=
  [ mkRow "11/15/2023" "08:00" two u;
    mkRow "11/15/2023" "14:00" one u;
    mkRow "06/01/2023" "12:00" three u ].

Definition three_rows_exact (u : string) : list (row xnum) :=
  three_rows (Fin 2) (Fin 1) (Fin 3) u.

Definition three_rows_binary64 (u : string) : list (row float) :=
  three_rows 2%float 1%float 3%float u.

(** One reading of 1500 units. *)
Definition one_row_exact (u : string) : list (row xnum) :=
  [ mkRow "01/02/2024" "18:30" (Fin 1500) u ].

(** Readings whose usage adds up to zero. *)
Definition idle_exact : list (row xnum) :=
  [ mkRow "11/15/2023" "08:00" (Fin 0) "kWh" ].

Definition idle_binary64 : list (row float) :=
  [ mkRow "11/15/2023" "08:00" 0%float "kWh" ].

Definition cancelling_binary64 : list (row float) :=
  [ mkRow "11/15/2023" "08:00" 1%float "kWh";
    mkRow "11/15/2023" "12:00" (-1)%float "kWh" ].

(** Four readings of 0.1, 0.1, 0.1 and 0.4 kWh: the first and the last in the
    winter peak hours, the second in a winter afternoon, the third in
    summer. *)
Definition tenths_binary64 : list (row float) :=
  [ mkRow "11/15/2023" "08:00" (lit 1 1) "kW h";
    mkRow "11/15/2023" "14:00" (lit 1 1) "kW h";
    mkRow "06/01/2023" "12:00" (lit 1 1) "kW h";
    mkRow "11/16/2023" "08:00" (lit 4 1) "kW h" ].


(** One kWh in the winter peak hours, one in summer, and [x] kWh in a
    winter afternoon. *)
Definition afternoon_binary64 (x : float) : list (row float) :=
  [ mkRow "11/15/2023" "08:00" 1%float "kW h";
    mkRow "11/15/2023" "14:00" x "kW h";
    mkRow "06/01/2023" "12:00" 1%float "kW h" ].

(** The three readings, the second without a date. *)
Definition undated_exact : list (row xnum) :=
  [ mkRow "11/15/2023" "08:00" (Fin 2) "kW h";
    mkRow Missing "14:00" (Fin 1) "kW h";
    mkRow "06/01/2023" "12:00" (Fin 3) "kW h" ].

(** Tables that are turned down: no row has a date; the first row declares
    no unit. *)
Definition dateless_exact : list (row xnum) :=
  [ mkRow Missing "08:00" (Fin 2) "kWh";
    mkRow Missing "14:00" (Fin 1) "kWh" ].

Definition unitless_exact : list (row xnum) :=
  [ mkRow "11/15/2023" "08:00" (Fin 2) Missing;
    mkRow "11/15/2023" "14:00" (Fin 1) "kWh" ].

(** Nine readings, the first of them large. *)
Definition nine_binary64 : list float :=
  [ 10000000000000000%float; 1%float; 1%float; 1%float; 1%float;
    1%float; 1%float; 1%float; 1%float ].

(** The table with its timestamps, when all of them are read. *)
Definition frame_of {T : Type} (rows : list (row T)) : list (frow T) :=
  match mapM add_datetime rows with
  | Ok df => df
  | Raise _ => []
  end.

(** A machine with no file at all, and one file that has no header row. *)
Definition no_files : string -> option (list string) := fun _ => None.

Definition headerless : string -> option (list string) :=
  fun path =>
    if String.eqb path "usage.csv"
    then Some ["Name,A Customer"; "Address,1 Main St"]
    else None.

(** An export with two lines of account data above the header row, and the
    table that is read from it. *)
Definition export_lines : list string :=
  [ "Name,A Customer";
    "Address,1 Main St, Halifax";
    "SERVICE,DATE,START TIME,END TIME,USAGE,UNITS";
    "Electric,11/15/2023,08:00,08:59,2,Wh" ].

Definition export_fs : string -> option (list string) :=
  fun path => if String.eqb path "usage.csv" then Some export_lines else None.

Definition export_table : string -> nat -> result (list (row xnum)) :=
  fun _ _ => Ok [ mkRow "11/15/2023" "08:00" (Fin 2) "Wh" ].

End Samples.
Import Samples.

(* ------------------------------------------------------------------------- *)
(** ** Notions used to state the behaviour of the file handling *)

Module Layout.

(** A line that [find_header_row] takes for the row of column names. *)
Definition is_header (line : string) : bool :=
  startswith (strip line) "SERVICE,DATE,".

(** The key and the value a line contributes to the metadata, if it
    contributes any. *)
Definition metadata_entry (raw : string) : option (string * string) :=
  let line := strip raw in
  if str_in "," line then Some (split_comma line) else None.

Definition entry_key (raw : string) : option string :=
  option_map fst (metadata_entry raw).

(** The cell of a row that is handed to [pd.to_datetime]. *)
Definition stamp {T : Type} (r : row T) : cell :=
  cell_add (cell_add (DATE r) " ") (START_TIME r).

(** A row whose date and time, if it has both, are in the format. *)
Definition readable {T : Type} (r : row T) : Prop :=
  forall s, stamp r = Text s -> strptime s <> None.

(** A row that has both a date and a time. *)
Definition has_timestamp {T : Type} (r : row T) : bool :=
  negb (isna (DATE r)) && negb (isna (START_TIME r)).

(** Two rows with the same date, time and reading; their units may differ. *)
Definition same_reading {T : Type} (r r' : row T) : Prop :=
  DATE r = DATE r' /\ START_TIME r = START_TIME r' /\ USAGE r = USAGE r'.

(** Two rows of the table with its timestamps that agree on the timestamp,
    if any, and on the reading. *)
Definition same_stamp {T : Type} (f f' : frow T) : Prop :=
  match f, f' with
  | Timed t, Timed t' => col_datetime t = col_datetime t'
  | NaT _, NaT _ => True
  | _, _ => False
  end.

Definition same_frow {T : Type} (f f' : frow T) : Prop :=
  same_stamp f f' /\ USAGE (row_of f) = USAGE (row_of f').

(** The zero-padded text of a timestamp in the format of the export:
    [MM/DD/YYYY] and [HH:MM]. *)
Definition digit_char (d : nat) : ascii := ascii_of_nat (48 + d).

Definition two_digits (n : nat) : string :=
  String (digit_char (n / 10)) (String (digit_char (n mod 10)) EmptyString).

Definition four_digits (n : nat) : string :=
  String (digit_char (n / 1000))
    (String (digit_char (n / 100 mod 10))
       (String (digit_char (n / 10 mod 10))
          (String (digit_char (n mod 10)) EmptyString))).

Definition date_text (dt : datetime) : string :=
  (two_digits (month dt) ++ "/" ++ two_digits (day dt) ++ "/"
     ++ four_digits (year dt))%string.

Definition time_text (dt : datetime) : string :=
  (two_digits (hour dt) ++ ":" ++ two_digits (minute dt))%string.

(** A date of the calendar with a time of the day, in the years that a
    nanosecond timestamp can hold in full. *)
Definition real_datetime (dt : datetime) : Prop :=
  1678 <= year dt <= 2261 /\ 1 <= month dt <= 12 /\
  1 <= day dt <= days_in_month (year dt) (month dt) /\
  hour dt <= 23 /\ minute dt <= 59.

(** A text of white space only. *)
Fixpoint all_space (s : string) : bool :=
  match s with
  | EmptyString => true
  | String a s' => is_space a && all_space s'
  end.

(** A row that carries the zero-padded text of the timestamp [dt]. *)
Definition well_formed_row {T : Type} (r : row T) (dt : datetime) : Prop :=
  real_datetime dt /\ DATE r = date_text dt /\ START_TIME r = time_text dt.

(** Whether the metadata has an entry for a key. *)
Definition has_key (metadata : dict) (key : string) : bool :=
  match dict_get metadata key with Some _ => true | None => false end.

End Layout.
Import Layout.

(* ------------------------------------------------------------------------- *)
(** ** Properties of the primitives *)

Section PyFacts.

Lemma str_app_assoc (a b c : string) :
  ((a ++ b) ++ c = a ++ b ++ c)%string.
Proof. induction a as [|x a IH]; cbn [append]; [reflexivity | now f_equal]. Qed.

Lemma prefix_app (n h : string) :
  String.prefix n h = true <-> exists b, h = (n ++ b)%string.
Proof.
  revert h; induction n as [|a n IH]; intros h.
  - split; [intros _; now exists h | intros _; now destruct h].
  - destruct h as [|c h]; simpl.
    + split; [discriminate | intros [b Hb]; discriminate].
    + destruct (Ascii.ascii_dec a c) as [->|Hac].
      * rewrite IH. split; intros [b Hb]; exists b;
          [now rewrite Hb | now injection Hb].
      * split; [discriminate | intros [b Hb]; injection Hb; congruence].
Qed.

(** [str_in] is the substring test. *)
Lemma str_in_spec (n h : string) :
  str_in n h = true <-> exists a b, h = (a ++ n ++ b)%string.
Proof.
  induction h as [|c h IH]; cbn [str_in].
  - rewrite orb_false_r. split.
    + intros Hp. apply prefix_app in Hp. destruct Hp as [b Hb].
      now exists EmptyString, b.
    + intros [a [b Hb]]. apply prefix_app.
      destruct a; [now exists b | discriminate].
  - rewrite orb_true_iff. split.
    + intros [Hp | Hin].
      * apply prefix_app in Hp. destruct Hp as [b Hb].
        now exists EmptyString, b.
      * apply IH in Hin. destruct Hin as [a [b Hb]].
        exists (String c a), b. simpl. now rewrite Hb.
    + intros [a [b Hb]]. destruct a as [|c' a]; simpl in Hb.
      * left. apply prefix_app. now exists b.
      * right. apply IH. exists a, b. congruence.
Qed.

Lemma isin_In (x : nat) (l : list nat) : isin x l = true <-> In x l.
Proof.
  unfold isin. rewrite existsb_exists. split.
  - intros [y [Hy Heq]]. apply Nat.eqb_eq in Heq. now subst.
  - intros Hx. exists x. split; [assumption | apply Nat.eqb_refl].
Qed.

Lemma isin_not_In (x : nat) (l : list nat) : isin x l = false <-> ~ In x l.
Proof.
  rewrite <- isin_In. destruct (isin x l); split; intros; congruence.
Qed.

Lemma mapM_Forall2 {A B} (f : A -> result B) (l : list A) (l' : list B) :
  mapM f l = Ok l' -> Forall2 (fun a b => f a = Ok b) l l'.
Proof.
  revert l'; induction l as [|a l IH]; simpl; intros l' E.
  - injection E as <-. constructor.
  - destruct (f a) as [b|] eqn:Ef; simpl in E; [|discriminate].
    destruct (mapM f l) as [bs|] eqn:Em; simpl in E; [|discriminate].
    injection E as <-. constructor; auto.
Qed.

End PyFacts.

(** ** Properties of the timestamp matcher *)

Section TimestampFacts.

Ltac split_conds :=
  repeat match goal with
    | H : (_ && _) = true |- _ => apply andb_true_iff in H; destruct H
    | H : (_ <=? _) = true |- _ => apply Nat.leb_le in H
    | H : (_ <? _) = true |- _ => apply Nat.ltb_lt in H
    | H : (_ =? _) = true |- _ => apply Nat.eqb_eq in H
    end.

Lemma step_ok (st st' : pstate) (a : ascii) :
  state_ok st -> step st a = Some st' -> state_ok st'.
Proof.
  intros Hok Hs. unfold step in Hs.
  destruct st, (digit_val a); cbv beta iota in Hs;
    repeat match type of Hs with
    | (if ?c then _ else _) = _ => destruct c eqn:?
    end;
    try discriminate; injection Hs as <-; cbn [state_ok] in *;
    split_conds; intuition lia.
Qed.

Lemma run_ok (s : string) : forall st st',
  state_ok st -> run st s = Some st' -> state_ok st'.
Proof.
  induction s as [|a s IH]; simpl; intros st st' Hok Hr.
  - now injection Hr as <-.
  - destruct (step st a) as [st1|] eqn:Hs; [|discriminate].
    eapply IH; [eapply step_ok; eassumption | eassumption].
Qed.

(** Every timestamp the matcher accepts has a month in 1..12 and an hour in
    0..23. *)
Lemma strptime_valid (s : string) (dt : datetime) :
  strptime s = Some dt -> valid dt.
Proof.
  unfold strptime. destruct (run (InMonth 0 0) s) as [st|] eqn:Hr; [|discriminate].
  apply run_ok in Hr; [|exact I].
  destruct st; simpl; try discriminate.
  destruct (_ && _) eqn:Hc; [|discriminate].
  intros E; injection E as <-. unfold valid; simpl in *.
  split_conds. intuition lia.
Qed.

Example strptime_reads : strptime "11/15/2023 10:59"
  = Some (mkDatetime 2023 11 15 10 59).
Proof. reflexivity. Qed.

Example strptime_short_fields : strptime "1/5/2023  7:05"
  = Some (mkDatetime 2023 1 5 7 5).
Proof. reflexivity. Qed.

Example strptime_blank_padded_day : strptime "11/ 5/2023 07:05"
  = Some (mkDatetime 2023 11 5 7 5).
Proof. reflexivity. Qed.

Example strptime_rejects :
  strptime "02/30/2023 07:05" = None /\ strptime "11/15/2023 24:00" = None /\
  strptime "13/01/2023 07:05" = None /\ strptime "2023-11-15 07:05" = None /\
  strptime "11/15/0000 07:05" = None /\ strptime "11/ 15/2023 07:05" = None.
Proof. repeat split; reflexivity. Qed.

Lemma run_app (s1 s2 : string) : forall st,
  run st (s1 ++ s2) =
  match run st s1 with Some st1 => run st1 s2 | None => None end.
Proof.
  induction s1 as [|a s1 IH]; simpl; intros st; [reflexivity|].
  destruct (step st a); [apply IH | reflexivity].
Qed.

Lemma step_blank (st st' : pstate) :
  step st " " = Some st' ->
  (exists mo d y, st' = InBlank mo d y) \/ (exists mo, st' = InDayPad mo).
Proof.
  unfold step. change (digit_val " ") with (@None nat).
  destruct st; cbv beta iota; try discriminate;
    change (sep " " "/") with false; change (sep " " " ") with true;
    cbv beta iota delta [andb];
    match goal with
    | |- (if ?c then _ else _) = _ -> _ => destruct c; [|discriminate]
    end;
    intros E; injection E as <-; eauto 6.
Qed.

(** Whatever precedes it, a text that ends in a blank and a two-digit time
    [h1 h2 : m1 m2] is read with the hour [10 * h1 + h2]: the minutes do not
    enter the hour. *)
Lemma run_time_suffix (st st' : pstate) (h1 h2 m1 m2 : ascii)
      (a b x y : nat) (dt : datetime) :
  digit_val h1 = Some a -> digit_val h2 = Some b ->
  digit_val m1 = Some x -> digit_val m2 = Some y ->
  run st (String " " (String h1 (String h2 (String ":"
            (String m1 (String m2 EmptyString)))))) = Some st' ->
  finish st' = Some dt ->
  hour dt = 10 * a + b /\ minute dt = 10 * x + y.
Proof.
  intros H1 H2 H3 H4 Hr Hf.
  cbn [run] in Hr.
  destruct (step st " ") as [s1|] eqn:E1; [|discriminate].
  apply step_blank in E1. destruct E1 as [[mo [d [yr ->]]] | [mo ->]].
  2:{ unfold step in Hr. rewrite H1, H2 in Hr. cbv beta iota in Hr.
      destruct (1 <=? a); [|discriminate].
      change (2 <? 2) with false in Hr. cbv beta iota in Hr. discriminate. }
  unfold step in Hr. rewrite H1, H2, H3, H4 in Hr.
  change (digit_val ":") with (@None nat) in Hr.
  cbv beta iota in Hr. change (1 <? 2) with true in Hr. cbv beta iota in Hr.
  destruct (sep ":" ":" && (1 <=? 2) && (10 * a + b <=? 23)); [|discriminate].
  change (0 <? 2) with true in Hr. cbv beta iota in Hr.
  change (1 <? 2) with true in Hr. cbv beta iota in Hr.
  injection Hr as <-. cbn [finish] in Hf.
  destruct (_ && _) in Hf; [|discriminate].
  injection Hf as <-. cbn [hour minute]. split; lia.
Qed.

End TimestampFacts.

(* ------------------------------------------------------------------------- *)
(** ** Classification *)

Section Classification.

Context {T : Type} {arith : Arith T}.

Lemma peak_hours_eq : peak_hours = [7; 8; 9; 10; 17; 18; 19; 20].
Proof. reflexivity. Qed.

Lemma winter_not_summer (m : nat) :
  In m winter_months -> isin m summer_months = false.
Proof.
  unfold winter_months. simpl.
  intros [<-|[<-|[<-|[<-|[<-|[]]]]]]; reflexivity.
Qed.

Lemma summer_not_winter (m : nat) :
  In m summer_months -> isin m winter_months = false.
Proof.
  unfold summer_months. simpl.
  intros [<-|[<-|[<-|[<-|[<-|[<-|[<-|[]]]]]]]]; reflexivity.
Qed.

(** A calendar month is a winter month or a summer month. *)
Lemma month_cases (m : nat) :
  1 <= m <= 12 -> In m winter_months \/ In m summer_months.
Proof.
  intros [Hlo Hhi].
  do 13 (destruct m as [|m]; [simpl; intuition lia|]). lia.
Qed.

Lemma buckets_winter_peak (r : trow T) :
  In (col_month r) winter_months -> In (col_hour r) peak_hours ->
  buckets_of r = [WinterPeak].
Proof.
  intros Hm Hh. unfold buckets_of, claims, is_winter_peak, is_winter_off_peak,
    is_summer; cbn [filter].
  rewrite (winter_not_summer _ Hm).
  apply isin_In in Hm, Hh. now rewrite Hm, Hh.
Qed.

Lemma buckets_winter_off_peak (r : trow T) :
  In (col_month r) winter_months -> ~ In (col_hour r) peak_hours ->
  buckets_of r = [WinterOffPeak].
Proof.
  intros Hm Hh. unfold buckets_of, claims, is_winter_peak, is_winter_off_peak,
    is_summer; cbn [filter].
  rewrite (winter_not_summer _ Hm).
  apply isin_In in Hm. apply isin_not_In in Hh. now rewrite Hm, Hh.
Qed.

Lemma buckets_summer (r : trow T) :
  In (col_month r) summer_months -> buckets_of r = [SummerAll].
Proof.
  intros Hm. unfold buckets_of, claims, is_winter_peak, is_winter_off_peak,
    is_summer; cbn [filter].
  rewrite (summer_not_winter _ Hm).
  apply isin_In in Hm. now rewrite Hm.
Qed.

(** Exactly one selection takes a row whose month is a calendar month. *)
Lemma one_bucket (r : trow T) :
  valid (col_datetime r) -> exists b, buckets_of r = [b].
Proof.
  intros [Hm _]. destruct (month_cases _ Hm) as [Hw|Hs].
  - destruct (isin (col_hour r) peak_hours) eqn:Hh.
    + exists WinterPeak. apply buckets_winter_peak; [assumption|].
      now apply isin_In.
    + exists WinterOffPeak. apply buckets_winter_off_peak; [assumption|].
      now apply isin_not_In.
  - exists SummerAll. now apply buckets_summer.
Qed.

Lemma add_datetime_stamp (r : row T) :
  add_datetime r =
  match stamp r with
  | Text s => d <- to_datetime s ;; Ok (Timed (mkTRow r d))
  | Missing => Ok (NaT r)
  end.
Proof. reflexivity. Qed.

Lemma stamp_Text (r : row T) (s : string) :
  stamp r = Text s <->
  exists d t, DATE r = Text d /\ START_TIME r = Text t /\
              s = ((d ++ " ") ++ t)%string.
Proof.
  unfold stamp. destruct (DATE r) as [d|], (START_TIME r) as [t|];
    cbn [cell_add]; split; try discriminate.
  - intros E; injection E as <-. now exists d, t.
  - intros (d' & t' & Ed & Et & ->). injection Ed as <-. now injection Et as <-.
  - intros (d' & t' & _ & Et & _). discriminate.
  - intros (d' & t' & Ed & _). discriminate.
  - intros (d' & t' & Ed & _). discriminate.
Qed.

Lemma stamp_Missing (r : row T) :
  stamp r = Missing <-> has_timestamp r = false.
Proof.
  unfold stamp, has_timestamp.
  destruct (DATE r), (START_TIME r); cbn; split; congruence.
Qed.

Lemma add_datetime_row (r : row T) (f : frow T) :
  add_datetime r = Ok f -> row_of f = r.
Proof.
  rewrite add_datetime_stamp. destruct (stamp r) as [s|].
  - unfold to_datetime. destruct (strptime s); cbn [bind]; [|discriminate].
    now intros E; injection E as <-.
  - now intros E; injection E as <-.
Qed.

Lemma add_datetime_inv (r : row T) (tr : trow T) :
  add_datetime r = Ok tr ->
  cells tr = r /\
  exists s, stamp r = Text s /\ strptime s = Some (col_datetime tr).
Proof.
  rewrite add_datetime_stamp. destruct (stamp r) as [s|] eqn:Hs; [|discriminate].
  unfold to_datetime.
  destruct (strptime s) as [d|] eqn:Hp; cbn [bind]; [|discriminate].
  intros E; injection E as <-. split; [reflexivity|]. now exists s.
Qed.

Lemma add_datetime_NaT (r r' : row T) :
  add_datetime r = Ok (NaT r') <-> r' = r /\ has_timestamp r = false.
Proof.
  rewrite <- stamp_Missing, add_datetime_stamp.
  destruct (stamp r) as [s|] eqn:Hs.
  - unfold to_datetime. destruct (strptime s); cbn [bind];
      split; try discriminate; intros [_ E]; discriminate.
  - split; [intros E; injection E as <-; now split | now intros [-> _]].
Qed.

Lemma add_datetime_valid (r : row T) (tr : trow T) :
  add_datetime r = Ok tr -> valid (col_datetime tr).
Proof.
  intros E. apply add_datetime_inv in E. destruct E as (_ & s & _ & E).
  eapply strptime_valid; eassumption.
Qed.

(** The hour column of a row whose [START TIME] is a two-digit time. *)
Lemma add_datetime_hour (r : row T) (tr : trow T) (h1 h2 m1 m2 : ascii)
      (a b x y : nat) :
  digit_val h1 = Some a -> digit_val h2 = Some b ->
  digit_val m1 = Some x -> digit_val m2 = Some y ->
  START_TIME r =
    String h1 (String h2 (String ":" (String m1 (String m2 EmptyString)))) ->
  add_datetime r = Ok tr ->
  col_hour tr = 10 * a + b.
Proof.
  intros H1 H2 H3 H4 Hst E. apply add_datetime_inv in E.
  destruct E as (_ & s & Hs & E).
  apply stamp_Text in Hs. destruct Hs as (d & t & _ & Ht & ->).
  rewrite Hst in Ht. injection Ht as <-.
  unfold strptime in E. rewrite str_app_assoc, run_app in E.
  destruct (run (InMonth 0 0) d) as [st|]; [|discriminate].
  match type of E with
  | match ?t with _ => _ end = _ => destruct t as [st'|] eqn:Hr; [|discriminate]
  end.
  unfold col_hour.
  exact (proj1 (run_time_suffix _ _ _ _ _ _ _ _ _ _ _ H1 H2 H3 H4 Hr E)).
Qed.

End Classification.

(* ------------------------------------------------------------------------- *)
(** ** Exact arithmetic *)

Section ExactFacts.

Local Open Scope Q_scope.

Lemma is_zero_true (q : Q) : is_zero q = true <-> q == 0.
Proof. apply Qeq_bool_iff. Qed.

Lemma is_zero_false (q : Q) : is_zero q = false <-> ~ q == 0.
Proof.
  rewrite <- is_zero_true. destruct (is_zero q); split; congruence.
Qed.

Lemma finite_Fin (a : xnum) : finite a -> a = Fin (qval a).
Proof. destruct a; simpl; intros H; now try contradiction. Qed.

Lemma fold_left_Qplus (l : list Q) (q : Q) :
  fold_left Qplus l q == q + Qsum l.
Proof.
  revert q; induction l as [|x l IH]; intros q; simpl.
  - ring.
  - rewrite IH. ring.
Qed.

Lemma Qsum_app (l l' : list Q) : Qsum (l ++ l') == Qsum l + Qsum l'.
Proof.
  induction l as [|x l IH]; simpl; [ring|]. rewrite IH. ring.
Qed.

Lemma is_sum_finite (x : xnum) : finite x -> is_sum x (qval x).
Proof. intros H. split; [exact H | reflexivity]. Qed.

Lemma is_sum_eq (x : xnum) (p q : Q) : is_sum x p -> p == q -> is_sum x q.
Proof. intros [Hf Hq] E. split; [exact Hf | now rewrite Hq]. Qed.

Lemma is_sum_add (a b : xnum) (p q : Q) :
  is_sum a p -> is_sum b q -> is_sum (add a b) (p + q).
Proof.
  intros [Fa Ha] [Fb Hb]. destruct a, b; cbn in Fa, Fb; try contradiction.
  cbn [qval] in Ha, Hb. split; [exact I|].
  cbn [add Arith_exact xadd qval]. now rewrite Ha, Hb.
Qed.

Lemma fold_left_is_sum (xs : list xnum) : forall (acc : xnum) (q : Q),
  Forall finite xs -> is_sum acc q ->
  is_sum (fold_left add xs acc) (q + Qsum (map qval xs)).
Proof.
  induction xs as [|x xs IH]; intros acc q Hf Hacc; cbn [fold_left map].
  - eapply is_sum_eq; [exact Hacc | simpl; ring].
  - inversion Hf as [|? ? Hx Hxs]; subst.
    eapply is_sum_eq.
    + apply IH; [exact Hxs|].
      apply is_sum_add; [exact Hacc | apply is_sum_finite; exact Hx].
    + simpl. ring.
Qed.

Lemma unrolled_is_sum (n : nat) : forall (a : list xnum) (r0 r1 r2 r3 r4 r5 r6 r7 : xnum),
  (List.length a <= n)%nat -> Forall finite a ->
  finite r0 -> finite r1 -> finite r2 -> finite r3 ->
  finite r4 -> finite r5 -> finite r6 -> finite r7 ->
  is_sum (unrolled r0 r1 r2 r3 r4 r5 r6 r7 a)
         (qval r0 + qval r1 + qval r2 + qval r3
          + qval r4 + qval r5 + qval r6 + qval r7 + Qsum (map qval a)).
Proof.
  assert (Hbase : forall (a : list xnum) (r0 r1 r2 r3 r4 r5 r6 r7 : xnum),
             Forall finite a ->
             finite r0 -> finite r1 -> finite r2 -> finite r3 ->
             finite r4 -> finite r5 -> finite r6 -> finite r7 ->
             is_sum (fold_left add a
                       (add (add (add r0 r1) (add r2 r3))
                            (add (add r4 r5) (add r6 r7))))
                    (qval r0 + qval r1 + qval r2 + qval r3
                     + qval r4 + qval r5 + qval r6 + qval r7
                     + Qsum (map qval a))).
  { intros a r0 r1 r2 r3 r4 r5 r6 r7 Ha F0 F1 F2 F3 F4 F5 F6 F7.
    eapply is_sum_eq.
    - apply fold_left_is_sum; [exact Ha|].
      repeat apply is_sum_add; apply is_sum_finite; assumption.
    - ring. }
  induction n as [|n IH]; intros a r0 r1 r2 r3 r4 r5 r6 r7 Hlen Ha
    F0 F1 F2 F3 F4 F5 F6 F7.
  - destruct a; [|simpl in Hlen; lia]. now apply Hbase.
  - destruct a as [|a0 [|a1 [|a2 [|a3 [|a4 [|a5 [|a6 [|a7 a']]]]]]]];
      try (now apply Hbase).
    cbn [unrolled].
    repeat match goal with
           | H : Forall finite (_ :: _) |- _ =>
               let Hx := fresh "Hx" in
               let Hr := fresh "Hr" in
               inversion H as [|? ? Hx Hr]; subst; clear H
           end.
    assert (E : forall x y, finite x -> finite y ->
                  is_sum (add x y) (qval x + qval y)).
    { intros x y Fx Fy. apply is_sum_add; now apply is_sum_finite. }
    eapply is_sum_eq.
    + apply (IH a'); try (apply E; assumption);
        [simpl in Hlen; lia | assumption].
    + rewrite !(fun x y Fx Fy => proj2 (E x y Fx Fy)) by assumption.
      simpl. ring.
Qed.

Lemma block_sum_is_sum (a : list xnum) :
  Forall finite a -> is_sum (block_sum a) (Qsum (map qval a)).
Proof.
  intros Ha.
  assert (Hbase : is_sum (fold_left add a (lit 0 0)) (Qsum (map qval a))).
  { eapply is_sum_eq.
    - apply fold_left_is_sum; [exact Ha|]. apply (is_sum_finite (Fin 0)). exact I.
    - simpl. ring. }
  destruct a as [|a0 [|a1 [|a2 [|a3 [|a4 [|a5 [|a6 [|a7 a']]]]]]]];
    try exact Hbase.
  clear Hbase. cbn [block_sum].
  repeat match goal with
         | H : Forall finite (_ :: _) |- _ =>
             let Hx := fresh "Hx" in
             let Hr := fresh "Hr" in
             inversion H as [|? ? Hx Hr]; subst; clear H
         end.
  eapply is_sum_eq.
  - apply (unrolled_is_sum (List.length a')); [lia | assumption..].
  - simpl. ring.
Qed.

Lemma pairwise_sum_is_sum (fuel : nat) : forall a : list xnum,
  Forall finite a -> is_sum (pairwise_sum fuel a) (Qsum (map qval a)).
Proof.
  induction fuel as [|fuel IH]; intros a Ha; cbn [pairwise_sum].
  - now apply block_sum_is_sum.
  - destruct (List.length a <=? 128)%nat; [now apply block_sum_is_sum|].
    set (n2 := (List.length a / 2 - (List.length a / 2) mod 8)%nat).
    eapply is_sum_eq.
    + apply is_sum_add; apply IH.
      * rewrite <- (firstn_skipn n2 a) in Ha. now apply Forall_app in Ha.
      * rewrite <- (firstn_skipn n2 a) in Ha. now apply Forall_app in Ha.
    + rewrite <- Qsum_app, <- map_app, firstn_skipn. reflexivity.
Qed.

Lemma fillna_finite (x : xnum) : finite x -> fillna x = x.
Proof. destruct x; simpl; intros H; now try contradiction. Qed.

Lemma fillna_value (x : xnum) :
  number_or_nan x -> finite (fillna x) /\ qval (fillna x) == qval x.
Proof.
  intros [H | ->]; [rewrite (fillna_finite x H); now split|].
  split; [exact I | reflexivity].
Qed.

(** The sum of a column of numbers and missing values is a number: the exact
    sum of the numbers. *)
Lemma series_sum_value (xs : list xnum) :
  Forall number_or_nan xs ->
  finite (series_sum xs) /\ qval (series_sum xs) == Qsum (map qval xs).
Proof.
  intros Hf. unfold series_sum.
  assert (Hfill : Forall finite (map fillna xs)).
  { rewrite Forall_map. eapply Forall_impl; [|exact Hf].
    intros x Hx. now apply fillna_value. }
  assert (Hq : Qsum (map qval (map fillna xs)) == Qsum (map qval xs)).
  { clear Hfill. induction Hf as [|x xs Hx _ IH]; [reflexivity|].
    cbn [map]. simpl. rewrite IH.
    now rewrite (proj2 (fillna_value x Hx)). }
  eapply is_sum_eq.
  - apply is_sum_add; [apply (is_sum_finite (Fin 0)); exact I|].
    apply pairwise_sum_is_sum. exact Hfill.
  - rewrite Hq. simpl. ring.
Qed.

(** The sum of a column of finite values is finite, and it is the exact sum
    of the values. *)
Lemma series_sum_finite (xs : list xnum) :
  Forall finite xs ->
  finite (series_sum xs) /\ qval (series_sum xs) == Qsum (map qval xs).
Proof.
  intros Hf. apply series_sum_value.
  eapply Forall_impl; [|exact Hf]. intros x Hx. now left.
Qed.

Lemma xdiv_finite (a : xnum) (c : Q) :
  finite a -> ~ c == 0 -> xdiv a (Fin c) = Fin (qval a / c).
Proof.
  intros Ha Hc. destruct a; simpl in Ha; try contradiction. simpl.
  apply is_zero_false in Hc. now rewrite Hc.
Qed.

(** Dividing a finite value by zero gives a NaN or an infinity. *)
Lemma xdiv_by_zero (a : xnum) (t : Q) :
  finite a -> t == 0 ->
  xdiv a (Fin t) = XNaN \/ xdiv a (Fin t) = PInf \/ xdiv a (Fin t) = NInf.
Proof.
  intros Ha Ht. destruct a; simpl in Ha; try contradiction. simpl.
  apply is_zero_true in Ht. rewrite Ht.
  destruct (is_zero q); [now left|].
  destruct (is_neg q); [right; now right | right; now left].
Qed.

(** The conversion factor is 1000 or 1. *)
Lemma conversion_exact (u : string) :
  conversion u = Fin (if str_in "Wh" u then 1000 else 1).
Proof. unfold conversion. now destruct (str_in "Wh" u). Qed.

Lemma conversion_nonzero (u : string) :
  ~ (if str_in "Wh" u then 1000 else 1) == 0.
Proof. destruct (str_in "Wh" u); discriminate. Qed.



End ExactFacts.

(* ------------------------------------------------------------------------- *)
(** ** The analysis, step by step *)

Section EngineFacts.

Context {T : Type} {arith : Arith T}.

(** What a successful run returns, for either arithmetic: the table with its
    timestamps, the unit of the first row, and every entry of the result in
    terms of the sums over the table. *)
Lemma analyze_frame_inv (rows : list (row T)) (res : results T) :
  analyze_frame rows = Ok res ->
  exists df first rest (u : string),
    mapM add_datetime rows = Ok df /\ rows = first :: rest /\
    UNITS first = u /\
    let c := conversion u in
    winter_peak_usage res = div (winter_peak df) c /\
    winter_off_peak_usage res = div (winter_off_peak df) c /\
    summer_usage res = div (summer_all df) c /\
    total_usage res = div (all_usage df) c /\
    winter_peak_percentage res =
      mul (div (winter_peak df) (all_usage df)) (lit 100 0) /\
    winter_off_peak_percentage res =
      mul (div (winter_off_peak df) (all_usage df)) (lit 100 0) /\
    summer_percentage res =
      mul (div (summer_all df) (all_usage df)) (lit 100 0) /\
    winter_peak_cost res = mul (winter_peak_usage res) RATE_WINTER_PEAK /\
    winter_off_peak_cost res =
      mul (winter_off_peak_usage res) RATE_WINTER_OFF_PEAK /\
    summer_cost res = mul (summer_usage res) RATE_SUMMER /\
    total_time_of_use_cost res =
      add (add (winter_peak_cost res) (winter_off_peak_cost res))
          (summer_cost res) /\
    total_fixed_rate_cost res = mul (total_usage res) RATE_FIXED /\
    savings res =
      sub (total_fixed_rate_cost res) (total_time_of_use_cost res).
Proof.
  unfold analyze_frame.
  destruct (add_text_dtype (map DATE rows)) as [texts|]; cbn [bind]; [|discriminate].
  destruct (mapM add_datetime rows) as [df|] eqn:Hdf; cbn [bind]; [|discriminate].
  destruct rows as [|first rest]; cbn [map iloc0 bind]; [discriminate|].
  destruct (UNITS first) as [u|] eqn:Hu; cbn [searched bind]; [|discriminate].
  intros E; injection E as <-.
  exists df, first, rest, u. cbn. repeat split; try reflexivity. exact Hu.
Qed.

Lemma some_date (rows : list (row T)) :
  forallb isna (map DATE rows) = false <->
  Exists (fun r => isna (DATE r) = false) rows.
Proof.
  induction rows as [|r l IH]; cbn [map forallb].
  - split; [discriminate | intros H; inversion H].
  - rewrite andb_false_iff, IH. split.
    + intros [Hr | Hl]; [now left | now right].
    + intros H. inversion H; subst; [now left | now right].
Qed.

(** The column of dates of a table that is analysed holds a date. *)
Lemma analyze_frame_dates (rows : list (row T)) (res : results T) :
  analyze_frame rows = Ok res ->
  Exists (fun r => isna (DATE r) = false) rows.
Proof.
  unfold analyze_frame, add_text_dtype.
  destruct rows as [|first rest]; [discriminate|].
  change (map DATE (first :: rest)) with (DATE first :: map DATE rest) at 1.
  cbv iota.
  destruct (forallb isna (map DATE (first :: rest))) eqn:Hall;
    cbn [bind]; [discriminate|].
  intros _. now apply some_date.
Qed.

Lemma add_text_dtype_Ok (rows : list (row T)) :
  Exists (fun r => isna (DATE r) = false) rows ->
  add_text_dtype (map DATE rows) = Ok tt.
Proof.
  intros H. unfold add_text_dtype.
  destruct rows as [|first rest]; [reflexivity|].
  change (map DATE (first :: rest)) with (DATE first :: map DATE rest) at 1.
  cbv iota.
  apply some_date in H. now rewrite H.
Qed.

(** A run succeeds as soon as the column of dates holds a date, every
    timestamp is read and the first row declares a unit. *)
Lemma analyze_frame_total (rows : list (row T)) (df : list (frow T))
      (first : row T) (rest : list (row T)) (u : string) :
  mapM add_datetime rows = Ok df -> rows = first :: rest ->
  UNITS first = u ->
  Exists (fun r => isna (DATE r) = false) rows ->
  exists res, analyze_frame rows = Ok res.
Proof.
  intros Hdf -> Hu Hdate. unfold analyze_frame.
  rewrite (add_text_dtype_Ok _ Hdate), Hdf. cbn [bind map iloc0].
  rewrite Hu. cbn [searched bind]. eauto.
Qed.

Lemma analyze_frame_empty : analyze_frame (@nil (row T)) =
  Raise (IndexError "single positional indexer is out-of-bounds").
Proof. reflexivity. Qed.

(** What the rows of the table with its timestamps are made of. *)
Lemma mapM_add_datetime (rows : list (row T)) (df : list (frow T)) :
  mapM add_datetime rows = Ok df ->
  map row_of df = rows /\
  Forall (fun f => match f with
                   | Timed t => valid (col_datetime t)
                   | NaT r => has_timestamp r = false
                   end) df.
Proof.
  intros E. apply mapM_Forall2 in E.
  induction E as [|r f rows df Hr _ [IH1 IH2]]; simpl.
  - split; constructor.
  - split.
    + f_equal; [now apply add_datetime_row in Hr | assumption].
    + constructor; [|assumption]. destruct f as [t|r'].
      * eapply add_datetime_valid; eassumption.
      * apply add_datetime_NaT in Hr. destruct Hr as [-> Hr]. exact Hr.
Qed.

(** A row with a timestamp is in one period, a row without is in none. *)
Lemma periods_of_frame (rows : list (row T)) (df : list (frow T)) :
  mapM add_datetime rows = Ok df ->
  Forall (fun f => if no_timestamp f then periods_of f = []
                   else exists b, periods_of f = [b]) df.
Proof.
  intros E. apply mapM_add_datetime in E. destruct E as [_ E].
  eapply Forall_impl; [|exact E].
  intros [t|r] H; cbn [no_timestamp]; [|reflexivity].
  now apply one_bucket.
Qed.

(** The [fuel] of the pairwise sum does not matter once it covers the
    length of the column: both parts of a cut are shorter than the whole. *)
Lemma pairwise_sum_fuel (f1 : nat) : forall (f2 : nat) (a : list T),
  List.length a <= f1 -> List.length a <= f2 ->
  pairwise_sum f1 a = pairwise_sum f2 a.
Proof.
  induction f1 as [|f1 IH]; intros f2 a H1 H2.
  - destruct a; [|simpl in H1; lia]. now destruct f2.
  - destruct f2 as [|f2]; [destruct a; [reflexivity | simpl in H2; lia]|].
    cbn [pairwise_sum].
    destruct (List.length a <=? 128) eqn:Hlen; [reflexivity|].
    apply Nat.leb_gt in Hlen.
    set (n := List.length a) in *.
    assert (Hn2 : 1 <= n / 2 - (n / 2) mod 8 < n).
    { assert (64 <= n / 2) by (apply Nat.div_le_lower_bound; lia).
      assert ((n / 2) mod 8 < 8) by (apply Nat.mod_upper_bound; lia).
      assert (n / 2 < n) by (apply Nat.div_lt; lia).
      lia. }
    f_equal; apply IH; rewrite ?length_firstn, ?length_skipn; fold n; lia.
Qed.

(** The three selections of a row that exactly one period takes. *)
Lemma buckets_singleton (r : trow T) (b : Bucket) :
  buckets_of r = [b] ->
  match b with
  | WinterPeak =>
      is_winter_peak r = true /\ is_winter_off_peak r = false /\
      is_summer r = false
  | WinterOffPeak =>
      is_winter_peak r = false /\ is_winter_off_peak r = true /\
      is_summer r = false
  | SummerAll =>
      is_winter_peak r = false /\ is_winter_off_peak r = false /\
      is_summer r = true
  end.
Proof.
  unfold buckets_of, claims; cbn [filter].
  destruct (is_winter_peak r), (is_winter_off_peak r), (is_summer r), b;
    intros E; try discriminate; auto.
Qed.

(** The three selections and the rows without timestamp split the table: no
    row is taken twice, none is left out. *)
Lemma selections_permutation (df : list (frow T)) :
  Forall (fun f => if no_timestamp f then periods_of f = []
                   else exists b, periods_of f = [b]) df ->
  Permutation
    (filter (selected is_winter_peak) df
       ++ filter (selected is_winter_off_peak) df
       ++ filter (selected is_summer) df ++ filter no_timestamp df) df.
Proof.
  induction 1 as [|f df Hf _ IH]; cbn [filter]; [constructor|].
  destruct f as [t|r]; cbn [selected no_timestamp] in *.
  - destruct Hf as [b Hb]. apply buckets_singleton in Hb.
    destruct b; destruct Hb as [-> [-> ->]].
    + simpl. now constructor.
    + apply Permutation_sym, Permutation_cons_app, Permutation_sym, IH.
    + apply Permutation_sym.
      rewrite app_assoc. apply Permutation_cons_app.
      rewrite <- app_assoc. apply Permutation_sym, IH.
  - apply Permutation_sym. rewrite !app_assoc. apply Permutation_cons_app.
    rewrite <- !app_assoc. apply Permutation_sym, IH.
Qed.

End EngineFacts.

(** ** The sums in exact arithmetic *)

Section ExactSums.

Local Open Scope Q_scope.

Lemma finite_known (rows : list (row xnum)) :
  finite_usage rows -> known_usage rows.
Proof.
  intros H. eapply Forall_impl; [|exact H]. intros r Hr. now left.
Qed.

Lemma known_col_usage (rows : list (row xnum)) (df : list (frow xnum)) :
  map row_of df = rows -> known_usage rows ->
  Forall number_or_nan (col_usage df).
Proof.
  intros <- Hf. unfold known_usage, col_usage in *.
  rewrite Forall_map in Hf. now rewrite Forall_map.
Qed.

Lemma finite_col_filter (P : xnum -> Prop) (p : frow xnum -> bool)
      (df : list (frow xnum)) :
  Forall P (col_usage df) -> Forall P (col_usage (filter p df)).
Proof.
  unfold col_usage. rewrite !Forall_map, !Forall_forall.
  intros H r Hr. apply filter_In in Hr. now apply H.
Qed.

Lemma qtotal_rows (rows : list (row xnum)) (df : list (frow xnum)) :
  map row_of df = rows -> qtotal df = qreadings rows.
Proof.
  intros <-. unfold qtotal, qreadings, col_usage. now rewrite !map_map.
Qed.

Lemma qtotal_partition (df : list (frow xnum)) :
  Forall (fun f => if no_timestamp f then periods_of f = []
                   else exists b, periods_of f = [b]) df ->
  qtotal (filter (selected is_winter_peak) df)
    + qtotal (filter (selected is_winter_off_peak) df)
    + qtotal (filter (selected is_summer) df)
    + qtotal (filter no_timestamp df) == qtotal df.
Proof.
  unfold qtotal.
  induction 1 as [|f df Hf _ IH]; cbn [filter]; [reflexivity|].
  destruct f as [t|r]; cbn [selected no_timestamp] in *.
  - destruct Hf as [b Hb]. apply buckets_singleton in Hb.
    destruct b; destruct Hb as [-> [-> ->]]; simpl; rewrite <- IH; ring.
  - simpl. rewrite <- IH. ring.
Qed.

(** A table in which every row has a date and a time has a timestamp in
    every row. *)
Lemma all_timed (rows : list (row xnum)) (df : list (frow xnum)) :
  mapM add_datetime rows = Ok df ->
  Forall (fun r => has_timestamp r = true) rows ->
  filter no_timestamp df = [].
Proof.
  intros E. apply mapM_Forall2 in E.
  induction E as [|r f rows df Hr _ IH]; intros Hall; [reflexivity|].
  inversion Hall as [|? ? Hts Hrest]; subst. cbn [filter].
  destruct f as [t|r']; cbn [no_timestamp]; [now apply IH|].
  apply add_datetime_NaT in Hr. destruct Hr as [_ Hr]. congruence.
Qed.

(** With readings that are numbers or missing, the four sums of the script
    are finite and are the exact sums of their selections. *)
Lemma sums_exact (df : list (frow xnum)) :
  Forall number_or_nan (col_usage df) ->
  (finite (winter_peak df) /\
     qval (winter_peak df) == qtotal (filter (selected is_winter_peak) df)) /\
  (finite (winter_off_peak df) /\
     qval (winter_off_peak df)
       == qtotal (filter (selected is_winter_off_peak) df)) /\
  (finite (summer_all df) /\
     qval (summer_all df) == qtotal (filter (selected is_summer) df)) /\
  (finite (all_usage df) /\ qval (all_usage df) == qtotal df).
Proof.
  intros Hf. unfold winter_peak, winter_off_peak, summer_all, all_usage, qtotal.
  repeat split;
    try (apply series_sum_value; try apply finite_col_filter; assumption).
Qed.

End ExactSums.

(* ------------------------------------------------------------------------- *)
(** ** Periods *)

Section Periods.

Context {T : Type} {arith : Arith T}.

(** C3: the period of a row is a function of the month and the hour of its
    timestamp alone.  A month in {11,12,1,2,3} with an hour in
    {7,8,9,10,17,18,19,20} gives WinterPeak, the same months with any other
    hour give WinterOffPeak, and a month in {4,...,10} gives SummerAll. *)
Theorem bucket_rule (r : trow T) :
  (In (col_month r) [11; 12; 1; 2; 3] ->
   In (col_hour r) [7; 8; 9; 10; 17; 18; 19; 20] ->
   buckets_of r = [WinterPeak]) /\
  (In (col_month r) [11; 12; 1; 2; 3] ->
   ~ In (col_hour r) [7; 8; 9; 10; 17; 18; 19; 20] ->
   buckets_of r = [WinterOffPeak]) /\
  (In (col_month r) [4; 5; 6; 7; 8; 9; 10] ->
   buckets_of r = [SummerAll]) /\
  (forall r' : trow T,
     col_month r' = col_month r -> col_hour r' = col_hour r ->
     buckets_of r' = buckets_of r).
Proof.
  rewrite <- peak_hours_eq.
  split; [apply buckets_winter_peak|].
  split; [apply buckets_winter_off_peak|].
  split; [apply buckets_summer|].
  intros r' Hm Hh.
  unfold buckets_of, claims, is_winter_peak, is_winter_off_peak, is_summer.
  now rewrite Hm, Hh.
Qed.

(** C7: the hour is the hour field of the 24-hour time of day, whatever the
    minutes (a time [ab:xy] is in hour [10a+b]).  In a winter month a reading
    at 10:59 is in hour 10 and is WinterPeak, one at 11:00 is in hour 11 and
    is WinterOffPeak, one at 16:59 is in hour 16 and is WinterOffPeak, and
    one at 17:00 is in hour 17 and is WinterPeak. *)
Theorem hour_boundaries (r : row T) (tr : trow T) :
  add_datetime r = Ok tr ->
  In (col_month tr) [11; 12; 1; 2; 3] ->
  (START_TIME r = "10:59" ->
   col_hour tr = 10 /\ buckets_of tr = [WinterPeak]) /\
  (START_TIME r = "11:00" ->
   col_hour tr = 11 /\ buckets_of tr = [WinterOffPeak]) /\
  (START_TIME r = "16:59" ->
   col_hour tr = 16 /\ buckets_of tr = [WinterOffPeak]) /\
  (START_TIME r = "17:00" ->
   col_hour tr = 17 /\ buckets_of tr = [WinterPeak]) /\
  (forall (h1 h2 m1 m2 : ascii) (a b x y : nat),
     digit_val h1 = Some a -> digit_val h2 = Some b ->
     digit_val m1 = Some x -> digit_val m2 = Some y ->
     START_TIME r =
       String h1 (String h2 (String ":" (String m1 (String m2 EmptyString)))) ->
     col_hour tr = 10 * a + b).
Proof.
  intros E Hm.
  assert (Hhour : forall h1 h2 m1 m2 a b x y,
             digit_val h1 = Some a -> digit_val h2 = Some b ->
             digit_val m1 = Some x -> digit_val m2 = Some y ->
             START_TIME r =
               String h1 (String h2 (String ":" (String m1 (String m2 EmptyString)))) ->
             col_hour tr = 10 * a + b).
  { intros h1 h2 m1 m2 a b x y H1 H2 H3 H4 Hs.
    exact (add_datetime_hour r tr h1 h2 m1 m2 a b x y H1 H2 H3 H4 Hs E). }
  assert (H10 : START_TIME r = "10:59" -> col_hour tr = 10).
  { intros Hs. now apply (Hhour "1" "0" "5" "9" 1 0 5 9)%char. }
  assert (H11 : START_TIME r = "11:00" -> col_hour tr = 11).
  { intros Hs. now apply (Hhour "1" "1" "0" "0" 1 1 0 0)%char. }
  assert (H16 : START_TIME r = "16:59" -> col_hour tr = 16).
  { intros Hs. now apply (Hhour "1" "6" "5" "9" 1 6 5 9)%char. }
  assert (H17 : START_TIME r = "17:00" -> col_hour tr = 17).
  { intros Hs. now apply (Hhour "1" "7" "0" "0" 1 7 0 0)%char. }
  split; [|split; [|split; [|split; [|exact Hhour]]]];
    intros Hs; (split; [auto|]).
  - apply buckets_winter_peak; [exact Hm|].
    rewrite (H10 Hs). simpl; tauto.
  - apply buckets_winter_off_peak; [exact Hm|].
    rewrite (H11 Hs). simpl. intuition discriminate.
  - apply buckets_winter_off_peak; [exact Hm|].
    rewrite (H16 Hs). simpl. intuition discriminate.
  - apply buckets_winter_peak; [exact Hm|].
    rewrite (H17 Hs). simpl; tauto.
Qed.

End Periods.

Lemma hour_boundaries_witness :
  let r := mkRow "12/31/2023" "10:59" (Fin 1) "Wh" in
  let tr := mkTRow r (mkDatetime 2023 12 31 10 59) in
  add_datetime r = Ok tr /\
  col_hour tr = 10 /\ buckets_of tr = [WinterPeak].
Proof.
  intros r tr.
  split; [reflexivity|].
  apply (hour_boundaries r tr); [reflexivity | simpl; tauto | reflexivity].
Defined.

(* ------------------------------------------------------------------------- *)
(** ** Usage and cost in exact arithmetic *)

Section ExactAnalysis.

Local Open Scope Q_scope.

(** The kWh figure of a finite sum. *)
Lemma kwh_exact (x : xnum) (u : string) :
  finite x ->
  div x (conversion u) =
  Fin (qval x / (if str_in "Wh" u then 1000 else 1)).
Proof.
  intros Hx. rewrite conversion_exact. cbn [div Arith_exact].
  apply xdiv_finite; [assumption | apply conversion_nonzero].
Qed.

(** With every timestamp read and finite readings: finite sums, and the
    three sums and the usage of the rows without timestamp add up to the
    total. *)
Lemma sums_add_up (rows : list (row xnum)) (df : list (frow xnum)) :
  mapM add_datetime rows = Ok df ->
  finite_usage rows ->
  (finite (winter_peak df) /\ finite (winter_off_peak df) /\
   finite (summer_all df) /\ finite (all_usage df)) /\
  qval (winter_peak df) + qval (winter_off_peak df) + qval (summer_all df)
    + qtotal (filter no_timestamp df) == qval (all_usage df) /\
  qval (all_usage df) == qreadings rows.
Proof.
  intros Hdf Hfin.
  assert (Hone := periods_of_frame _ _ Hdf).
  destruct (mapM_add_datetime _ _ Hdf) as [Hcells _].
  assert (Hcol := known_col_usage _ _ Hcells (finite_known _ Hfin)).
  destruct (sums_exact df Hcol)
    as [[Fwp Ewp] [[Fwo Ewo] [[Fsu Esu] [Fall Eall]]]].
  split; [now repeat split|]. split.
  - rewrite Ewp, Ewo, Esu, Eall. now apply qtotal_partition.
  - now rewrite Eall, (qtotal_rows _ _ Hcells).
Qed.

(** C4: every row with a date and a time is taken by exactly one of the three
    selections and a row without by none; the three selections and the rows
    without timestamp together are the whole table (no row twice, none left
    out).  In exact arithmetic the three sums and the usage of the rows
    without timestamp add up to the total; so the three sums add up to the
    total, before the conversion to kWh and in the result, when every row
    has a date and a time. *)
Theorem partition_complete :
  (forall (T : Type) (arith : Arith T)
          (rows : list (row T)) (df : list (frow T)),
     mapM add_datetime rows = Ok df ->
     map row_of df = rows /\
     Forall (fun f => if has_timestamp (row_of f)
                      then exists b, periods_of f = [b]
                      else periods_of f = []) df /\
     Permutation
       (filter (selected is_winter_peak) df
          ++ filter (selected is_winter_off_peak) df
          ++ filter (selected is_summer) df ++ filter no_timestamp df) df) /\
  (forall (rows : list (row xnum)) (df : list (frow xnum)),
     mapM add_datetime rows = Ok df ->
     finite_usage rows ->
     qval (winter_peak df) + qval (winter_off_peak df) + qval (summer_all df)
       + qtotal (filter no_timestamp df) == qval (all_usage df) /\
     (Forall (fun r => has_timestamp r = true) rows ->
      qval (winter_peak df) + qval (winter_off_peak df) + qval (summer_all df)
        == qval (all_usage df) /\
      forall res, analyze_frame rows = Ok res ->
        qval (winter_peak_usage res) + qval (winter_off_peak_usage res)
          + qval (summer_usage res) == qval (total_usage res))).
Proof.
  split.
  - intros T arith rows df Hdf.
    assert (Hone := periods_of_frame _ _ Hdf).
    split; [now apply mapM_add_datetime in Hdf|].
    split; [|now apply selections_permutation].
    apply mapM_Forall2 in Hdf. clear Hone.
    induction Hdf as [|r f rows df Hr _ IH]; constructor; [|exact IH].
    rewrite (add_datetime_row _ _ Hr). destruct f as [t|r'].
    + assert (Hv := add_datetime_valid _ _ Hr).
      apply add_datetime_inv in Hr. destruct Hr as (_ & s & Hs & _).
      destruct (has_timestamp r) eqn:Hts.
      * now apply one_bucket.
      * apply stamp_Missing in Hts. congruence.
    + apply add_datetime_NaT in Hr. destruct Hr as [_ ->]. reflexivity.
  - intros rows df Hdf Hfin.
    destruct (sums_add_up rows df Hdf Hfin)
      as ((Fwp & Fwo & Fsu & Fall) & Hsum & _).
    split; [exact Hsum|]. intros Hts.
    rewrite (all_timed _ _ Hdf Hts) in Hsum.
    assert (Hsum' : qval (winter_peak df) + qval (winter_off_peak df)
                    + qval (summer_all df) == qval (all_usage df)).
    { rewrite <- Hsum. unfold qtotal. simpl. ring. }
    split; [exact Hsum'|].
    intros res Hres.
    destruct (analyze_frame_inv _ _ Hres)
      as (df' & first & rest & u & Hdf' & -> & Hu & Hwp & Hwo & Hsu & Hall & _).
    rewrite Hdf in Hdf'. injection Hdf' as <-.
    cbv zeta in Hwp, Hwo, Hsu, Hall.
    rewrite Hwp, Hwo, Hsu, Hall, !kwh_exact by assumption.
    cbn [qval]. rewrite <- Hsum'.
    destruct (str_in "Wh" u); field.
Qed.

Lemma partition_complete_witness :
  let rows := three_rows_exact "Wh" in
  let df := frame_of rows in
  qval (winter_peak df) + qval (winter_off_peak df) + qval (summer_all df)
    == qval (all_usage df).
Proof.
  intros rows df.
  assert (Hdf : mapM add_datetime rows = Ok df) by (vm_compute; reflexivity).
  assert (Hfin : finite_usage rows) by (repeat constructor).
  assert (Hts : Forall (fun r => has_timestamp r = true) rows)
    by (repeat constructor).
  exact (proj1 (proj2 (proj2 partition_complete rows df Hdf Hfin) Hts)).
Defined.


Lemma pct_zero_total (x t : xnum) :
  finite x -> finite t -> qval t == 0 ->
  nonfinite (mul (div x t) (lit 100 0)) = true.
Proof.
  intros Hx Ht Hz. rewrite (finite_Fin t Ht). cbn [div mul Arith_exact].
  destruct (xdiv_by_zero x _ Hx Hz) as [-> | [-> | ->]]; reflexivity.
Qed.





(** C10: the fixed rate is the winter off-peak rate, so the fixed-rate cost
    of every result is the total kWh priced at the winter off-peak rate, in
    the arithmetic of the run.  In exact arithmetic the savings are the
    winter peak kWh times (fixed rate - winter peak rate) plus the summer kWh
    times (fixed rate - summer rate) plus the kWh of the rows without
    timestamp (the total less the three periods) times the fixed rate.  When
    every row has a date and a time the last term is zero and the winter
    off-peak usage does not enter the savings. *)
Theorem off_peak_usage_cancels :
  (forall (T : Type) (a : Arith T),
     @RATE_FIXED T a = @RATE_WINTER_OFF_PEAK T a) /\
  (forall (T : Type) (arith : Arith T)
          (rows : list (row T)) (res : results T),
     analyze_frame rows = Ok res ->
     total_fixed_rate_cost res =
       mul (total_usage res) RATE_WINTER_OFF_PEAK) /\
  (forall (rows : list (row xnum)) (res : results xnum),
     finite_usage rows ->
     analyze_frame rows = Ok res ->
     finite (savings res) /\
     qval (savings res) ==
       qval (winter_peak_usage res) * (qval RATE_FIXED - qval RATE_WINTER_PEAK)
       + qval (summer_usage res) * (qval RATE_FIXED - qval RATE_SUMMER)
       + (qval (total_usage res) - qval (winter_peak_usage res)
          - qval (winter_off_peak_usage res) - qval (summer_usage res))
         * qval RATE_FIXED /\
     (Forall (fun r => has_timestamp r = true) rows ->
      qval (savings res) ==
        qval (winter_peak_usage res)
          * (qval RATE_FIXED - qval RATE_WINTER_PEAK)
        + qval (summer_usage res) * (qval RATE_FIXED - qval RATE_SUMMER))).
Proof.
  split; [reflexivity|]. split.
  - intros T arith rows res Hres.
    destruct (analyze_frame_inv _ _ Hres)
      as (df & first & rest & u & _ & _ & _ & _ & _ & _ & _ & _ & _ & _
          & _ & _ & _ & _ & Cfix & _).
    exact Cfix.
  - intros rows res Hfin Hres.
    destruct (analyze_frame_inv _ _ Hres)
      as (df & first & rest & u & Hdf & Hrows & Hu & Hwp & Hwo & Hsu & Hall
          & _ & _ & _ & Cwp & Cwo & Csu & Ctou & Cfix & Csav).
    destruct (sums_add_up rows df Hdf Hfin)
      as ((Fwp & Fwo & Fsu & Fall) & Hsum & _).
    cbv zeta in Hwp, Hwo, Hsu, Hall.
    rewrite kwh_exact in Hwp, Hwo, Hsu, Hall by assumption.
    rewrite Csav, Cfix, Ctou, Cwp, Cwo, Csu, Hwp, Hwo, Hsu, Hall.
    change (@RATE_FIXED xnum _) with (Fin (17703 # 100000)).
    change (@RATE_WINTER_OFF_PEAK xnum _) with (Fin (17703 # 100000)).
    change (@RATE_WINTER_PEAK xnum _) with (Fin (34634 # 100000)).
    change (@RATE_SUMMER xnum _) with (Fin (12198 # 100000)).
    cbn [mul add sub Arith_exact xmul xadd xsub xneg qval finite].
    split; [exact I|]. split.
    + destruct (str_in "Wh" u); field.
    + intros Hts. rewrite (all_timed _ _ Hdf Hts) in Hsum.
      assert (Hsum' : qval (winter_peak df) + qval (winter_off_peak df)
                      + qval (summer_all df) == qval (all_usage df)).
      { rewrite <- Hsum. unfold qtotal. simpl. ring. }
      rewrite <- Hsum'. destruct (str_in "Wh" u); field.
Qed.

Lemma off_peak_usage_cancels_witness :
  exists res, analyze_frame (three_rows_exact "Wh") = Ok res /\
  qval (savings res) ==
    qval (winter_peak_usage res) * (qval RATE_FIXED - qval RATE_WINTER_PEAK)
    + qval (summer_usage res) * (qval RATE_FIXED - qval RATE_SUMMER).
Proof.
  assert (Hres : { res | analyze_frame (three_rows_exact "Wh") = Ok res })
    by (eexists; vm_compute; reflexivity).
  assert (Hfin : finite_usage (three_rows_exact "Wh")) by (repeat constructor).
  assert (Hts : Forall (fun r => has_timestamp r = true) (three_rows_exact "Wh"))
    by (repeat constructor).
  destruct Hres as [res Hres].
  exists res. split; [exact Hres|].
  exact (proj2 (proj2
    (proj2 (proj2 off_peak_usage_cancels) _ res Hfin Hres)) Hts).
Defined.

End ExactAnalysis.

(* ------------------------------------------------------------------------- *)
(** ** Units *)

Section Units.

Context {T : Type} {arith : Arith T}.

(** The factor is 1000 for every unit text in which [Wh] occurs, and 1 for
    every other text. *)
Lemma conversion_Wh (u : string) :
  (exists a b, u = (a ++ "Wh" ++ b)%string) -> conversion u = lit 1000 0.
Proof.
  intros H. apply str_in_spec in H. unfold conversion. now rewrite H.
Qed.

Lemma conversion_other (u : string) :
  ~ (exists a b, u = (a ++ "Wh" ++ b)%string) -> conversion u = lit 1 0.
Proof.
  intros H. unfold conversion.
  destruct (str_in "Wh" u) eqn:E; [|reflexivity].
  exfalso. apply H. now apply str_in_spec.
Qed.

End Units.

(** In binary64 the rate constants are the doubles nearest to the decimal
    literals of the source. *)
#[local] Set Warnings "-inexact-float".

Lemma rates_binary64 :
  @RATE_WINTER_PEAK float _ = 0.34634%float /\
  @RATE_WINTER_OFF_PEAK float _ = 0.17703%float /\
  @RATE_SUMMER float _ = 0.12198%float /\
  @RATE_FIXED float _ = 0.17703%float.
Proof. repeat split; vm_compute; reflexivity. Qed.

#[local] Set Warnings "inexact-float".

(** C1: a table whose first row declares the unit [kWh].  The test for [Wh]
    also holds of [kWh], so the factor is 1000 and the 1500 kWh of the table
    are reported as 1.5, in exact arithmetic and in binary64; with the unit
    [Wh] the same figures result. *)
Theorem kWh_is_scaled_like_Wh :
  str_in "Wh" "kWh" = true /\
  conversion (T := xnum) "kWh" = Fin 1000 /\
  conversion (T := float) "kWh" = 1000%float /\
  (exists res, analyze_frame (one_row_exact "kWh") = Ok res /\
     xeqb (winter_peak_usage res) (Fin 1.5) = true /\
     xeqb (total_usage res) (Fin 1.5) = true /\
     xeqb (total_usage res) (Fin 1500) = false) /\
  analyze_frame (one_row_exact "kWh") = analyze_frame (one_row_exact "Wh").
Proof.
  split; [reflexivity|].
  split; [reflexivity|].
  split; [vm_compute; reflexivity|].
  split; [|vm_compute; reflexivity].
  eexists. split; [vm_compute; reflexivity|].
  repeat split; vm_compute; reflexivity.
Qed.

(** C6: the three readings of the worked example with the unit [kWh].  Every
    figure comes out divided by 1000: 0.002, 0.001, 0.003 and 0.006 kWh, a
    time-of-use cost of 0.00123565, a fixed-rate cost of 0.00106218 and
    savings of -0.00017347.  The figures of the example (2, 1, 3, 6, ...,
    -0.17347) are those of a unit text without [Wh]. *)
Theorem worked_example_in_kWh :
  (exists res, analyze_frame (three_rows_exact "kWh") = Ok res /\
     xeqb (winter_peak_usage res) (Fin 0.002) = true /\
     xeqb (winter_off_peak_usage res) (Fin 0.001) = true /\
     xeqb (summer_usage res) (Fin 0.003) = true /\
     xeqb (total_usage res) (Fin 0.006) = true /\
     xeqb (winter_peak_cost res) (Fin 0.00069268) = true /\
     xeqb (winter_off_peak_cost res) (Fin 0.00017703) = true /\
     xeqb (summer_cost res) (Fin 0.00036594) = true /\
     xeqb (total_time_of_use_cost res) (Fin 0.00123565) = true /\
     xeqb (total_fixed_rate_cost res) (Fin 0.00106218) = true /\
     xeqb (savings res) (Fin (-0.00017347)) = true /\
     xeqb (total_usage res) (Fin 6) = false /\
     xeqb (savings res) (Fin (-0.17347)) = false) /\
  (exists res, analyze_frame (three_rows_binary64 "kWh") = Ok res /\
     PrimFloat.ltb (total_usage res) 1%float = true /\
     PrimFloat.ltb (total_time_of_use_cost res) 0.0078125%float = true) /\
  (exists res, analyze_frame (three_rows_exact "kW h") = Ok res /\
     xeqb (winter_peak_usage res) (Fin 2) = true /\
     xeqb (winter_off_peak_usage res) (Fin 1) = true /\
     xeqb (summer_usage res) (Fin 3) = true /\
     xeqb (total_usage res) (Fin 6) = true /\
     xeqb (winter_peak_cost res) (Fin 0.69268) = true /\
     xeqb (winter_off_peak_cost res) (Fin 0.17703) = true /\
     xeqb (summer_cost res) (Fin 0.36594) = true /\
     xeqb (total_time_of_use_cost res) (Fin 1.23565) = true /\
     xeqb (total_fixed_rate_cost res) (Fin 1.06218) = true /\
     xeqb (savings res) (Fin (-0.17347)) = true).
Proof.
  split; [|split];
    (eexists; split; [vm_compute; reflexivity|]);
    repeat split; vm_compute; reflexivity.
Qed.

(** C2, as stated, fails: a table with one reading of zero has a total usage
    of zero, and the analysis returns a result whose three percentages are
    NaN, in binary64 as in exact arithmetic.  Usage that cancels out gives
    infinite percentages. *)
Lemma zero_usage_returns_nan :
  (all_usage (frame_of idle_binary64) = 0%float /\
   exists res, analyze_frame idle_binary64 = Ok res /\
     PrimFloat.is_nan (winter_peak_percentage res) = true /\
     PrimFloat.is_nan (winter_off_peak_percentage res) = true /\
     PrimFloat.is_nan (summer_percentage res) = true) /\
  (all_usage (frame_of idle_exact) = Fin 0 /\
   exists res, analyze_frame idle_exact = Ok res /\
     winter_peak_percentage res = XNaN /\
     winter_off_peak_percentage res = XNaN /\
     summer_percentage res = XNaN) /\
  (all_usage (frame_of cancelling_binary64) = 0%float /\
   exists res, analyze_frame cancelling_binary64 = Ok res /\
     winter_peak_percentage res = infinity /\
     winter_off_peak_percentage res = neg_infinity /\
     PrimFloat.is_nan (summer_percentage res) = true).
Proof.
  split; [|split];
    (split; [vm_compute; reflexivity|]);
    (eexists; split; [vm_compute; reflexivity|]);
    repeat split; vm_compute; reflexivity.
Qed.

(** C4, as stated, fails in two ways.  In binary64 the three sums are rounded
    one by one: for readings of 0.1, 0.1, 0.1 and 0.4 kWh, each with a date
    and a time, they add up to the double nearest to 0.7 while the total
    is the next double above it.  And a row without a date is taken by no
    selection, while its usage is part of the total: for the readings 2, 1
    and 3, the second without a date, the three sums add up to 5 and the
    total is 6, in exact arithmetic. *)
Lemma bucket_sums_miss_total :
  (let df := frame_of tenths_binary64 in
   mapM add_datetime tenths_binary64 = Ok df /\
   PrimFloat.eqb
     (add (add (winter_peak df) (winter_off_peak df)) (summer_all df))
     (all_usage df) = false /\
   PrimFloat.ltb
     (add (add (winter_peak df) (winter_off_peak df)) (summer_all df))
     (all_usage df) = true /\
   exists res, analyze_frame tenths_binary64 = Ok res /\
     PrimFloat.eqb
       (add (add (winter_peak_usage res) (winter_off_peak_usage res))
            (summer_usage res))
       (total_usage res) = false) /\
  (let df := frame_of undated_exact in
   mapM add_datetime undated_exact = Ok df /\
   Exists (fun f => periods_of f = []) df /\
   xeqb (add (add (winter_peak df) (winter_off_peak df)) (summer_all df))
        (Fin 5) = true /\
   xeqb (all_usage df) (Fin 6) = true /\
   exists res, analyze_frame undated_exact = Ok res /\
     xeqb (add (add (winter_peak_usage res) (winter_off_peak_usage res))
               (summer_usage res)) (Fin 5) = true /\
     xeqb (total_usage res) (Fin 6) = true).
Proof.
  split.
  - cbv zeta. split; [vm_compute; reflexivity|].
    split; [vm_compute; reflexivity|].
    split; [vm_compute; reflexivity|].
    eexists. split; [vm_compute; reflexivity|]. vm_compute; reflexivity.
  - cbv zeta. split; [vm_compute; reflexivity|].
    split; [right; left; reflexivity|].
    split; [vm_compute; reflexivity|].
    split; [vm_compute; reflexivity|].
    eexists. split; [vm_compute; reflexivity|].
    split; vm_compute; reflexivity.
Qed.


(** C10, as stated, fails in two ways.  In binary64 the winter off-peak usage
    does show in the savings, through the rounding of the two costs: with one
    kWh in the winter peak hours and one in summer, the savings without any
    winter off-peak usage and those with one kWh of it are two different
    doubles, and neither is the double that the formula of the claim gives.
    And the usage of a row without a date is priced at the fixed rate and in
    no period: for the readings 2, 1 and 3, the second without a date, the
    savings are 0.00356 and the formula of the claim gives -0.17347, in
    exact arithmetic. *)
Lemma off_peak_usage_shows :
  (exists res res',
     analyze_frame (afternoon_binary64 0) = Ok res /\
     analyze_frame (afternoon_binary64 1) = Ok res' /\
     winter_peak_usage res = winter_peak_usage res' /\
     summer_usage res = summer_usage res' /\
     PrimFloat.eqb (savings res) (savings res') = false /\
     let formula :=
       add (mul (winter_peak_usage res) (sub RATE_FIXED RATE_WINTER_PEAK))
           (mul (summer_usage res) (sub RATE_FIXED RATE_SUMMER)) in
     PrimFloat.eqb (savings res) formula = false /\
     PrimFloat.eqb (savings res') formula = false) /\
  (exists res, analyze_frame undated_exact = Ok res /\
     xeqb (savings res) (Fin 0.00356) = true /\
     xeqb (add (mul (winter_peak_usage res) (sub RATE_FIXED RATE_WINTER_PEAK))
               (mul (summer_usage res) (sub RATE_FIXED RATE_SUMMER)))
          (Fin (-0.17347)) = true).
Proof.
  split.
  - eexists. eexists. split; [vm_compute; reflexivity|].
    split; [vm_compute; reflexivity|].
    repeat split; vm_compute; reflexivity.
  - eexists. split; [vm_compute; reflexivity|].
    split; vm_compute; reflexivity.
Qed.

(** What missing cells do to a run: a column of dates without any date and a
    first row without unit are turned down with a [TypeError]; a row without
    date in a column that has dates is kept, without timestamp. *)
Example missing_cells :
  (exists msg, analyze_frame dateless_exact = Raise (TypeError msg)) /\
  (exists msg, analyze_frame unitless_exact = Raise (TypeError msg)) /\
  (exists res, analyze_frame undated_exact = Ok res) /\
  map (@no_timestamp xnum) (frame_of undated_exact) = [false; true; false].
Proof.
  split; [eexists; vm_compute; reflexivity|].
  split; [eexists; vm_compute; reflexivity|].
  split; [eexists; vm_compute; reflexivity|].
  vm_compute; reflexivity.
Qed.

(** The sum of nine values is not the sum taken one by one: eight partial
    sums are formed first, so the small values are added to each other
    before they meet the large one. *)
Example series_sum_in_blocks :
  series_sum nine_binary64 = 10000000000000008%float /\
  fold_left add nine_binary64 (lit 0 0) = 10000000000000000%float.
Proof. split; vm_compute; reflexivity. Qed.

(* ------------------------------------------------------------------------- *)
(** ** Entry point *)

Section EntryPoint.

Context {T : Type} {arith : Arith T}.
Variable fmt : nat -> T -> string.
Variable read_csv : string -> nat -> result (list (row T)).

(** [main] returns 1 exactly when the analysis raises, and then prints the
    one line that reports the error. *)
Lemma main_returns (fs : string -> option (list string)) (path : string) :
  match analyze_power_usage fs read_csv path with
  | Ok (res, metadata) => main fmt fs read_csv path = (format_results fmt res metadata, 0%Z)
  | Raise e =>
      main fmt fs read_csv path =
      ([("Error processing file: " ++ str_of_exn e)%string], 1%Z)
  end.
Proof.
  unfold main. destruct (analyze_power_usage fs read_csv path) as [[res md]|e];
    reflexivity.
Qed.

(** The status of the process does not depend on what [main] returns. *)
Lemma script_status (fs : string -> option (list string)) (path : string) :
  script fmt fs read_csv path = (fst (main fmt fs read_csv path), 0%Z).
Proof.
  unfold script. now destruct (main fmt fs read_csv path).
Qed.

End EntryPoint.

(** C9: two runs in which processing fails, on a path that names no file and
    on a file without a header row.  [main] prints the error line and
    returns 1, and the process still ends with status 0, as it does for
    every run. *)
Theorem failed_run_exits_with_0 :
  forall (T : Type) (arith : Arith T) (fmt : nat -> T -> string)
         (read_csv : string -> nat -> result (list (row T))),
    main fmt no_files read_csv "usage.csv" =
      (["Error processing file: [Errno 2] No such file or directory: 'usage.csv'"],
       1%Z) /\
    script fmt no_files read_csv "usage.csv" =
      (["Error processing file: [Errno 2] No such file or directory: 'usage.csv'"],
       0%Z) /\
    main fmt headerless read_csv "usage.csv" =
      (["Error processing file: Could not find the header row in the CSV file"],
       1%Z) /\
    script fmt headerless read_csv "usage.csv" =
      (["Error processing file: Could not find the header row in the CSV file"],
       0%Z) /\
    (forall fs path, snd (script fmt fs read_csv path) = 0%Z).
Proof.
  intros T arith fmt read_csv.
  repeat split; try reflexivity.
  intros fs path. now rewrite script_status.
Qed.

(* ------------------------------------------------------------------------- *)
(** ** Locating the header row *)

Section HeaderFacts.

Variable fs : string -> option (list string).

Lemma find_header_from_Ok (lines : list string) : forall i n,
  find_header_from i lines = Ok n <->
  exists k, n = i + k /\ k < List.length lines /\
            is_header (nth k lines EmptyString) = true /\
            forall j, j < k -> is_header (nth j lines EmptyString) = false.
Proof.
  induction lines as [|line rest IH]; intros i n; cbn [find_header_from].
  - split; [discriminate | intros (k & _ & Hk & _); simpl in Hk; lia].
  - fold (is_header line). destruct (is_header line) eqn:Hh.
    + split.
      * intros E; injection E as <-. exists 0.
        repeat split; [lia | simpl; lia | exact Hh | intros j Hj; lia].
      * intros (k & -> & _ & Hk & Hbefore).
        destruct k as [|k]; [f_equal; lia|].
        specialize (Hbefore 0 ltac:(lia)). simpl in Hbefore. congruence.
    + rewrite IH. split.
      * intros (k & -> & Hlen & Hk & Hbefore). exists (S k).
        repeat split; [lia | simpl; lia | exact Hk |].
        intros [|j] Hj; [exact Hh | apply Hbefore; lia].
      * intros (k & -> & Hlen & Hk & Hbefore).
        destruct k as [|k]; [simpl in Hk; congruence|].
        exists k. repeat split; [lia | simpl in Hlen; lia | exact Hk |].
        intros j Hj. apply (Hbefore (S j)). lia.
Qed.

Lemma find_header_from_Raise (lines : list string) : forall i e,
  find_header_from i lines = Raise e <->
  Forall (fun line => is_header line = false) lines /\
  e = ValueError "Could not find the header row in the CSV file".
Proof.
  induction lines as [|line rest IH]; intros i e; cbn [find_header_from].
  - split.
    + intros E; injection E as <-. split; [constructor | reflexivity].
    + intros [_ ->]. reflexivity.
  - fold (is_header line). destruct (is_header line) eqn:Hh.
    + split; [discriminate|]. intros [Hall _].
      inversion Hall; congruence.
    + rewrite IH. split.
      * intros [Hall ->]. split; [now constructor | reflexivity].
      * intros [Hall ->]. split; [now inversion Hall | reflexivity].
Qed.

Lemma find_header_row_open (path : string) (lines : list string) :
  fs path = Some lines ->
  find_header_row fs path = find_header_from 0 lines.
Proof. intros E. unfold find_header_row, open. now rewrite E. Qed.

Lemma find_header_row_exists (path : string) (n : nat) :
  find_header_row fs path = Ok n -> exists lines, fs path = Some lines.
Proof.
  unfold find_header_row, open. destruct (fs path) as [lines|]; cbn [bind].
  - intros _. now exists lines.
  - discriminate.
Qed.

(** X1: The header row is the first line that, once stripped, starts with
    [SERVICE,DATE,]: the result is its index, and no earlier line
    qualifies. *)
Theorem find_header_row_first (path : string) (n : nat) :
  find_header_row fs path = Ok n <->
  exists lines, fs path = Some lines /\ n < List.length lines /\
    is_header (nth n lines EmptyString) = true /\
    forall j, j < n -> is_header (nth j lines EmptyString) = false.
Proof.
  unfold find_header_row, open. destruct (fs path) as [lines|]; cbn [bind].
  - rewrite find_header_from_Ok. split.
    + intros (k & -> & H). exists lines. split; [reflexivity | exact H].
    + intros (lines' & E & H). injection E as <-. exists n.
      split; [reflexivity | exact H].
  - split; [discriminate | intros (lines & E & _); discriminate].
Qed.

(** X2: On a file that is there and is read as text, the search fails exactly
    when no line of the file qualifies, and then with the error that the
    script raises itself. *)
Theorem find_header_row_fails (path : string) (lines : list string) (e : exn) :
  fs path = Some lines ->
  (find_header_row fs path = Raise e <->
   Forall (fun line => is_header line = false) lines /\
   e = ValueError "Could not find the header row in the CSV file").
Proof.
  intros Hfs. rewrite (find_header_row_open _ _ Hfs).
  apply find_header_from_Raise.
Qed.

End HeaderFacts.

Lemma find_header_row_fails_witness :
  find_header_row headerless "usage.csv" =
  Raise (ValueError "Could not find the header row in the CSV file").
Proof.
  apply (find_header_row_fails headerless "usage.csv"
           ["Name,A Customer"; "Address,1 Main St"]);
    [reflexivity|].
  split; [repeat constructor | reflexivity].
Defined.

(* ------------------------------------------------------------------------- *)
(** ** Metadata *)

Section MetadataFacts.

Lemma dict_get_set (d : dict) (k v k' : string) :
  dict_get (dict_set d k v) k' =
  if String.eqb k k' then Some v else dict_get d k'.
Proof.
  induction d as [|[k0 v0] d IH]; cbn [dict_set dict_get].
  - now destruct (String.eqb k k').
  - destruct (String.eqb k0 k) eqn:E0; cbn [dict_get].
    + apply String.eqb_eq in E0. subst k0.
      now destruct (String.eqb k k').
    + rewrite IH. destruct (String.eqb k0 k') eqn:E1; [|reflexivity].
      apply String.eqb_eq in E1. subst k0.
      rewrite String.eqb_sym in E0. now rewrite E0.
Qed.

Lemma dict_set_keys (d : dict) (k v k' : string) :
  In k' (map fst (dict_set d k v)) <-> k' = k \/ In k' (map fst d).
Proof.
  induction d as [|[k0 v0] d IH]; cbn [dict_set map fst In].
  - intuition.
  - destruct (String.eqb k0 k) eqn:E0; cbn [map fst In].
    + apply String.eqb_eq in E0. subst k0. intuition.
    + rewrite IH. intuition.
Qed.

Lemma dict_set_NoDup (d : dict) (k v : string) :
  NoDup (map fst d) -> NoDup (map fst (dict_set d k v)).
Proof.
  induction d as [|[k0 v0] d IH]; cbn [dict_set map fst]; intros Hd.
  - repeat constructor. intros [].
  - inversion Hd as [|? ? Hnot Hrest]; subst.
    destruct (String.eqb k0 k) eqn:E0; cbn [map fst].
    + now constructor.
    + constructor; [|auto].
      rewrite dict_set_keys. intros [->|Hin]; [|contradiction].
      now rewrite String.eqb_refl in E0.
Qed.

Lemma prefix_comma (a : ascii) (s : string) :
  String.prefix "," (String a s) = Ascii.eqb a ",".
Proof.
  destruct (Ascii.eqb a ",") eqn:Ea.
  - apply Ascii.eqb_eq in Ea. subst a. apply prefix_app. now exists s.
  - destruct (String.prefix "," (String a s)) eqn:Hp; [|reflexivity].
    apply prefix_app in Hp. destruct Hp as [b Hb]. injection Hb as -> _.
    now rewrite Ascii.eqb_refl in Ea.
Qed.

(** X3: [split(",", 1)]: the line is cut at its first comma, so the key holds no
    comma and the value keeps every later one. *)
Theorem split_comma_first (s : string) :
  str_in "," s = true ->
  (s = fst (split_comma s) ++ "," ++ snd (split_comma s))%string /\
  str_in "," (fst (split_comma s)) = false.
Proof.
  induction s as [|a s IH]; [discriminate|].
  cbn [split_comma]. destruct (Ascii.eqb a ",") eqn:Ea.
  - intros _. apply Ascii.eqb_eq in Ea. subst a. now split.
  - intros Hin.
    assert (Hs : str_in "," s = true).
    { cbn [str_in] in Hin. rewrite prefix_comma, Ea in Hin. exact Hin. }
    destruct (IH Hs) as [Heq Hk].
    destruct (split_comma s) as [k v]. cbn [fst snd] in *. split.
    + simpl. f_equal. exact Heq.
    + cbn [str_in]. now rewrite Hk, orb_false_r, prefix_comma.
Qed.

Lemma split_comma_first_witness :
  ("Address,1 Main St, Halifax" =
     fst (split_comma "Address,1 Main St, Halifax") ++ ","
       ++ snd (split_comma "Address,1 Main St, Halifax"))%string /\
  str_in "," (fst (split_comma "Address,1 Main St, Halifax")) = false.
Proof.
  apply (split_comma_first "Address,1 Main St, Halifax"). reflexivity.
Defined.

(** One round of the loop that fills the dictionary. *)
Lemma metadata_fold (lines : list string) (acc : dict) :
  fold_left
    (fun metadata raw =>
       let line := strip raw in
       if str_in "," line
       then let (key, value) := split_comma line in dict_set metadata key value
       else metadata) lines acc =
  fold_left
    (fun metadata raw =>
       match metadata_entry raw with
       | Some (key, value) => dict_set metadata key value
       | None => metadata
       end) lines acc.
Proof.
  revert acc; induction lines as [|raw lines IH]; intros acc; [reflexivity|].
  cbn [fold_left]. rewrite IH. unfold metadata_entry.
  destruct (str_in "," (strip raw)); [|reflexivity].
  now destruct (split_comma (strip raw)).
Qed.

Lemma metadata_snoc (l : list string) (raw : string) :
  extract_metadata (List.length (l ++ [raw])) (l ++ [raw]) =
  match metadata_entry raw with
  | Some (key, value) => dict_set (extract_metadata (List.length l) l) key value
  | None => extract_metadata (List.length l) l
  end.
Proof.
  unfold extract_metadata. rewrite !firstn_all, !metadata_fold.
  now rewrite fold_left_app.
Qed.

Lemma extract_metadata_firstn (n : nat) (lines : list string) :
  extract_metadata n lines =
  extract_metadata (List.length (firstn n lines)) (firstn n lines).
Proof.
  unfold extract_metadata. now rewrite firstn_all.
Qed.

Lemma lookup_all (l : list string) (k v : string) :
  dict_get (extract_metadata (List.length l) l) k = Some v <->
  exists pre raw post,
    l = pre ++ raw :: post /\ metadata_entry raw = Some (k, v) /\
    Forall (fun r => entry_key r <> Some k) post.
Proof.
  revert v. induction l as [|x l IH] using rev_ind; intros v.
  - split; [discriminate|]. intros (pre & raw & post & E & _).
    now destruct pre.
  - rewrite metadata_snoc.
    assert (Hlast : forall pre raw post,
               l ++ [x] = pre ++ raw :: post ->
               (post = [] /\ pre = l /\ raw = x) \/
               (exists post', post = post' ++ [x] /\ l = pre ++ raw :: post')).
    { intros pre raw post E.
      destruct post as [|p post] using rev_ind.
      - left. apply app_inj_tail in E. now destruct E.
      - right.
        change (pre ++ raw :: post ++ [p]) with (pre ++ (raw :: post) ++ [p]) in E.
        rewrite app_assoc in E. apply app_inj_tail in E.
        destruct E as [-> ->]. now exists post. }
    destruct (metadata_entry x) as [[k' v']|] eqn:Ex.
    + rewrite dict_get_set. destruct (String.eqb k' k) eqn:Ek.
      * apply String.eqb_eq in Ek. subst k'. split.
        -- intros E; injection E as <-. exists l, x, []. now repeat split.
        -- intros (pre & raw & post & E & Hraw & Hpost).
           destruct (Hlast _ _ _ E) as [(-> & -> & ->) | (post' & -> & _)].
           ++ congruence.
           ++ apply Forall_app in Hpost. destruct Hpost as [_ Hx].
              inversion Hx as [|? ? Hk _]; subst. exfalso. apply Hk.
              unfold entry_key. now rewrite Ex.
      * rewrite IH. split.
        -- intros (pre & raw & post & -> & Hraw & Hpost).
           exists pre, raw, (post ++ [x]). split; [now rewrite <- app_assoc|].
           split; [exact Hraw|]. apply Forall_app. split; [exact Hpost|].
           constructor; [|constructor]. unfold entry_key. rewrite Ex. cbn.
           intros E; injection E as ->. now rewrite String.eqb_refl in Ek.
        -- intros (pre & raw & post & E & Hraw & Hpost).
           destruct (Hlast _ _ _ E) as [(-> & -> & ->) | (post' & -> & ->)].
           ++ rewrite Ex in Hraw. injection Hraw as -> ->.
              now rewrite String.eqb_refl in Ek.
           ++ apply Forall_app in Hpost. destruct Hpost as [Hpost _].
              now exists pre, raw, post'.
    + rewrite IH. split.
      * intros (pre & raw & post & -> & Hraw & Hpost).
        exists pre, raw, (post ++ [x]). split; [now rewrite <- app_assoc|].
        split; [exact Hraw|]. apply Forall_app. split; [exact Hpost|].
        constructor; [|constructor]. unfold entry_key. now rewrite Ex.
      * intros (pre & raw & post & E & Hraw & Hpost).
        destruct (Hlast _ _ _ E) as [(-> & -> & ->) | (post' & -> & ->)].
        -- congruence.
        -- apply Forall_app in Hpost. destruct Hpost as [Hpost _].
           now exists pre, raw, post'.
Qed.

(** X4: The metadata maps a key to the value of the last line above the header
    row that carries this key, whatever precedes that line. *)
Theorem metadata_last_wins (n : nat) (lines : list string) (k v : string) :
  dict_get (extract_metadata n lines) k = Some v <->
  exists pre raw post,
    firstn n lines = pre ++ raw :: post /\ metadata_entry raw = Some (k, v) /\
    Forall (fun r => entry_key r <> Some k) post.
Proof.
  rewrite extract_metadata_firstn. apply lookup_all.
Qed.

Lemma metadata_fold_keys (l : list string) : forall acc : dict,
  let md :=
    fold_left
      (fun metadata raw =>
         match metadata_entry raw with
         | Some (key, value) => dict_set metadata key value
         | None => metadata
         end) l acc in
  (NoDup (map fst acc) -> NoDup (map fst md)) /\
  (forall k, In k (map fst md) <->
             In k (map fst acc) \/
             exists raw, In raw l /\ entry_key raw = Some k).
Proof.
  induction l as [|x l IH]; intros acc; cbn [fold_left].
  - split; [auto|]. intros k. split; [auto|].
    intros [H | (raw & [] & _)]. exact H.
  - destruct (IH (match metadata_entry x with
                  | Some (key, value) => dict_set acc key value
                  | None => acc
                  end)) as [IHnd IHin].
    split.
    + intros Hacc. apply IHnd.
      destruct (metadata_entry x) as [[k' v']|]; [|exact Hacc].
      now apply dict_set_NoDup.
    + intros k. rewrite IHin. unfold entry_key.
      destruct (metadata_entry x) as [[k' v']|] eqn:Ex.
      * rewrite dict_set_keys. split.
        -- intros [[-> | H] | (raw & Hraw & Hk)].
           ++ right. exists x. split; [now left|]. now rewrite Ex.
           ++ now left.
           ++ right. exists raw. split; [now right | exact Hk].
        -- intros [H | (raw & [<- | Hraw] & Hk)].
           ++ left. now right.
           ++ rewrite Ex in Hk. injection Hk as ->. left. now left.
           ++ right. now exists raw.
      * split.
        -- intros [H | (raw & Hraw & Hk)]; [now left|].
           right. exists raw. split; [now right | exact Hk].
        -- intros [H | (raw & [<- | Hraw] & Hk)].
           ++ now left.
           ++ rewrite Ex in Hk. discriminate.
           ++ right. now exists raw.
Qed.

(** X5: The metadata holds each key once, and its keys are exactly the keys of
    the lines above the header row that contain a comma. *)
Theorem metadata_keys (n : nat) (lines : list string) :
  NoDup (map fst (extract_metadata n lines)) /\
  forall k, In k (map fst (extract_metadata n lines)) <->
            exists raw, In raw (firstn n lines) /\ entry_key raw = Some k.
Proof.
  unfold extract_metadata. rewrite metadata_fold.
  destruct (metadata_fold_keys (firstn n lines) []) as [Hnd Hin].
  split; [apply Hnd; constructor|].
  intros k. rewrite Hin. cbn [map In]. tauto.
Qed.

End MetadataFacts.

(* ------------------------------------------------------------------------- *)
(** ** When the analysis fails and when it returns *)

Section RunFacts.

Context {T : Type} {arith : Arith T}.

Lemma mapM_Raise {A B : Type} (f : A -> result B) (l : list A) (e : exn) :
  mapM f l = Raise e <->
  exists pre a post, l = pre ++ a :: post /\
    Forall (fun x => exists b, f x = Ok b) pre /\ f a = Raise e.
Proof.
  induction l as [|x l IH]; cbn [mapM].
  - split; [discriminate|]. intros (pre & a & post & E & _). now destruct pre.
  - destruct (f x) as [b|e'] eqn:Ex; cbn [bind].
    + destruct (mapM f l) as [bs|e'] eqn:El; cbn [bind].
      * split; [discriminate|].
        intros (pre & a & post & E & Hpre & Ha).
        destruct pre as [|p pre]; cbn in E; injection E as <- ->.
        -- congruence.
        -- inversion Hpre; subst.
           assert (Hl : @Ok (list B) bs = Raise e); [|discriminate].
           apply IH. now exists pre, a, post.
      * split.
        -- intros E; injection E as ->.
           destruct (proj1 IH eq_refl) as (pre & a & post & -> & Hpre & Ha).
           exists (x :: pre), a, post. repeat split; [|exact Ha].
           constructor; [now exists b | exact Hpre].
        -- intros (pre & a & post & E & Hpre & Ha).
           destruct pre as [|p pre]; cbn in E; injection E as <- ->.
           ++ congruence.
           ++ inversion Hpre; subst. f_equal.
              assert (Hl : @Raise (list B) e' = Raise e); [|now injection Hl].
              apply IH. now exists pre, a, post.
    + split.
      * intros E; injection E as ->. exists [], x, l.
        repeat split; [constructor | exact Ex].
      * intros (pre & a & post & E & Hpre & Ha).
        destruct pre as [|p pre]; cbn in E; injection E as <- ->.
        -- congruence.
        -- inversion Hpre as [|? ? [b Hb] _]; subst. congruence.
Qed.

Lemma mapM_Ok_ex {A B : Type} (f : A -> result B) (l : list A) :
  (exists l', mapM f l = Ok l') <-> Forall (fun x => exists b, f x = Ok b) l.
Proof.
  induction l as [|x l IH]; cbn [mapM].
  - split; [constructor | now exists []].
  - split.
    + intros [l' E]. destruct (f x) as [b|] eqn:Ex; cbn [bind] in E; [|discriminate].
      destruct (mapM f l) as [bs|] eqn:El; cbn [bind] in E; [|discriminate].
      constructor; [now exists b|]. apply IH. now exists bs.
    + intros H. inversion H as [|? ? [b Hb] Hl]; subst.
      apply IH in Hl. destruct Hl as [bs ->]. rewrite Hb. cbn [bind].
      now exists (b :: bs).
Qed.

Lemma mapM_fails {A B : Type} (f : A -> result B) (l : list A) (a : A) (e : exn) :
  In a l -> f a = Raise e ->
  exists a' e', In a' l /\ f a' = Raise e' /\ mapM f l = Raise e'.
Proof.
  induction l as [|x l IH]; intros Hin Ha; [contradiction|].
  cbn [mapM]. destruct (f x) as [b|e'] eqn:Ex; cbn [bind].
  - destruct Hin as [-> | Hin]; [congruence|].
    destruct (IH Hin Ha) as (a' & e' & Hin' & Ha' & ->).
    exists a', e'. cbn [bind]. repeat split; [now right | exact Ha'].
  - exists x, e'. repeat split; [now left | exact Ex].
Qed.

Lemma add_datetime_Ok (r : row T) :
  (exists f, add_datetime r = Ok f) <-> readable r.
Proof.
  unfold readable. rewrite add_datetime_stamp.
  destruct (stamp r) as [s|]; unfold to_datetime.
  - destruct (strptime s) as [d|] eqn:Hs; cbn [bind]; split.
    + intros _ s' E. injection E as <-. congruence.
    + intros _. now eexists.
    + intros [f E]. discriminate.
    + intros H. now destruct (H s eq_refl).
  - split; [intros _ s E; discriminate | intros _; now eexists].
Qed.

Lemma add_datetime_Raise (r : row T) (e : exn) :
  add_datetime r = Raise e ->
  exists s msg, stamp r = Text s /\ strptime s = None /\ e = ValueError msg.
Proof.
  rewrite add_datetime_stamp.
  destruct (stamp r) as [s|]; unfold to_datetime; [|discriminate].
  destruct (strptime s) as [d|] eqn:Hs; cbn [bind]; [discriminate|].
  intros E; injection E as <-. now eexists s, _.
Qed.

Lemma add_datetime_unread (r : row T) (s : string) :
  stamp r = Text s -> strptime s = None ->
  exists msg, add_datetime r = Raise (ValueError msg).
Proof.
  intros Hs Hp. rewrite add_datetime_stamp, Hs. unfold to_datetime.
  rewrite Hp. now eexists.
Qed.

Lemma timestamps_read (rows : list (row T)) :
  (exists df, mapM add_datetime rows = Ok df) <-> Forall readable rows.
Proof.
  rewrite mapM_Ok_ex. split; intros H; (eapply Forall_impl; [|exact H]);
    intros r; apply add_datetime_Ok.
Qed.

(** X6: The analysis returns a result only for a table that has a row, whose
    first row declares a unit, in which some row has a date, and in which
    every row that has a date and a time has them in the format. *)
Theorem analyze_frame_succeeds (rows : list (row T)) (res : results T) :
  analyze_frame rows = Ok res ->
  (exists first rest (u : string), rows = first :: rest /\ UNITS first = u) /\
  Exists (fun r => isna (DATE r) = false) rows /\
  Forall readable rows.
Proof.
  intros Hres.
  destruct (analyze_frame_inv _ _ Hres)
    as (df & first & rest & u & Hdf & Hrows & Hu & _).
  split; [now exists first, rest, u|].
  split; [eapply analyze_frame_dates; eassumption|].
  apply timestamps_read. now exists df.
Qed.

(** X7: There are no partial results.  One row whose date and time are there
    but are not in the format makes the analysis fail with a [ValueError],
    wherever the row is in the table and whatever the other rows hold. *)
Theorem analyze_frame_fails (rows : list (row T)) (r : row T) (s : string) :
  In r rows -> stamp r = Text s -> strptime s = None ->
  exists msg, analyze_frame rows = Raise (ValueError msg).
Proof.
  intros Hin Hs Hp.
  assert (Hdate : Exists (fun x : row T => isna (DATE x) = false) rows).
  { apply Exists_exists. exists r. split; [exact Hin|].
    apply stamp_Text in Hs. destruct Hs as (d & t & -> & _). reflexivity. }
  destruct (add_datetime_unread r s Hs Hp) as [msg Hr].
  destruct (mapM_fails add_datetime rows r _ Hin Hr)
    as (r' & e' & _ & Hr' & Hrows).
  apply add_datetime_Raise in Hr'. destruct Hr' as (s' & msg' & _ & _ & ->).
  exists msg'. unfold analyze_frame.
  now rewrite (add_text_dtype_Ok _ Hdate), Hrows.
Qed.

End RunFacts.

Lemma analyze_frame_succeeds_witness :
  Forall readable (three_rows_exact "Wh").
Proof.
  assert (H : { res | analyze_frame (three_rows_exact "Wh") = Ok res })
    by (eexists; vm_compute; reflexivity).
  destruct H as [res Hres].
  exact (proj2 (proj2 (analyze_frame_succeeds _ res Hres))).
Defined.

Lemma analyze_frame_fails_witness :
  exists msg,
    analyze_frame
      [ mkRow "11/15/2023" "08:00" (Fin 2) "Wh";
        mkRow "02/30/2023" "08:00" (Fin 1) "Wh" ] = Raise (ValueError msg).
Proof.
  apply (analyze_frame_fails _ (mkRow "02/30/2023" "08:00" (Fin 1) "Wh")
           "02/30/2023 08:00");
    [right; left; reflexivity | reflexivity | reflexivity].
Defined.

(* ------------------------------------------------------------------------- *)
(** ** Runs of the program *)

Section ProgramFacts.

Context {T : Type} {arith : Arith T}.
Variable fmt : nat -> T -> string.
Variable fs : string -> option (list string).
Variable read_csv : string -> nat -> result (list (row T)).

Lemma analyze_power_usage_Ok (path : string) (res : results T) (md : dict) :
  analyze_power_usage fs read_csv path = Ok (res, md) <->
  exists lines n rows,
    fs path = Some lines /\ find_header_row fs path = Ok n /\
    read_csv path n = Ok rows /\ analyze_frame rows = Ok res /\
    md = extract_metadata n lines.
Proof.
  unfold analyze_power_usage.
  destruct (find_header_row fs path) as [n|e] eqn:Hn; cbn [bind].
  - destruct (find_header_row_exists fs _ _ Hn) as [lines Hfs].
    destruct (read_csv path n) as [rows|e] eqn:Hrows; cbn [bind].
    + destruct (analyze_frame rows) as [res'|e] eqn:Hres; cbn [bind].
      * unfold open. rewrite Hfs. cbn [bind]. split.
        -- intros E; injection E as <- <-. now exists lines, n, rows.
        -- intros (lines' & n' & rows' & E1 & E2 & E3 & E4 & ->).
           injection E2 as <-. injection E1 as <-.
           rewrite Hrows in E3. injection E3 as <-.
           rewrite Hres in E4. now injection E4 as <-.
      * split; [discriminate|].
        intros (lines' & n' & rows' & _ & E2 & E3 & E4 & _).
        injection E2 as <-. rewrite Hrows in E3. injection E3 as <-.
        congruence.
    + split; [discriminate|].
      intros (lines' & n' & rows' & _ & E2 & E3 & _).
      injection E2 as <-. congruence.
  - split; [discriminate|].
    intros (lines' & n' & rows' & _ & E2 & _). discriminate.
Qed.

(** X8: [main] returns 0 exactly when the file is there, one of its lines is a
    header row, a table is read from the first such line on, and the
    analysis of that table returns a result.  It then prints the report of
    this result, with the metadata of the lines above the header row. *)
Theorem main_succeeds_iff (path : string) :
  snd (main fmt fs read_csv path) = 0%Z <->
  exists lines n rows res,
    fs path = Some lines /\
    (n < List.length lines /\ is_header (nth n lines EmptyString) = true /\
     forall j, j < n -> is_header (nth j lines EmptyString) = false) /\
    read_csv path n = Ok rows /\
    analyze_frame rows = Ok res /\
    fst (main fmt fs read_csv path) =
    format_results fmt res (extract_metadata n lines).
Proof.
  unfold main.
  destruct (analyze_power_usage fs read_csv path) as [[res md]|e] eqn:Hrun;
    cbn [fst snd].
  - split; [intros _ | reflexivity].
    apply analyze_power_usage_Ok in Hrun.
    destruct Hrun as (lines & n & rows & Hfs & Hn & Hrows & Hres & ->).
    exists lines, n, rows, res. split; [exact Hfs|].
    rewrite (find_header_row_open fs _ _ Hfs) in Hn.
    apply find_header_from_Ok in Hn. destruct Hn as (k & -> & Hn).
    split; [exact Hn|]. now repeat split.
  - split; [discriminate|].
    intros (lines & n & rows & res & Hfs & Hn & Hrows & Hres & _).
    assert (Hrun' : analyze_power_usage fs read_csv path =
                    Ok (res, extract_metadata n lines)).
    { apply analyze_power_usage_Ok. exists lines, n, rows.
      repeat split; try assumption.
      rewrite (find_header_row_open fs _ _ Hfs).
      apply find_header_from_Ok. now exists n. }
    congruence.
Qed.

(** X9: A path that names no file, or a file without a header row, is reported
    before the table is read: whatever [read_csv] would do, [main] prints the
    one line of the error and returns 1. *)
Theorem main_reports_file_errors (path : string) :
  (fs path = None ->
   main fmt fs read_csv path =
   ([("Error processing file: [Errno 2] No such file or directory: '"
        ++ path ++ "'")%string], 1%Z)) /\
  (forall lines, fs path = Some lines ->
     Forall (fun line => is_header line = false) lines ->
     main fmt fs read_csv path =
     (["Error processing file: Could not find the header row in the CSV file"],
      1%Z)).
Proof.
  split.
  - intros Hfs.
    assert (H : find_header_row fs path =
                Raise (FileNotFoundError
                  ("[Errno 2] No such file or directory: '" ++ path ++ "'")%string)).
    { unfold find_header_row, open. now rewrite Hfs. }
    unfold main, analyze_power_usage. rewrite H. reflexivity.
  - intros lines Hfs Hall.
    assert (H : find_header_row fs path =
                Raise (ValueError "Could not find the header row in the CSV file")).
    { rewrite (find_header_row_open fs _ _ Hfs).
      now apply find_header_from_Raise. }
    unfold main, analyze_power_usage. rewrite H. reflexivity.
Qed.

(** What [main] prints when it returns 1 is a single line. *)
Lemma main_failure_is_one_line (path : string) :
  snd (main fmt fs read_csv path) <> 0%Z ->
  snd (main fmt fs read_csv path) = 1%Z /\
  exists e, analyze_power_usage fs read_csv path = Raise e /\
    fst (main fmt fs read_csv path) =
    [("Error processing file: " ++ str_of_exn e)%string].
Proof.
  unfold main.
  destruct (analyze_power_usage fs read_csv path) as [[res md]|e];
    cbn [fst snd]; intros H; [contradiction|].
  split; [reflexivity|]. now exists e.
Qed.

End ProgramFacts.

(* ------------------------------------------------------------------------- *)
(** ** Which cells the result depends on *)

Section Dependence.

Context {T : Type} {arith : Arith T}.

Lemma same_reading_stamp (r r' : row T) :
  same_reading r r' -> stamp r = stamp r'.
Proof. intros (Hd & Ht & _). unfold stamp. now rewrite Hd, Ht. Qed.

Lemma same_reading_add_datetime (r r' : row T) :
  same_reading r r' ->
  match add_datetime r, add_datetime r' with
  | Ok f, Ok f' => same_frow f f'
  | Raise e, Raise e' => e = e'
  | _, _ => False
  end.
Proof.
  intros H. assert (Hs := same_reading_stamp _ _ H). destruct H as (_ & _ & Hu).
  rewrite !add_datetime_stamp, <- Hs. destruct (stamp r) as [s|].
  - unfold to_datetime. destruct (strptime s); cbn [bind]; [|reflexivity].
    now split.
  - now split.
Qed.

Lemma same_reading_mapM (rows rows' : list (row T)) :
  Forall2 same_reading rows rows' ->
  match mapM add_datetime rows, mapM add_datetime rows' with
  | Ok df, Ok df' => Forall2 same_frow df df'
  | Raise e, Raise e' => e = e'
  | _, _ => False
  end.
Proof.
  induction 1 as [|r r' rows rows' Hr _ IH]; cbn [mapM]; [constructor|].
  apply same_reading_add_datetime in Hr.
  destruct (add_datetime r) as [t|e], (add_datetime r') as [t'|e'];
    cbn [bind]; try contradiction; [|exact Hr].
  destruct (mapM add_datetime rows) as [df|e], (mapM add_datetime rows') as [df'|e'];
    cbn [bind]; try contradiction; [|exact IH].
  now constructor.
Qed.

Lemma same_reading_dates (rows rows' : list (row T)) :
  Forall2 same_reading rows rows' -> map DATE rows = map DATE rows'.
Proof.
  induction 1 as [|r r' rows rows' (Hd & _) _ IH]; [reflexivity|].
  cbn [map]. now rewrite Hd, IH.
Qed.

Lemma same_frow_selected (p : trow T -> bool) (df df' : list (frow T)) :
  (forall t t', col_datetime t = col_datetime t' -> p t = p t') ->
  Forall2 same_frow df df' ->
  col_usage (filter (selected p) df) = col_usage (filter (selected p) df').
Proof.
  intros Hp. induction 1 as [|f f' df df' Hf _ IH]; cbn [filter]; [reflexivity|].
  destruct f as [t|r], f' as [t'|r'], Hf as [Hd Hu];
    cbn [same_stamp] in Hd; try contradiction; cbn [selected]; [|exact IH].
  rewrite (Hp _ _ Hd). destruct (p t'); cbn [col_usage map]; [|exact IH].
  rewrite Hu. f_equal. exact IH.
Qed.

(** The four sums read the timestamps and the readings only. *)
Lemma same_frow_sums (df df' : list (frow T)) :
  Forall2 same_frow df df' ->
  winter_peak df = winter_peak df' /\
  winter_off_peak df = winter_off_peak df' /\
  summer_all df = summer_all df' /\
  all_usage df = all_usage df'.
Proof.
  intros H. unfold winter_peak, winter_off_peak, summer_all, all_usage.
  assert (Hall : col_usage df = col_usage df').
  { clear - H. induction H as [|t t' df df' [_ Ht] _ IH]; [reflexivity|].
    cbn [col_usage map]. rewrite Ht. f_equal. exact IH. }
  rewrite Hall.
  repeat split; f_equal; apply same_frow_selected; try assumption;
    intros t t' Hd;
    unfold is_winter_peak, is_winter_off_peak, is_summer, col_month, col_hour;
    now rewrite Hd.
Qed.

(** X10: The unit is taken from the first row alone: when the first row
    declares a unit, the units of all the other rows can be changed, or
    removed, without any effect on the outcome, be it a result or an
    error. *)
Theorem later_units_ignored (first : row T) (rest rest' : list (row T))
        (u : string) :
  UNITS first = u ->
  Forall2 same_reading rest rest' ->
  analyze_frame (first :: rest) = analyze_frame (first :: rest').
Proof.
  intros Hu Hrest.
  assert (Hrows : Forall2 same_reading (first :: rest) (first :: rest')).
  { constructor; [now repeat split | exact Hrest]. }
  assert (Hdates := same_reading_dates _ _ Hrows).
  apply same_reading_mapM in Hrows. unfold analyze_frame.
  rewrite <- Hdates.
  destruct (add_text_dtype (map DATE (first :: rest))); cbn [bind];
    [|reflexivity].
  destruct (mapM add_datetime (first :: rest)) as [df|e],
           (mapM add_datetime (first :: rest')) as [df'|e'];
    try contradiction; cbn [bind map iloc0]; [|now subst].
  destruct (same_frow_sums _ _ Hrows) as (-> & -> & -> & ->).
  rewrite Hu. reflexivity.
Qed.

(** X11: The percentages do not depend on any unit, not even on that of the
    first row: they are taken from the sums before the conversion. *)
Theorem percentages_ignore_units (rows rows' : list (row T))
        (res res' : results T) :
  Forall2 same_reading rows rows' ->
  analyze_frame rows = Ok res ->
  analyze_frame rows' = Ok res' ->
  winter_peak_percentage res = winter_peak_percentage res' /\
  winter_off_peak_percentage res = winter_off_peak_percentage res' /\
  summer_percentage res = summer_percentage res'.
Proof.
  intros Hrows Hres Hres'.
  destruct (analyze_frame_inv _ _ Hres)
    as (df & f & r & u & Hdf & _ & _ & _ & _ & _ & _ & -> & -> & -> & _).
  destruct (analyze_frame_inv _ _ Hres')
    as (df' & f' & r' & u' & Hdf' & _ & _ & _ & _ & _ & _ & -> & -> & -> & _).
  apply same_reading_mapM in Hrows. rewrite Hdf, Hdf' in Hrows.
  destruct (same_frow_sums _ _ Hrows) as (-> & -> & -> & ->).
  now repeat split.
Qed.

End Dependence.

Lemma later_units_ignored_witness :
  analyze_frame (three_rows_binary64 "Wh") =
  analyze_frame
    [ mkRow "11/15/2023" "08:00" 2%float "Wh";
      mkRow "11/15/2023" "14:00" 1%float "kWh";
      mkRow "06/01/2023" "12:00" 3%float "MJ" ].
Proof.
  apply (later_units_ignored
           (mkRow "11/15/2023" "08:00" 2%float "Wh")
           [ mkRow "11/15/2023" "14:00" 1%float "Wh";
             mkRow "06/01/2023" "12:00" 3%float "Wh" ] _ "Wh");
    [reflexivity|].
  repeat constructor.
Defined.

Lemma percentages_ignore_units_witness :
  exists res res',
    analyze_frame (three_rows_binary64 "Wh") = Ok res /\
    analyze_frame (three_rows_binary64 "kW h") = Ok res' /\
    winter_peak_percentage res = winter_peak_percentage res'.
Proof.
  assert (H : { res | analyze_frame (three_rows_binary64 "Wh") = Ok res })
    by (eexists; vm_compute; reflexivity).
  assert (H' : { res | analyze_frame (three_rows_binary64 "kW h") = Ok res })
    by (eexists; vm_compute; reflexivity).
  destruct H as [res Hres], H' as [res' Hres'].
  exists res, res'. split; [exact Hres|]. split; [exact Hres'|].
  apply (percentages_ignore_units (three_rows_binary64 "Wh")
           (three_rows_binary64 "kW h") res res');
    [repeat constructor | exact Hres | exact Hres'].
Defined.

(* ------------------------------------------------------------------------- *)
(** ** Peak hours as intervals *)

Section Intervals.

Context {T : Type} {arith : Arith T}.

Lemma isin_range (x a b : nat) : isin x (range a b) = true <-> a <= x < b.
Proof.
  rewrite isin_In. unfold range. rewrite in_seq. lia.
Qed.

(** X12: The two ranges of peak hours are half-open: in a winter month (January
    to March, November, December) a row is in the peak period exactly when
    its hour is in 7..10 or in 17..20, so 11:00 and 21:00 are already off
    peak; a row is in the summer period exactly when its month is in
    4..10. *)
Theorem periods_by_bounds (r : trow T) :
  (is_winter_peak r = true <->
   (1 <= col_month r <= 3 \/ 11 <= col_month r <= 12) /\
   (7 <= col_hour r < 11 \/ 17 <= col_hour r < 21)) /\
  (is_winter_off_peak r = true <->
   (1 <= col_month r <= 3 \/ 11 <= col_month r <= 12) /\
   (col_hour r < 7 \/ 11 <= col_hour r < 17 \/ 21 <= col_hour r)) /\
  (is_summer r = true <-> 4 <= col_month r <= 10).
Proof.
  assert (Hw : isin (col_month r) winter_months = true <->
               (1 <= col_month r <= 3 \/ 11 <= col_month r <= 12)).
  { rewrite isin_In. unfold winter_months. simpl. lia. }
  assert (Hp : isin (col_hour r) peak_hours = true <->
               (7 <= col_hour r < 11 \/ 17 <= col_hour r < 21)).
  { unfold peak_hours, isin. rewrite existsb_app, orb_true_iff.
    fold (isin (col_hour r) (range 7 11)). fold (isin (col_hour r) (range 17 21)).
    now rewrite !isin_range. }
  unfold is_winter_peak, is_winter_off_peak, is_summer.
  split; [|split].
  - rewrite andb_true_iff, Hw, Hp. tauto.
  - rewrite andb_true_iff, negb_true_iff, <- not_true_iff_false, Hw, Hp. lia.
  - rewrite isin_In. unfold summer_months. simpl. lia.
Qed.

End Intervals.

(* ------------------------------------------------------------------------- *)
(** ** The result as a function of the exact sums *)

Section Priced.

Local Open Scope Q_scope.

Lemma xeq_refl (a : xnum) : xeq a a.
Proof. destruct a; simpl; auto. reflexivity. Qed.

Lemma xeq_sym (a b : xnum) : xeq a b -> xeq b a.
Proof. destruct a, b; simpl; auto. intros H; now symmetry. Qed.

Lemma xeq_trans (a b c : xnum) : xeq a b -> xeq b c -> xeq a c.
Proof.
  destruct a, b, c; simpl; auto; try contradiction.
  intros H1 H2. now rewrite H1.
Qed.

Lemma results_equiv_refl (r : results xnum) : results_equiv r r.
Proof. unfold results_equiv. repeat split; apply xeq_refl. Qed.

Lemma results_equiv_sym (r r' : results xnum) :
  results_equiv r r' -> results_equiv r' r.
Proof.
  unfold results_equiv. intros H. decompose [and] H.
  repeat split; now apply xeq_sym.
Qed.

Lemma results_equiv_trans (r1 r2 r3 : results xnum) :
  results_equiv r1 r2 -> results_equiv r2 r3 -> results_equiv r1 r3.
Proof.
  unfold results_equiv. intros H1 H2. decompose [and] H1. decompose [and] H2.
  repeat split; eapply xeq_trans; eassumption.
Qed.

Lemma is_zero_proper (p q : Q) : p == q -> is_zero p = is_zero q.
Proof.
  intros H. apply eq_true_iff_eq. rewrite !is_zero_true. now rewrite H.
Qed.

Lemma is_neg_proper (p q : Q) : p == q -> is_neg p = is_neg q.
Proof.
  intros H. unfold is_neg. f_equal. apply eq_true_iff_eq.
  rewrite !Qle_bool_iff. now rewrite H.
Qed.

Lemma is_neg_lt (p : Q) : is_neg p = true <-> p < 0.
Proof.
  unfold is_neg. rewrite negb_true_iff, <- not_true_iff_false, Qle_bool_iff.
  split; [apply Qnot_le_lt | apply Qlt_not_le].
Qed.

(** A percentage: the same for equal sums, and unchanged when both sums are
    scaled by a positive factor. *)
Lemma pct_proper (a a' t t' : Q) :
  a == a' -> t == t' ->
  xeq (xmul (xdiv (Fin a) (Fin t)) (Fin 100))
      (xmul (xdiv (Fin a') (Fin t')) (Fin 100)).
Proof.
  intros Ha Ht. cbn [xdiv].
  rewrite (is_zero_proper _ _ Ht), (is_zero_proper _ _ Ha),
    (is_neg_proper _ _ Ha).
  destruct (is_zero t'); [destruct (is_zero a'), (is_neg a'); exact I|].
  simpl. now rewrite Ha, Ht.
Qed.

Lemma pct_scale (k a t : Q) :
  0 < k ->
  xeq (xmul (xdiv (Fin (k * a)) (Fin (k * t))) (Fin 100))
      (xmul (xdiv (Fin a) (Fin t)) (Fin 100)).
Proof.
  intros Hk.
  assert (Hk0 : ~ k == 0) by (intros E; rewrite E in Hk; discriminate).
  assert (Hz : forall x, is_zero (k * x) = is_zero x).
  { intros x. apply eq_true_iff_eq. rewrite !is_zero_true. split.
    - intros E. destruct (Qmult_integral _ _ E); [contradiction | assumption].
    - intros E. rewrite E. ring. }
  assert (Hn : forall x, is_neg (k * x) = is_neg x).
  { intros x. apply eq_true_iff_eq. rewrite !is_neg_lt. split.
    - intros E. destruct (Qlt_le_dec x 0) as [|Hx]; [assumption|].
      exfalso. apply (Qlt_not_le _ _ E). apply Qmult_le_0_compat; [|exact Hx].
      now apply Qlt_le_weak.
    - intros E. setoid_replace 0 with (k * 0) by ring.
      now apply Qmult_lt_l. }
  cbn [xdiv]. rewrite !Hz, !Hn.
  destruct (is_zero t) eqn:Et; [destruct (is_zero a), (is_neg a); exact I|].
  apply is_zero_false in Et. simpl. now field.
Qed.

Lemma pct_scale_sum (k a x y z w : Q) :
  0 < k ->
  xeq (xmul (xdiv (Fin (k * a)) (Fin (k * x + k * y + k * z + k * w))) (Fin 100))
      (xmul (xdiv (Fin a) (Fin (x + y + z + w))) (Fin 100)).
Proof.
  intros Hk.
  apply (xeq_trans _ (xmul (xdiv (Fin (k * a)) (Fin (k * (x + y + z + w))))
                           (Fin 100))).
  - apply pct_proper; [reflexivity | ring].
  - now apply pct_scale.
Qed.

Lemma priced_proper (wp wo su un c wp' wo' su' un' c' : Q) :
  wp == wp' -> wo == wo' -> su == su' -> un == un' -> c == c' ->
  results_equiv (priced wp wo su un c) (priced wp' wo' su' un' c').
Proof.
  intros Hwp Hwo Hsu Hun Hc. unfold results_equiv, priced. cbn -[xmul xdiv Qdiv].
  repeat split; try (apply pct_proper; now rewrite ?Hwp, ?Hwo, ?Hsu, ?Hun);
    now rewrite ?Hwp, ?Hwo, ?Hsu, ?Hun, ?Hc.
Qed.

Lemma priced_scale (k wp wo su un c : Q) :
  0 < k -> ~ c == 0 ->
  results_equiv (priced (k * wp) (k * wo) (k * su) (k * un) (k * c))
                (priced wp wo su un c).
Proof.
  intros Hk Hc.
  assert (Hk0 : ~ k == 0) by (intros E; rewrite E in Hk; discriminate).
  unfold results_equiv, priced. cbn -[xmul xdiv Qdiv].
  repeat split; try (now apply pct_scale_sum); field; now split.
Qed.

(** With readings that are numbers or missing, the result the script returns
    is the one written out from the exact sums of the three selections and
    of the rows without timestamp. *)
Lemma analyze_frame_priced_known (rows : list (row xnum)) (res : results xnum) :
  known_usage rows ->
  analyze_frame rows = Ok res ->
  exists df first rest (u : string),
    mapM add_datetime rows = Ok df /\ rows = first :: rest /\
    UNITS first = u /\
    results_equiv res
      (priced (qtotal (filter (selected is_winter_peak) df))
              (qtotal (filter (selected is_winter_off_peak) df))
              (qtotal (filter (selected is_summer) df))
              (qtotal (filter no_timestamp df))
              (if str_in "Wh" u then 1000 else 1)).
Proof.
  intros Hfin Hres.
  destruct (analyze_frame_inv _ _ Hres)
    as (df & first & rest & u & Hdf & Hrows & Hu & Hwp & Hwo & Hsu & Hall
        & Pwp & Pwo & Psu & Cwp & Cwo & Csu & Ctou & Cfix & Csav).
  exists df, first, rest, u.
  split; [exact Hdf|]. split; [exact Hrows|]. split; [exact Hu|].
  assert (Hone := periods_of_frame _ _ Hdf).
  destruct (mapM_add_datetime _ _ Hdf) as [Hcells _].
  assert (Hcol := known_col_usage _ _ Hcells Hfin).
  destruct (sums_exact df Hcol)
    as [[Fwp Ewp] [[Fwo Ewo] [[Fsu Esu] [Fall Eall]]]].
  assert (Hsum := qtotal_partition df Hone).
  cbv zeta in Hwp, Hwo, Hsu, Hall.
  rewrite kwh_exact in Hwp, Hwo, Hsu, Hall by assumption.
  rewrite (finite_Fin _ Fwp), (finite_Fin _ Fall) in Pwp.
  rewrite (finite_Fin _ Fwo), (finite_Fin _ Fall) in Pwo.
  rewrite (finite_Fin _ Fsu), (finite_Fin _ Fall) in Psu.
  assert (Htot : qval (all_usage df) ==
                 qtotal (filter (selected is_winter_peak) df)
                 + qtotal (filter (selected is_winter_off_peak) df)
                 + qtotal (filter (selected is_summer) df)
                 + qtotal (filter no_timestamp df)).
  { now rewrite Eall, Hsum. }
  unfold results_equiv, priced. cbn -[xmul xdiv Qdiv].
  rewrite Csav, Cfix, Ctou, Cwp, Cwo, Csu, Pwp, Pwo, Psu, Hwp, Hwo, Hsu, Hall.
  change (@RATE_FIXED xnum _) with (Fin (17703 # 100000)).
  change (@RATE_WINTER_OFF_PEAK xnum _) with (Fin (17703 # 100000)).
  change (@RATE_WINTER_PEAK xnum _) with (Fin (34634 # 100000)).
  change (@RATE_SUMMER xnum _) with (Fin (12198 # 100000)).
  change (lit 100 0) with (Fin 100).
  cbn [mul div add sub Arith_exact].
  repeat split; try (apply pct_proper; assumption);
    cbn [xmul xadd xsub xneg xeq]; rewrite ?Ewp, ?Ewo, ?Esu, ?Htot;
    try reflexivity; unfold Qminus; reflexivity.
Qed.

Lemma analyze_frame_priced (rows : list (row xnum)) (res : results xnum) :
  finite_usage rows ->
  analyze_frame rows = Ok res ->
  exists df first rest (u : string),
    mapM add_datetime rows = Ok df /\ rows = first :: rest /\
    UNITS first = u /\
    results_equiv res
      (priced (qtotal (filter (selected is_winter_peak) df))
              (qtotal (filter (selected is_winter_off_peak) df))
              (qtotal (filter (selected is_summer) df))
              (qtotal (filter no_timestamp df))
              (if str_in "Wh" u then 1000 else 1)).
Proof.
  intros Hfin. apply analyze_frame_priced_known. now apply finite_known.
Qed.

Lemma xeq_Fin (a : xnum) (q : Q) :
  xeq a (Fin q) -> finite a /\ qval a == q.
Proof. destruct a; simpl; intros H; try contradiction. now split. Qed.

Lemma Qsum_Permutation (l l' : list Q) :
  Permutation l l' -> Qsum l == Qsum l'.
Proof.
  induction 1 as [|x l l' _ IH|x y l|l1 l2 l3 _ IH1 _ IH2]; simpl.
  - reflexivity.
  - now rewrite IH.
  - ring.
  - now rewrite IH1.
Qed.

Lemma filter_Permutation {A : Type} (p : A -> bool) (l l' : list A) :
  Permutation l l' -> Permutation (filter p l) (filter p l').
Proof.
  induction 1 as [|x l l' _ IH|x y l|l1 l2 l3 _ IH1 _ IH2]; cbn [filter].
  - constructor.
  - destruct (p x); [now constructor | exact IH].
  - destruct (p x), (p y); try reflexivity. apply perm_swap.
  - now transitivity (filter p l2).
Qed.

Lemma qtotal_Permutation (p : frow xnum -> bool) (df df' : list (frow xnum)) :
  Permutation df df' -> qtotal (filter p df) == qtotal (filter p df').
Proof.
  intros H. unfold qtotal, col_usage.
  apply Qsum_Permutation. do 2 apply Permutation_map.
  now apply filter_Permutation.
Qed.

Lemma mapM_Permutation {A B : Type} (f : A -> result B) (l l' : list A) :
  Permutation l l' ->
  forall bs, mapM f l = Ok bs ->
  exists bs', mapM f l' = Ok bs' /\ Permutation bs bs'.
Proof.
  induction 1 as [|x l l' _ IH|x y l|l1 l2 l3 _ IH1 _ IH2]; cbn [mapM];
    intros bs E.
  - exists bs. now split.
  - destruct (f x) as [b|]; cbn [bind] in *; [|discriminate].
    destruct (mapM f l) as [cs|]; cbn [bind] in *; [|discriminate].
    injection E as <-. destruct (IH cs eq_refl) as (cs' & -> & Hp).
    exists (b :: cs'). split; [reflexivity | now constructor].
  - destruct (f y) as [b|]; cbn [bind] in *; [|discriminate].
    destruct (f x) as [c|]; cbn [bind] in *; [|discriminate].
    destruct (mapM f l) as [cs|]; cbn [bind] in *; [|discriminate].
    injection E as <-. exists (c :: b :: cs). split; [reflexivity | apply perm_swap].
  - destruct (IH1 bs E) as (bs2 & E2 & Hp1).
    destruct (IH2 bs2 E2) as (bs3 & E3 & Hp2).
    exists bs3. split; [exact E3 | now transitivity bs2].
Qed.

End Priced.

(* ------------------------------------------------------------------------- *)
(** ** Order of the rows, scale of the readings *)

Section Invariance.

Local Open Scope Q_scope.

Lemma Exists_Permutation {A : Type} (P : A -> Prop) (l l' : list A) :
  Permutation l l' -> Exists P l -> Exists P l'.
Proof.
  intros Hp H. apply Exists_exists in H. destruct H as (x & Hin & Hx).
  apply Exists_exists. exists x. split; [|exact Hx].
  eapply Permutation_in; eassumption.
Qed.

(** X13: In exact arithmetic the order of the rows does not matter: a table and
    any rearrangement of it whose first row declares a unit of the same kind
    (with or without [Wh]) give the same values in every entry. *)
Theorem row_order_irrelevant
        (first first' : row xnum) (rest rest' : list (row xnum))
        (u u' : string) (res : results xnum) :
  Permutation (first :: rest) (first' :: rest') ->
  UNITS first = u -> UNITS first' = u' ->
  str_in "Wh" u = str_in "Wh" u' ->
  finite_usage (first :: rest) ->
  analyze_frame (first :: rest) = Ok res ->
  exists res', analyze_frame (first' :: rest') = Ok res' /\
               results_equiv res res'.
Proof.
  intros Hperm Hu Hu' Hunit Hfin Hres.
  destruct (analyze_frame_priced _ _ Hfin Hres)
    as (df & f & r & u0 & Hdf & E & Hu0 & Hpriced).
  injection E as <- <-. rewrite Hu in Hu0. injection Hu0 as <-.
  destruct (mapM_Permutation _ _ _ Hperm df Hdf) as (df' & Hdf' & Hpdf).
  assert (Hdate := Exists_Permutation _ _ _ Hperm (analyze_frame_dates _ _ Hres)).
  destruct (analyze_frame_total _ df' first' rest' u' Hdf' eq_refl Hu' Hdate)
    as [res' Hres'].
  exists res'. split; [exact Hres'|].
  assert (Hfin' : finite_usage (first' :: rest')).
  { unfold finite_usage in *. eapply Permutation_Forall; eassumption. }
  destruct (analyze_frame_priced _ _ Hfin' Hres')
    as (df2 & f2 & r2 & u2 & Hdf2 & E2 & Hu2 & Hpriced').
  injection E2 as <- <-. rewrite Hdf' in Hdf2. injection Hdf2 as <-.
  rewrite Hu' in Hu2. injection Hu2 as <-.
  eapply results_equiv_trans; [exact Hpriced|].
  eapply results_equiv_trans; [|apply results_equiv_sym; exact Hpriced'].
  rewrite Hunit.
  apply priced_proper; try (now apply qtotal_Permutation). reflexivity.
Qed.

Lemma row_order_irrelevant_witness :
  exists res res',
    analyze_frame (three_rows_exact "Wh") = Ok res /\
    analyze_frame
      [ mkRow "06/01/2023" "12:00" (Fin 3) "Wh";
        mkRow "11/15/2023" "08:00" (Fin 2) "Wh";
        mkRow "11/15/2023" "14:00" (Fin 1) "Wh" ] = Ok res' /\
    results_equiv res res'.
Proof.
  assert (H : { res | analyze_frame (three_rows_exact "Wh") = Ok res })
    by (eexists; vm_compute; reflexivity).
  destruct H as [res Hres].
  destruct (row_order_irrelevant
              (mkRow "11/15/2023" "08:00" (Fin 2) "Wh")
              (mkRow "06/01/2023" "12:00" (Fin 3) "Wh")
              [ mkRow "11/15/2023" "14:00" (Fin 1) "Wh";
                mkRow "06/01/2023" "12:00" (Fin 3) "Wh" ]
              [ mkRow "11/15/2023" "08:00" (Fin 2) "Wh";
                mkRow "11/15/2023" "14:00" (Fin 1) "Wh" ]
              "Wh" "Wh" res) as (res' & Hres' & Heq).
  - apply Permutation_sym.
    apply (Permutation_cons_app
             [ mkRow "11/15/2023" "08:00" (Fin 2) "Wh";
               mkRow "11/15/2023" "14:00" (Fin 1) "Wh" ] []).
    rewrite app_nil_r. apply Permutation_refl.
  - reflexivity.
  - reflexivity.
  - reflexivity.
  - repeat constructor.
  - exact Hres.
  - exists res, res'. split; [exact Hres|]. split; [exact Hres' | exact Heq].
Defined.

Lemma Qsum_cons (x : Q) (l : list Q) : Qsum (x :: l) = x + Qsum l.
Proof. reflexivity. Qed.

Lemma scaled_frames (k : Q) (rows rows' : list (row xnum)) :
  Forall2 (scaled_reading k) rows rows' ->
  forall df df',
    mapM add_datetime rows = Ok df -> mapM add_datetime rows' = Ok df' ->
    Forall2 (fun f f' => same_stamp f f' /\
                         qval (USAGE (row_of f)) == k * qval (USAGE (row_of f')))
            df df'.
Proof.
  induction 1 as [|r r' rows rows' (Hd & Ht & q & Hq' & Hq) _ IH];
    cbn [mapM]; intros df df' E E'.
  - injection E as <-. injection E' as <-. constructor.
  - destruct (add_datetime r) as [f|] eqn:Ef; cbn [bind] in E; [|discriminate].
    destruct (mapM add_datetime rows) as [fs|]; cbn [bind] in E; [|discriminate].
    destruct (add_datetime r') as [f'|] eqn:Ef'; cbn [bind] in E'; [|discriminate].
    destruct (mapM add_datetime rows') as [fs'|]; cbn [bind] in E'; [|discriminate].
    injection E as <-. injection E' as <-.
    constructor; [|now apply IH].
    assert (Hs : stamp r = stamp r') by (unfold stamp; now rewrite Hd, Ht).
    rewrite (add_datetime_row _ _ Ef), (add_datetime_row _ _ Ef'), Hq, Hq'.
    split; [|reflexivity].
    rewrite add_datetime_stamp in Ef, Ef'. rewrite <- Hs in Ef'.
    destruct (stamp r) as [s|].
    + unfold to_datetime in Ef, Ef'.
      destruct (strptime s); cbn [bind] in Ef, Ef'; [|discriminate].
      injection Ef as <-. injection Ef' as <-. reflexivity.
    + injection Ef as <-. injection Ef' as <-. exact I.
Qed.

Lemma scaled_qtotal (k : Q) (p : frow xnum -> bool) (df df' : list (frow xnum)) :
  (forall f f', same_stamp f f' -> p f = p f') ->
  Forall2 (fun f f' => same_stamp f f' /\
                       qval (USAGE (row_of f)) == k * qval (USAGE (row_of f')))
          df df' ->
  qtotal (filter p df) == k * qtotal (filter p df').
Proof.
  intros Hp. unfold qtotal, col_usage.
  induction 1 as [|t t' df df' [Hd Hu] _ IH]; cbn [filter].
  - simpl. ring.
  - rewrite (Hp _ _ Hd). destruct (p t'); [|exact IH].
    cbn [map]. rewrite !Qsum_cons, Hu, IH. ring.
Qed.

Lemma selected_same_stamp (p : trow xnum -> bool) :
  (forall t t', col_datetime t = col_datetime t' -> p t = p t') ->
  forall f f' : frow xnum, same_stamp f f' -> selected p f = selected p f'.
Proof.
  intros Hp [t|r] [t'|r'] H; cbn [same_stamp selected] in *;
    try contradiction; [now apply Hp | reflexivity].
Qed.

Lemma no_timestamp_same_stamp (f f' : frow xnum) :
  same_stamp f f' -> no_timestamp f = no_timestamp f'.
Proof.
  destruct f, f'; cbn [same_stamp no_timestamp]; intros H;
    try contradiction; reflexivity.
Qed.

(** X14: The conversion is a plain scaling.  A table in a unit with [Wh] and the
    table of the same readings divided by 1000, in a unit without [Wh], give
    the same values in every entry. *)
Theorem wh_table_matches_scaled_table
        (first first' : row xnum) (rest rest' : list (row xnum))
        (u u' : string) (res res' : results xnum) :
  Forall2 (scaled_reading 1000) (first :: rest) (first' :: rest') ->
  UNITS first = u -> str_in "Wh" u = true ->
  UNITS first' = u' -> str_in "Wh" u' = false ->
  analyze_frame (first :: rest) = Ok res ->
  analyze_frame (first' :: rest') = Ok res' ->
  results_equiv res res'.
Proof.
  intros Hsc Hu Hwh Hu' Hwh' Hres Hres'.
  assert (Hfin : finite_usage (first :: rest)).
  { unfold finite_usage. clear - Hsc.
    induction Hsc as [|r r' l l' (_ & _ & q & _ & Hq) _ IH]; constructor.
    - now rewrite Hq.
    - exact IH. }
  assert (Hfin' : finite_usage (first' :: rest')).
  { unfold finite_usage. clear - Hsc.
    induction Hsc as [|r r' l l' (_ & _ & q & Hq & _) _ IH]; constructor.
    - now rewrite Hq.
    - exact IH. }
  destruct (analyze_frame_priced _ _ Hfin Hres)
    as (df & f & r & u0 & Hdf & E & Hu0 & Hp).
  destruct (analyze_frame_priced _ _ Hfin' Hres')
    as (df' & f' & r' & u0' & Hdf' & E' & Hu0' & Hp').
  injection E as <- <-. injection E' as <- <-.
  rewrite Hu in Hu0. injection Hu0 as <-.
  rewrite Hu' in Hu0'. injection Hu0' as <-.
  rewrite Hwh in Hp. rewrite Hwh' in Hp'.
  assert (Hframes := scaled_frames _ _ _ Hsc df df' Hdf Hdf').
  eapply results_equiv_trans; [exact Hp|].
  eapply results_equiv_trans; [|apply results_equiv_sym; exact Hp'].
  eapply results_equiv_trans;
    [|apply (priced_scale 1000); [reflexivity | discriminate]].
  apply priced_proper; try reflexivity;
    apply scaled_qtotal; try assumption;
    try apply no_timestamp_same_stamp;
    apply selected_same_stamp; intros t t' Hd;
    unfold is_winter_peak, is_winter_off_peak, is_summer, col_month, col_hour;
    now rewrite Hd.
Qed.

Lemma wh_table_matches_scaled_table_witness :
  exists res res',
    analyze_frame
      [ mkRow "11/15/2023" "08:00" (Fin (1000 * 2)) "Wh";
        mkRow "06/01/2023" "12:00" (Fin (1000 * 3)) "Wh" ] = Ok res /\
    analyze_frame
      [ mkRow "11/15/2023" "08:00" (Fin 2) "kW h";
        mkRow "06/01/2023" "12:00" (Fin 3) "kW h" ] = Ok res' /\
    results_equiv res res'.
Proof.
  assert (H : { res | analyze_frame
      [ mkRow "11/15/2023" "08:00" (Fin (1000 * 2)) "Wh";
        mkRow "06/01/2023" "12:00" (Fin (1000 * 3)) "Wh" ] = Ok res })
    by (eexists; vm_compute; reflexivity).
  assert (H' : { res | analyze_frame
      [ mkRow "11/15/2023" "08:00" (Fin 2) "kW h";
        mkRow "06/01/2023" "12:00" (Fin 3) "kW h" ] = Ok res })
    by (eexists; vm_compute; reflexivity).
  destruct H as [res Hres], H' as [res' Hres'].
  exists res, res'. split; [exact Hres|]. split; [exact Hres'|].
  refine (wh_table_matches_scaled_table _ _ _ _ "Wh" "kW h" res res'
            _ _ _ _ _ Hres Hres').
  - repeat constructor; cbn; eauto.
  - reflexivity.
  - reflexivity.
  - reflexivity.
  - reflexivity.
Defined.

End Invariance.

(* ------------------------------------------------------------------------- *)
(** ** Bounds on cost and savings *)

Section CostBounds.

Local Open Scope Q_scope.

Lemma qtotal_nonneg (p : frow xnum -> bool) (df : list (frow xnum)) :
  Forall (fun f => 0 <= qval (USAGE (row_of f))) df ->
  0 <= qtotal (filter p df).
Proof.
  unfold qtotal, col_usage.
  induction 1 as [|t df Ht _ IH]; cbn [filter]; [discriminate|].
  destruct (p t); [|exact IH].
  cbn [map]. rewrite Qsum_cons. lra.
Qed.

Lemma nonneg_frame (rows : list (row xnum)) (df : list (frow xnum)) :
  map row_of df = rows -> nonneg_usage rows ->
  Forall (fun f => 0 <= qval (USAGE (row_of f))) df.
Proof.
  intros <- H. unfold nonneg_usage in H. now rewrite Forall_map in H.
Qed.

(** The rational values of the entries that do not involve a division by
    the total: [a], [b], [s] are the kWh of the three periods, [n] the kWh
    of the rows without timestamp. *)
Lemma result_values (rows : list (row xnum)) (res : results xnum) :
  finite_usage rows ->
  analyze_frame rows = Ok res ->
  exists df first rest (u : string),
    mapM add_datetime rows = Ok df /\ rows = first :: rest /\
    UNITS first = u /\
    let c := if str_in "Wh" u then 1000 else 1 in
    let a := qtotal (filter (selected is_winter_peak) df) / c in
    let b := qtotal (filter (selected is_winter_off_peak) df) / c in
    let s := qtotal (filter (selected is_summer) df) / c in
    let n := qtotal (filter no_timestamp df) / c in
    qval (winter_peak_usage res) == a /\
    qval (winter_off_peak_usage res) == b /\
    qval (summer_usage res) == s /\
    qval (total_usage res) == a + b + s + n /\
    qval (total_time_of_use_cost res) ==
      a * (34634 # 100000) + b * (17703 # 100000) + s * (12198 # 100000) /\
    savings res = Fin (qval (savings res)) /\
    qval (savings res) ==
      a * ((17703 # 100000) - (34634 # 100000))
      + s * ((17703 # 100000) - (12198 # 100000))
      + n * (17703 # 100000).
Proof.
  intros Hfin Hres.
  destruct (analyze_frame_priced _ _ Hfin Hres)
    as (df & first & rest & u & Hdf & Hrows & Hu & Hp).
  exists df, first, rest, u.
  split; [exact Hdf|]. split; [exact Hrows|]. split; [exact Hu|].
  unfold results_equiv, priced in Hp. cbn -[xmul xdiv Qdiv] in Hp.
  destruct Hp as (Ha & Hb & Hs & Ht & _ & _ & _ & _ & _ & _ & Htou & _ & Hsav).
  apply xeq_Fin in Ha, Hb, Hs, Ht, Htou, Hsav.
  destruct Ha as [_ Ha], Hb as [_ Hb], Hs as [_ Hs], Ht as [_ Ht],
    Htou as [_ Htou], Hsav as [Fsav Hsav].
  cbv zeta.
  split; [exact Ha|]. split; [exact Hb|]. split; [exact Hs|].
  split; [rewrite Ht; destruct (str_in "Wh" u); field|].
  split; [exact Htou|]. split; [now apply finite_Fin|].
  rewrite Hsav. destruct (str_in "Wh" u); field.
Qed.

(** The kWh of the rows without timestamp are zero when there is no such
    row. *)
Lemma no_untimed (rows : list (row xnum)) (df : list (frow xnum)) (c : Q) :
  mapM add_datetime rows = Ok df ->
  Forall (fun r => has_timestamp r = true) rows ->
  qtotal (filter no_timestamp df) / c == 0.
Proof.
  intros Hdf Hts. rewrite (all_timed _ _ Hdf Hts).
  unfold qtotal, Qdiv. simpl. ring.
Qed.

(** X15: Time-of-use billing is the cheaper one exactly when 5505 times the
    summer kWh plus 17703 times the kWh of the rows without timestamp (the
    total less the three periods) exceed 16931 times the winter peak kWh
    (the rates and their differences, in units of 0.00001 $ per kWh).  When
    every row has a date and a time this is: 5505 times the summer kWh
    exceed 16931 times the winter peak kWh; the winter off-peak usage has no
    say.  This is the test the report makes before it recommends a plan. *)
Theorem break_even (rows : list (row xnum)) (res : results xnum) :
  finite_usage rows ->
  analyze_frame rows = Ok res ->
  (ltb (lit 0 0) (savings res) = true <->
   16931 * qval (winter_peak_usage res)
   < 5505 * qval (summer_usage res)
     + 17703 * (qval (total_usage res) - qval (winter_peak_usage res)
                - qval (winter_off_peak_usage res) - qval (summer_usage res))) /\
  (Forall (fun r => has_timestamp r = true) rows ->
   (ltb (lit 0 0) (savings res) = true <->
    16931 * qval (winter_peak_usage res) < 5505 * qval (summer_usage res))).
Proof.
  intros Hfin Hres.
  destruct (result_values _ _ Hfin Hres)
    as (df & first & rest & u & Hdf & _ & _ & Ha & Hb & Hs & Ht & _ & Ffin & Hsav).
  cbv zeta in Ha, Hb, Hs, Ht, Hsav.
  assert (Hltb : ltb (lit 0 0) (savings res) = true <-> 0 < qval (savings res)).
  { rewrite Ffin. change (lit 0 0) with (Fin 0). cbn [ltb Arith_exact xltb qval].
    rewrite negb_true_iff, <- not_true_iff_false, Qle_bool_iff.
    split; intros H; lra. }
  rewrite Hltb. clear Hltb.
  split.
  - rewrite <- Ha, <- Hb, <- Hs in Ht. rewrite <- Ha, <- Hs in Hsav.
    split; intros H; lra.
  - intros Hts.
    rewrite (no_untimed _ _ _ Hdf Hts) in Hsav.
    rewrite <- Ha, <- Hs in Hsav. split; intros H; lra.
Qed.

Lemma break_even_witness :
  exists res, analyze_frame (three_rows_exact "Wh") = Ok res /\
    (ltb (lit 0 0) (savings res) = true <->
     16931 * qval (winter_peak_usage res) < 5505 * qval (summer_usage res)).
Proof.
  assert (H : { res | analyze_frame (three_rows_exact "Wh") = Ok res })
    by (eexists; vm_compute; reflexivity).
  destruct H as [res Hres]. exists res. split; [exact Hres|].
  apply (break_even (three_rows_exact "Wh") res);
    [repeat constructor | exact Hres | repeat constructor].
Defined.

(** X16: With readings that are zero or more, no usage figure is negative, the
    three periods together have no more than the total, the time-of-use cost
    lies between zero and the total priced at the winter peak rate, and the
    savings lie between -0.16931 and +0.17703 $ per kWh of total usage.  When
    every row has a date and a time the time-of-use cost is at least the
    total priced at the summer rate, and the savings are at most 0.05505 $
    per kWh of total usage. *)
Theorem nonneg_readings_bounds (rows : list (row xnum)) (res : results xnum) :
  finite_usage rows ->
  nonneg_usage rows ->
  analyze_frame rows = Ok res ->
  0 <= qval (winter_peak_usage res) /\
  0 <= qval (winter_off_peak_usage res) /\
  0 <= qval (summer_usage res) /\
  qval (winter_peak_usage res) + qval (winter_off_peak_usage res)
    + qval (summer_usage res) <= qval (total_usage res) /\
  0 <= qval (total_time_of_use_cost res)
    <= qval (total_usage res) * (34634 # 100000) /\
  - (16931 # 100000) * qval (total_usage res)
    <= qval (savings res)
    <= (17703 # 100000) * qval (total_usage res) /\
  (Forall (fun r => has_timestamp r = true) rows ->
   qval (total_usage res) * (12198 # 100000)
     <= qval (total_time_of_use_cost res) /\
   qval (savings res) <= (5505 # 100000) * qval (total_usage res)).
Proof.
  intros Hfin Hnn Hres.
  destruct (result_values _ _ Hfin Hres)
    as (df & first & rest & u & Hdf & _ & _ & Ha & Hb & Hs & Ht & Htou & _ & Hsav).
  destruct (mapM_add_datetime _ _ Hdf) as [Hcells _].
  assert (Hdfnn := nonneg_frame _ _ Hcells Hnn).
  assert (Hc : 0 < (if str_in "Wh" u then 1000 else 1))
    by (destruct (str_in "Wh" u); reflexivity).
  assert (Hdiv : forall p : frow xnum -> bool,
             0 <= qtotal (filter p df)
                  / (if str_in "Wh" u then 1000 else 1)).
  { intros p. apply Qle_shift_div_l; [exact Hc|].
    rewrite Qmult_0_l. now apply qtotal_nonneg. }
  cbv zeta in Ha, Hb, Hs, Ht, Htou, Hsav.
  assert (H1 := Hdiv (selected is_winter_peak)).
  assert (H2 := Hdiv (selected is_winter_off_peak)).
  assert (H3 := Hdiv (selected is_summer)).
  assert (H4 := Hdiv no_timestamp).
  split; [lra|]. split; [lra|]. split; [lra|].
  assert (Hn : forall Hts : Forall (fun r => has_timestamp r = true) rows,
             qtotal (filter no_timestamp df)
             / (if str_in "Wh" u then 1000 else 1) == 0)
    by (intros Hts; now apply (no_untimed rows)).
  rewrite <- Ha in H1. rewrite <- Hb in H2. rewrite <- Hs in H3.
  rewrite <- Ha, <- Hb, <- Hs in Ht, Htou. rewrite <- Ha, <- Hs in Hsav.
  remember (qtotal (filter no_timestamp df)
            / (if str_in "Wh" u then 1000 else 1)) as n eqn:En.
  clear En Ha Hb Hs.
  split; [lra|]. split; [lra|]. split; [lra|].
  intros Hts. specialize (Hn Hts). lra.
Qed.

Lemma nonneg_readings_bounds_witness :
  exists res, analyze_frame (three_rows_exact "Wh") = Ok res /\
    - (16931 # 100000) * qval (total_usage res)
      <= qval (savings res)
      <= (17703 # 100000) * qval (total_usage res).
Proof.
  assert (H : { res | analyze_frame (three_rows_exact "Wh") = Ok res })
    by (eexists; vm_compute; reflexivity).
  destruct H as [res Hres]. exists res. split; [exact Hres|].
  apply (nonneg_readings_bounds (three_rows_exact "Wh") res);
    [repeat constructor | | exact Hres].
  repeat constructor; discriminate.
Defined.

Lemma pct_bounds (x : xnum) (a t : Q) :
  0 <= a -> a <= t -> 0 < t ->
  xeq x (xmul (xdiv (Fin a) (Fin t)) (Fin 100)) ->
  finite x /\ 0 <= qval x <= 100.
Proof.
  intros Ha Hat Ht Hx.
  assert (Hz : is_zero t = false).
  { apply is_zero_false. intros E. rewrite E in Ht. discriminate. }
  cbn [xdiv] in Hx. rewrite Hz in Hx. cbn [xmul] in Hx.
  apply xeq_Fin in Hx. destruct Hx as [Fx Hx]. split; [exact Fx|].
  assert (H0 : 0 <= a / t).
  { apply Qle_shift_div_l; [exact Ht | now rewrite Qmult_0_l]. }
  assert (H1 : a / t <= 1).
  { apply Qle_shift_div_r; [exact Ht | now rewrite Qmult_1_l]. }
  rewrite Hx. remember (a / t) as r. lra.
Qed.

(** X17: With readings that are zero or more and a total that is not zero, every
    percentage is a number between 0 and 100. *)
Theorem percentages_in_range (rows : list (row xnum)) (res : results xnum) :
  finite_usage rows ->
  nonneg_usage rows ->
  analyze_frame rows = Ok res ->
  0 < qval (total_usage res) ->
  (finite (winter_peak_percentage res) /\
   0 <= qval (winter_peak_percentage res) <= 100) /\
  (finite (winter_off_peak_percentage res) /\
   0 <= qval (winter_off_peak_percentage res) <= 100) /\
  (finite (summer_percentage res) /\
   0 <= qval (summer_percentage res) <= 100).
Proof.
  intros Hfin Hnn Hres Hpos.
  destruct (analyze_frame_priced _ _ Hfin Hres)
    as (df & first & rest & u & Hdf & _ & _ & Hp).
  destruct (mapM_add_datetime _ _ Hdf) as [Hcells _].
  assert (Hdfnn := nonneg_frame _ _ Hcells Hnn).
  assert (H1 := qtotal_nonneg (selected is_winter_peak) df Hdfnn).
  assert (H2 := qtotal_nonneg (selected is_winter_off_peak) df Hdfnn).
  assert (H3 := qtotal_nonneg (selected is_summer) df Hdfnn).
  assert (H4 := qtotal_nonneg no_timestamp df Hdfnn).
  unfold results_equiv, priced in Hp. cbn -[xmul xdiv Qdiv] in Hp.
  destruct Hp as (_ & _ & _ & Ht & Pa & Pb & Ps & _).
  apply xeq_Fin in Ht. destruct Ht as [_ Ht]. rewrite Ht in Hpos.
  assert (Htot : 0 < qtotal (filter (selected is_winter_peak) df)
                     + qtotal (filter (selected is_winter_off_peak) df)
                     + qtotal (filter (selected is_summer) df)
                     + qtotal (filter no_timestamp df)).
  { destruct (str_in "Wh" u); unfold Qdiv in Hpos;
      [change (/ 1000) with (1 # 1000) in Hpos
      | change (/ 1) with (1 # 1) in Hpos]; lra. }
  split; [|split].
  - refine (pct_bounds _ _ _ H1 _ Htot Pa). lra.
  - refine (pct_bounds _ _ _ H2 _ Htot Pb). lra.
  - refine (pct_bounds _ _ _ H3 _ Htot Ps). lra.
Qed.

Lemma percentages_in_range_witness :
  exists res, analyze_frame (three_rows_exact "Wh") = Ok res /\
    0 <= qval (summer_percentage res) <= 100.
Proof.
  assert (H : { res | analyze_frame (three_rows_exact "Wh") = Ok res })
    by (eexists; vm_compute; reflexivity).
  destruct H as [res Hres]. exists res. split; [exact Hres|].
  assert (Hfin : finite_usage (three_rows_exact "Wh")) by (repeat constructor).
  assert (Hnn : nonneg_usage (three_rows_exact "Wh"))
    by (repeat constructor; discriminate).
  assert (Hpos : 0 < qval (total_usage res)).
  { revert Hres. vm_compute. intros E. injection E as <-. reflexivity. }
  exact (proj2 (proj2 (proj2
    (percentages_in_range _ res Hfin Hnn Hres Hpos)))).
Defined.

End CostBounds.

(* ------------------------------------------------------------------------- *)
(** ** Reading back a timestamp *)

Section RoundTrip.

Lemma digit_val_digit_char (d : nat) : d < 10 -> digit_val (digit_char d) = Some d.
Proof.
  intros Hd. unfold digit_val, digit_char.
  rewrite nat_ascii_embedding by lia.
  replace (48 <=? 48 + d) with true by (symmetry; apply Nat.leb_le; lia).
  replace (48 + d <=? 57) with true by (symmetry; apply Nat.leb_le; lia).
  cbn [andb]. f_equal. lia.
Qed.

Lemma two_digits_value (n : nat) : 10 * (10 * 0 + n / 10) + n mod 10 = n.
Proof. rewrite (Nat.div_mod_eq n 10) at 3. lia. Qed.

Lemma four_digits_value (n : nat) :
  10 * (10 * (10 * (10 * 0 + n / 1000) + n / 100 mod 10) + n / 10 mod 10)
    + n mod 10 = n.
Proof.
  assert (E1 : n / 10 / 10 = n / 100)
    by (rewrite Nat.Div0.div_div; reflexivity).
  assert (E2 : n / 100 / 10 = n / 1000)
    by (rewrite Nat.Div0.div_div; reflexivity).
  assert (H1 := Nat.div_mod_eq n 10).
  assert (H2 := Nat.div_mod_eq (n / 10) 10).
  assert (H3 := Nat.div_mod_eq (n / 100) 10).
  rewrite E1 in H2. rewrite E2 in H3. lia.
Qed.

Ltac feed_digit H :=
  cbn [append run]; unfold step at 1; rewrite H; cbv beta iota;
  cbn [Nat.ltb Nat.leb].

Ltac feed_sep :=
  cbn [append run]; unfold step at 1;
  match goal with
  | |- context [digit_val ?c] => change (digit_val c) with (@None nat)
  end; cbv beta iota.

Lemma digits_lt (n : nat) : n < 100 -> n / 10 < 10 /\ n mod 10 < 10.
Proof.
  intros Hn. split.
  - apply Nat.Div0.div_lt_upper_bound; lia.
  - apply Nat.mod_upper_bound; lia.
Qed.

Lemma run_month (n : nat) (rest : string) :
  1 <= n <= 12 ->
  run (InMonth 0 0) (two_digits n ++ String "/" rest) = run (InDay n 0 0) rest.
Proof.
  intros Hn. destruct (digits_lt n ltac:(lia)) as [H1 H2].
  unfold two_digits.
  feed_digit (digit_val_digit_char _ H1).
  feed_digit (digit_val_digit_char _ H2).
  feed_sep. rewrite two_digits_value.
  replace (1 <=? n) with true by (symmetry; apply Nat.leb_le; lia).
  replace (n <=? 12) with true by (symmetry; apply Nat.leb_le; lia).
  reflexivity.
Qed.

Lemma run_day (mo n : nat) (rest : string) :
  1 <= n <= 31 ->
  run (InDay mo 0 0) (two_digits n ++ String "/" rest) = run (InYear mo n 0 0) rest.
Proof.
  intros Hn. destruct (digits_lt n ltac:(lia)) as [H1 H2].
  unfold two_digits.
  feed_digit (digit_val_digit_char _ H1).
  feed_digit (digit_val_digit_char _ H2).
  feed_sep. rewrite two_digits_value.
  replace (1 <=? n) with true by (symmetry; apply Nat.leb_le; lia).
  replace (n <=? 31) with true by (symmetry; apply Nat.leb_le; lia).
  reflexivity.
Qed.

Lemma run_year (mo d n : nat) (rest : string) :
  n < 10 * 1000 ->
  run (InYear mo d 0 0) (four_digits n ++ String " " rest) = run (InBlank mo d n) rest.
Proof.
  intros Hn.
  assert (H1 : n / 1000 < 10) by (apply Nat.Div0.div_lt_upper_bound; lia).
  assert (H2 : n / 100 mod 10 < 10) by (apply Nat.mod_upper_bound; lia).
  assert (H3 : n / 10 mod 10 < 10) by (apply Nat.mod_upper_bound; lia).
  assert (H4 : n mod 10 < 10) by (apply Nat.mod_upper_bound; lia).
  unfold four_digits.
  feed_digit (digit_val_digit_char _ H1).
  feed_digit (digit_val_digit_char _ H2).
  feed_digit (digit_val_digit_char _ H3).
  feed_digit (digit_val_digit_char _ H4).
  feed_sep. rewrite (four_digits_value n). reflexivity.
Qed.

Lemma run_hour (mo d y n : nat) (rest : string) :
  n <= 23 ->
  run (InBlank mo d y) (two_digits n ++ String ":" rest)
  = run (InMinute mo d y n 0 0) rest.
Proof.
  intros Hn. destruct (digits_lt n ltac:(lia)) as [H1 H2].
  unfold two_digits.
  feed_digit (digit_val_digit_char _ H1).
  feed_digit (digit_val_digit_char _ H2).
  feed_sep.
  replace (10 * (n / 10) + n mod 10) with n
    by (rewrite (Nat.div_mod_eq n 10) at 1; lia).
  replace (n <=? 23) with true by (symmetry; apply Nat.leb_le; lia).
  reflexivity.
Qed.

Lemma run_minute (mo d y h n : nat) :
  n <= 59 ->
  run (InMinute mo d y h 0 0) (two_digits n) = Some (InMinute mo d y h 2 n).
Proof.
  intros Hn. destruct (digits_lt n ltac:(lia)) as [H1 H2].
  unfold two_digits.
  feed_digit (digit_val_digit_char _ H1).
  feed_digit (digit_val_digit_char _ H2).
  cbn [run]. now rewrite two_digits_value.
Qed.

Lemma days_in_month_le (y m : nat) : days_in_month y m <= 31.
Proof.
  unfold days_in_month.
  do 12 (destruct m as [|m]; [try destruct (is_leap y); lia|]). lia.
Qed.

(** The zero-padded text of a date of the calendar and a time of the day is
    read back as that very timestamp. *)
Lemma strptime_reads_back (dt : datetime) :
  real_datetime dt ->
  strptime (date_text dt ++ " " ++ time_text dt) = Some dt.
Proof.
  intros (Hy & Hm & Hd & Hh & Hmi).
  assert (Hd31 := days_in_month_le (year dt) (month dt)).
  unfold strptime.
  change (date_text dt ++ " " ++ time_text dt)%string
    with (two_digits (month dt) ++ String "/"
            (two_digits (day dt) ++ String "/"
               (four_digits (year dt) ++ String " "
                  (two_digits (hour dt) ++ String ":"
                     (two_digits (minute dt))))))%string.
  rewrite run_month by lia.
  rewrite run_day by lia.
  rewrite run_year by lia.
  rewrite run_hour by lia.
  rewrite run_minute by lia.
  cbn [finish].
  replace (minute dt <=? 59) with true by (symmetry; apply Nat.leb_le; lia).
  replace (1 <=? year dt) with true by (symmetry; apply Nat.leb_le; lia).
  replace (day dt <=? days_in_month (year dt) (month dt)) with true
    by (symmetry; apply Nat.leb_le; lia).
  cbn. now destruct dt.
Qed.

Section Tables.

Context {T : Type} {arith : Arith T}.

Lemma add_datetime_reads_back (r : row T) (dt : datetime) :
  well_formed_row r dt -> add_datetime r = Ok (mkTRow r dt).
Proof.
  intros (Hreal & Hd & Ht). unfold add_datetime, to_datetime.
  rewrite Hd, Ht. cbn [cell_add].
  rewrite str_app_assoc, (strptime_reads_back dt Hreal). reflexivity.
Qed.

Lemma well_formed_frame (rows : list (row T)) (dts : list datetime) :
  Forall2 well_formed_row rows dts ->
  mapM add_datetime rows =
    Ok (map (fun p => Timed (mkTRow (fst p) (snd p))) (combine rows dts)).
Proof.
  induction 1 as [|r dt rows dts Hr _ IH]; [reflexivity|].
  cbn [mapM combine map fst snd].
  rewrite (add_datetime_reads_back r dt Hr), IH. reflexivity.
Qed.

Lemma well_formed_dates (rows : list (row T)) (dts : list datetime)
      (first : row T) (rest : list (row T)) :
  Forall2 well_formed_row rows dts -> rows = first :: rest ->
  Exists (fun r => isna (DATE r) = false) rows.
Proof.
  intros Hwf ->. inversion Hwf as [|? dt ? ? (_ & Hd & _) _]; subst.
  left. now rewrite Hd.
Qed.

(** X19: A table of well-formed rows is never turned down on account of its
    dates and times: every row is read with the timestamp its text stands
    for, and the analysis returns a result if the table has a row and the
    first row declares a unit. *)
Theorem well_formed_table_accepted (rows : list (row T)) (dts : list datetime) :
  Forall2 well_formed_row rows dts ->
  mapM add_datetime rows =
    Ok (map (fun p => Timed (mkTRow (fst p) (snd p))) (combine rows dts)) /\
  (forall (first : row T) (rest : list (row T)) (u : string),
     rows = first :: rest -> UNITS first = u ->
     exists res, analyze_frame rows = Ok res).
Proof.
  intros Hwf. split; [now apply well_formed_frame|].
  intros first rest u Hrows Hu.
  apply (analyze_frame_total rows _ first rest u
           (well_formed_frame rows dts Hwf) Hrows Hu).
  eapply well_formed_dates; eassumption.
Qed.

End Tables.

Lemma well_formed_table_accepted_witness :
  let dts := [mkDatetime 2023 11 15 8 0; mkDatetime 2023 6 1 12 0] in
  let rows := [ mkRow (date_text (mkDatetime 2023 11 15 8 0))
                      (time_text (mkDatetime 2023 11 15 8 0)) (Fin 2) "Wh";
                mkRow (date_text (mkDatetime 2023 6 1 12 0))
                      (time_text (mkDatetime 2023 6 1 12 0)) (Fin 3) "Wh" ] in
  mapM add_datetime rows =
    Ok (map (fun p => Timed (mkTRow (fst p) (snd p))) (combine rows dts)).
Proof.
  intros dts rows.
  apply (well_formed_table_accepted rows dts).
  constructor; [|constructor; [|constructor]];
    (split; [unfold real_datetime; cbn; lia | split; reflexivity]).
Defined.

End RoundTrip.

(* ------------------------------------------------------------------------- *)
(** ** A total usage of zero *)

Section ZeroTotal.

Local Open Scope Q_scope.

(** In binary64 a percentage over a total of zero is a NaN or an
    infinity. *)
Lemma pct_zero_total_binary64 (x t : float) :
  t = 0%float \/ t = (-0)%float ->
  Binary64.nan_or_inf (mul (div x t) (lit 100 0)) = true.
Proof.
  intros Ht.
  change (mul (div x t) (lit 100 0))
    with (PrimFloat.mul (PrimFloat.div x t) (Binary64.flit 100 0)).
  set (p := PrimFloat.mul (PrimFloat.div x t) (Binary64.flit 100 0)).
  assert (Hres : FloatOps.Prim2SF p = SpecFloat.S754_nan \/
                 exists s, FloatOps.Prim2SF p = SpecFloat.S754_infinity s).
  { unfold p. rewrite FloatAxioms.mul_spec, FloatAxioms.div_spec.
    replace (FloatOps.Prim2SF (Binary64.flit 100 0))
      with (FloatOps.Prim2SF 100%float) by (vm_compute; reflexivity).
    destruct Ht as [-> | ->];
      change (FloatOps.Prim2SF 0%float) with (SpecFloat.S754_zero false);
      change (FloatOps.Prim2SF (-0)%float) with (SpecFloat.S754_zero true);
      destruct (FloatOps.Prim2SF x) as [s| s | | s m e]; cbn; eauto. }
  unfold Binary64.nan_or_inf, PrimFloat.is_nan, PrimFloat.is_infinity.
  rewrite !FloatAxioms.eqb_spec, FloatAxioms.abs_spec.
  destruct Hres as [-> | [s ->]];
    change (FloatOps.Prim2SF infinity) with (SpecFloat.S754_infinity false);
    cbn; [reflexivity | apply orb_true_r].
Qed.

(** C2, as the script behaves: a total usage of zero is no error.  The
    analysis of the empty table fails with the index error raised where the
    unit of the first row is read.  A result is returned whenever the first
    row declares a unit and every row carries the zero-padded text of a date
    of the calendar and a time of the day, whatever the readings.  And every
    result that is returned for a total of zero (in exact arithmetic: finite
    readings that add up to zero; in binary64: a total that is computed as
    zero) has three percentages that are each a NaN or an infinity. *)
Theorem zero_usage_outcome :
  (forall (T : Type) (arith : Arith T),
     analyze_frame (@nil (row T)) =
     Raise (IndexError "single positional indexer is out-of-bounds")) /\
  (forall (T : Type) (arith : Arith T) (rows : list (row T))
          (first : row T) (rest : list (row T)) (u : string)
          (dts : list datetime),
     rows = first :: rest -> UNITS first = u ->
     Forall2 well_formed_row rows dts ->
     exists res, analyze_frame rows = Ok res) /\
  (forall (rows : list (row xnum)) (res : results xnum),
     finite_usage rows ->
     qreadings rows == 0 ->
     analyze_frame rows = Ok res ->
     nonfinite (winter_peak_percentage res) = true /\
     nonfinite (winter_off_peak_percentage res) = true /\
     nonfinite (summer_percentage res) = true) /\
  (forall (rows : list (row float)) (df : list (frow float))
          (res : results float),
     mapM add_datetime rows = Ok df ->
     all_usage df = 0%float \/ all_usage df = (-0)%float ->
     analyze_frame rows = Ok res ->
     Binary64.nan_or_inf (winter_peak_percentage res) = true /\
     Binary64.nan_or_inf (winter_off_peak_percentage res) = true /\
     Binary64.nan_or_inf (summer_percentage res) = true).
Proof.
  split; [reflexivity|]. split; [|split].
  - intros T arith rows first rest u dts Hrows Hu Hwf.
    apply (analyze_frame_total rows _ first rest u
             (well_formed_frame rows dts Hwf) Hrows Hu).
    eapply well_formed_dates; eassumption.
  - intros rows res Hfin Hz Hres.
    destruct (analyze_frame_inv _ _ Hres)
      as (df & first & rest & u & Hdf & _ & _ & _ & _ & _ & _
          & Pwp & Pwo & Psu & _).
    destruct (sums_add_up rows df Hdf Hfin)
      as ((Fwp & Fwo & Fsu & Fall) & _ & Htot).
    rewrite <- Htot in Hz.
    rewrite Pwp, Pwo, Psu. repeat split; now apply pct_zero_total.
  - intros rows df res Hdf Hz Hres.
    destruct (analyze_frame_inv _ _ Hres)
      as (df' & first & rest & u & Hdf' & _ & _ & _ & _ & _ & _
          & Pwp & Pwo & Psu & _).
    rewrite Hdf in Hdf'. injection Hdf' as <-.
    rewrite Pwp, Pwo, Psu.
    repeat split; now apply pct_zero_total_binary64.
Qed.

Lemma zero_usage_outcome_witness :
  exists res, analyze_frame idle_exact = Ok res /\
    nonfinite (winter_peak_percentage res) = true /\
    nonfinite (winter_off_peak_percentage res) = true /\
    nonfinite (summer_percentage res) = true.
Proof.
  assert (Hfin : finite_usage idle_exact) by (repeat constructor).
  assert (Hz : qreadings idle_exact == 0) by (vm_compute; reflexivity).
  destruct zero_usage_outcome as (_ & Hok & Hnan & _).
  destruct (Hok xnum _ idle_exact
                (mkRow "11/15/2023" "08:00" (Fin 0) "kWh") [] "kWh"
                [mkDatetime 2023 11 15 8 0] eq_refl eq_refl) as [res Hres].
  - constructor; [|constructor].
    split; [unfold real_datetime; cbn; lia | split; reflexivity].
  - exists res. split; [exact Hres | exact (Hnan idle_exact res Hfin Hz Hres)].
Defined.

End ZeroTotal.

(* ------------------------------------------------------------------------- *)
(** ** The report *)

Section ReportFacts.

Context {T : Type} {arith : Arith T}.
Variable fmt : nat -> T -> string.

Lemma print_if_present_length (metadata : dict) (key : string) :
  List.length (print_if_present metadata key)
  = if has_key metadata key then 1 else 0.
Proof.
  unfold print_if_present, has_key. now destruct (dict_get metadata key).
Qed.

(** X20: Of the metadata the report shows the name, the address and the account
    number and nothing else: two dictionaries that agree on these three keys
    give the same report.  A key that is absent costs the report its line,
    so the report has 18 lines plus one for each of the three keys that is
    present. *)
Theorem report_uses_three_keys (res : results T) (md md' : dict) :
  (dict_get md "Name" = dict_get md' "Name" ->
   dict_get md "Address" = dict_get md' "Address" ->
   dict_get md "Account Number" = dict_get md' "Account Number" ->
   format_results fmt res md = format_results fmt res md') /\
  List.length (format_results fmt res md)
  = 18 + List.length (filter (has_key md) ["Name"; "Address"; "Account Number"]).
Proof.
  split.
  - intros Hn Ha Hc. unfold format_results, print_if_present.
    now rewrite Hn, Ha, Hc.
  - unfold format_results. rewrite !length_app, !print_if_present_length.
    cbn [filter List.length].
    destruct (has_key md "Name"), (has_key md "Address"),
      (has_key md "Account Number"); reflexivity.
Qed.

End ReportFacts.

Section Tie.

Local Open Scope Q_scope.

(** X21: When every row has a date and a time and no usage falls in the winter
    peak hours or in the summer months, the two plans cost the same, the
    savings are zero, and the report names the fixed rate plan. *)
Theorem tie_goes_to_fixed (rows : list (row xnum)) (res : results xnum) :
  finite_usage rows ->
  Forall (fun r => has_timestamp r = true) rows ->
  analyze_frame rows = Ok res ->
  qval (winter_peak_usage res) == 0 ->
  qval (summer_usage res) == 0 ->
  qval (savings res) == 0 /\
  qval (total_time_of_use_cost res) == qval (total_fixed_rate_cost res) /\
  forall fmt : nat -> xnum -> string,
    verdict fmt (savings res) =
    (nl ++ "Fixed rate billing would save you: $"
        ++ fmt 2%nat (abs (savings res)))%string.
Proof.
  intros Hfin Hts Hres Hwp Hsu.
  destruct (result_values _ _ Hfin Hres)
    as (df & first & rest & u & Hdf & _ & _ & Ha & Hb & Hs & Ht & Htou
        & Ffin & Hsav).
  cbv zeta in Ha, Hb, Hs, Ht, Htou, Hsav.
  rewrite (no_untimed _ _ _ Hdf Hts) in Hsav, Ht.
  rewrite <- Ha, <- Hs in Hsav. rewrite <- Ha, <- Hb, <- Hs in Htou, Ht.
  assert (Hzero : qval (savings res) == 0) by (rewrite Hsav, Hwp, Hsu; ring).
  split; [exact Hzero|]. split.
  - destruct (analyze_frame_inv _ _ Hres)
      as (_ & _ & _ & _ & _ & _ & _ & _ & _ & _ & _ & _ & _ & _ & _ & _ & _ & _
          & Cfix & Csav).
    assert (Ffix : total_fixed_rate_cost res = Fin (qval (total_usage res)
                                                   * (17703 # 100000))).
    { destruct (analyze_frame_priced _ _ Hfin Hres)
        as (df' & f' & r' & u' & _ & _ & _ & Hp).
      unfold results_equiv, priced in Hp. cbn -[xmul xdiv Qdiv] in Hp.
      destruct Hp as (_ & _ & _ & Pt & _).
      rewrite Cfix. destruct (total_usage res); cbn in Pt; try contradiction.
      reflexivity. }
    rewrite Ffix. cbn [qval]. rewrite Htou, Ht, Hwp, Hsu. ring.
  - intros fmt. unfold verdict. rewrite Ffin.
    change (lit 0 0) with (Fin 0). cbn [ltb Arith_exact xltb].
    replace (Qle_bool (qval (savings res)) 0) with true; [reflexivity|].
    symmetry. apply Qle_bool_iff. rewrite Hzero. discriminate.
Qed.

Lemma tie_goes_to_fixed_witness :
  exists res,
    analyze_frame [ mkRow "11/15/2023" "14:00" (Fin 5) "Wh" ] = Ok res /\
    qval (savings res) == 0.
Proof.
  assert (H : { res | analyze_frame
                        [ mkRow "11/15/2023" "14:00" (Fin 5) "Wh" ] = Ok res })
    by (eexists; vm_compute; reflexivity).
  destruct H as [res Hres]. exists res. split; [exact Hres|].
  assert (Hfin : finite_usage [ mkRow "11/15/2023" "14:00" (Fin 5) "Wh" ])
    by (repeat constructor).
  assert (Hts : Forall (fun r : row xnum => has_timestamp r = true)
                       [ mkRow "11/15/2023" "14:00" (Fin 5) "Wh" ])
    by (repeat constructor).
  assert (Hwp : qval (winter_peak_usage res) == 0).
  { revert Hres. vm_compute. intros E. injection E as <-. reflexivity. }
  assert (Hsu : qval (summer_usage res) == 0).
  { revert Hres. vm_compute. intros E. injection E as <-. reflexivity. }
  exact (proj1 (tie_goes_to_fixed _ res Hfin Hts Hres Hwp Hsu)).
Defined.

End Tie.

(* ------------------------------------------------------------------------- *)
(** ** White space around the header row *)

Section HeaderText.

Lemma lstrip_split (s : string) :
  exists ws, s = (ws ++ lstrip s)%string /\ all_space ws = true.
Proof.
  induction s as [|a s (ws & Hs & Hws)]; cbn [lstrip].
  - now exists EmptyString.
  - destruct (is_space a) eqn:Ea.
    + exists (String a ws). cbn [append all_space]. rewrite Ea, Hws.
      split; [now f_equal | reflexivity].
    + now exists EmptyString.
Qed.

Lemma lstrip_spaces (ws s : string) :
  all_space ws = true -> lstrip (ws ++ s) = lstrip s.
Proof.
  induction ws as [|a ws IH]; cbn [append all_space lstrip]; [reflexivity|].
  intros H. apply andb_true_iff in H. destruct H as [-> H]. now apply IH.
Qed.

Lemma rstrip_split (s : string) :
  exists w, s = (rstrip s ++ w)%string.
Proof.
  induction s as [|a s (w & Hs)]; cbn [rstrip].
  - now exists EmptyString.
  - destruct (rstrip s) as [|b t] eqn:Er.
    + destruct (is_space a).
      * now exists (String a s).
      * exists w. cbn [append] in *. now f_equal.
    + exists w. cbn [append] in *. now f_equal.
Qed.

Lemma rstrip_nonspace (a : ascii) (s : string) :
  is_space a = false -> rstrip (String a s) = String a (rstrip s).
Proof.
  intros Ha. cbn [rstrip]. destruct (rstrip s); [now rewrite Ha | reflexivity].
Qed.

(** X22: A line is taken for the header row exactly when, after any white space
    at its start, it begins with [SERVICE,DATE,]; what follows on the line,
    white space and line end included, does not matter. *)
Theorem is_header_spec (line : string) :
  is_header line = true <->
  exists ws rest,
    line = (ws ++ "SERVICE,DATE," ++ rest)%string /\ all_space ws = true.
Proof.
  unfold is_header, startswith, strip. rewrite prefix_app. split.
  - intros [b Hb].
    destruct (lstrip_split line) as (ws & Hline & Hws).
    destruct (rstrip_split (lstrip line)) as [w Hw].
    exists ws, (b ++ w)%string. split; [|exact Hws].
    rewrite Hline at 1. f_equal. rewrite Hw at 1. rewrite Hb.
    now rewrite str_app_assoc.
  - intros (ws & rest & -> & Hws).
    rewrite (lstrip_spaces _ _ Hws). cbn [append lstrip].
    change (is_space "S") with false. cbv iota.
    exists (rstrip rest).
    repeat (rewrite rstrip_nonspace by reflexivity). reflexivity.
Qed.

End HeaderText.

(* ------------------------------------------------------------------------- *)
(** ** Where the metadata comes from, and readings that are missing *)

Section Preamble.

Context {T : Type} {arith : Arith T}.
Variable fs : string -> option (list string).
Variable read_csv : string -> nat -> result (list (row T)).

(** X23: Every entry of the metadata that a run returns comes from a line above
    the header row, and that line is not itself a header row: neither the
    column names nor the readings below them can end up in the metadata. *)
Theorem metadata_from_preamble (path : string) (res : results T) (md : dict)
        (k v : string) :
  analyze_power_usage fs read_csv path = Ok (res, md) ->
  dict_get md k = Some v ->
  exists lines n j,
    fs path = Some lines /\ find_header_row fs path = Ok n /\ j < n /\
    metadata_entry (nth j lines EmptyString) = Some (k, v) /\
    is_header (nth j lines EmptyString) = false.
Proof.
  intros Hrun Hget.
  apply analyze_power_usage_Ok in Hrun.
  destruct Hrun as (lines & n & rows & Hfs & Hn & _ & _ & ->).
  rewrite extract_metadata_firstn in Hget. apply lookup_all in Hget.
  destruct Hget as (pre & raw & post & Hsplit & Hraw & _).
  exists lines, n, (List.length pre).
  assert (Hlen : List.length pre < n).
  { assert (H := firstn_le_length n lines). rewrite Hsplit in H.
    rewrite length_app in H. cbn [List.length] in H. lia. }
  assert (Hnth : nth (List.length pre) lines EmptyString = raw).
  { assert (E : lines = pre ++ raw :: (post ++ skipn n lines)).
    { rewrite <- (firstn_skipn n lines) at 1. rewrite Hsplit.
      now rewrite <- app_assoc. }
    transitivity (nth (List.length pre)
                      (pre ++ raw :: (post ++ skipn n lines)) EmptyString).
    - f_equal. exact E.
    - apply nth_middle. }
  split; [exact Hfs|]. split; [exact Hn|]. split; [exact Hlen|].
  rewrite Hnth. split; [exact Hraw|].
  rewrite (find_header_row_open fs _ _ Hfs) in Hn.
  apply find_header_from_Ok in Hn. destruct Hn as (i & -> & _ & _ & Hbefore).
  rewrite <- Hnth. apply Hbefore. exact Hlen.
Qed.

End Preamble.

Lemma metadata_from_preamble_witness :
  exists lines n j,
    export_fs "usage.csv" = Some lines /\
    find_header_row export_fs "usage.csv" = Ok n /\ j < n /\
    metadata_entry (nth j lines EmptyString)
      = Some ("Address", "1 Main St, Halifax") /\
    is_header (nth j lines EmptyString) = false.
Proof.
  assert (H : { out | analyze_power_usage export_fs export_table "usage.csv"
                      = Ok out })
    by (eexists; vm_compute; reflexivity).
  destruct H as [[res md] Hrun].
  apply (metadata_from_preamble export_fs export_table "usage.csv" res md).
  - exact Hrun.
  - revert Hrun. vm_compute. intros E. injection E as _ <-. reflexivity.
Defined.

Section MissingReadings.

Local Open Scope Q_scope.

Lemma mapM_app {A B : Type} (f : A -> result B) (l1 l2 : list A) :
  mapM f (l1 ++ l2) =
  (bs1 <- mapM f l1 ;; bs2 <- mapM f l2 ;; Ok (bs1 ++ bs2)).
Proof.
  induction l1 as [|a l1 IH]; cbn [app mapM bind].
  - now destruct (mapM f l2).
  - destruct (f a) as [b|]; cbn [bind]; [|reflexivity].
    rewrite IH. destruct (mapM f l1) as [bs1|]; cbn [bind]; [|reflexivity].
    now destruct (mapM f l2).
Qed.

(** The table with its timestamps, with and without one of the rows. *)
Lemma frame_without (r : row xnum) (pre post : list (row xnum))
      (df df' : list (frow xnum)) :
  mapM add_datetime (pre ++ r :: post) = Ok df ->
  mapM add_datetime (pre ++ post) = Ok df' ->
  exists d1 f d2, df = d1 ++ f :: d2 /\ df' = d1 ++ d2 /\ row_of f = r.
Proof.
  rewrite !mapM_app. cbn [mapM].
  destruct (mapM add_datetime pre) as [d1|]; cbn [bind]; [|discriminate].
  destruct (add_datetime r) as [f|] eqn:Hf; cbn [bind]; [|discriminate].
  destruct (mapM add_datetime post) as [d2|]; cbn [bind]; [|discriminate].
  intros E E'. injection E as <-. injection E' as <-.
  exists d1, f, d2. repeat split. now apply add_datetime_row in Hf.
Qed.

Lemma qtotal_without (p : frow xnum -> bool) (d1 d2 : list (frow xnum))
      (f : frow xnum) :
  qval (USAGE (row_of f)) == 0 ->
  qtotal (filter p (d1 ++ f :: d2)) == qtotal (filter p (d1 ++ d2)).
Proof.
  intros Hz. unfold qtotal, col_usage. rewrite !filter_app, !map_app, !Qsum_app.
  cbn [filter]. destruct (p f); [|reflexivity].
  cbn [map]. rewrite Qsum_cons, Hz. ring.
Qed.

(** X24: A reading that is missing (NaN) counts for nothing.  In exact
    arithmetic a table with such a reading, anywhere after the first row,
    and the table without that row give the same values in every entry. *)
Theorem missing_reading_skipped
        (first r : row xnum) (pre post : list (row xnum))
        (res res' : results xnum) :
  USAGE r = XNaN ->
  finite_usage (first :: pre ++ post) ->
  analyze_frame (first :: pre ++ r :: post) = Ok res ->
  analyze_frame (first :: pre ++ post) = Ok res' ->
  results_equiv res res'.
Proof.
  intros Hnan Hfin Hres Hres'.
  assert (Hknown : known_usage (first :: pre ++ r :: post)).
  { apply finite_known in Hfin. unfold known_usage in *.
    inversion Hfin as [|? ? H0 Hrest]; subst. constructor; [exact H0|].
    apply Forall_app in Hrest. destruct Hrest as [Hpre Hpost].
    apply Forall_app. split; [exact Hpre|].
    constructor; [right; exact Hnan | exact Hpost]. }
  destruct (analyze_frame_priced_known _ _ Hknown Hres)
    as (df & f0 & r0 & u & Hdf & E & Hu & Hp).
  destruct (analyze_frame_priced _ _ Hfin Hres')
    as (df' & f0' & r0' & u' & Hdf' & E' & Hu' & Hp').
  injection E as <- <-. injection E' as <- <-.
  rewrite Hu in Hu'. injection Hu' as <-.
  change (first :: pre ++ r :: post) with ((first :: pre) ++ r :: post) in Hdf.
  change (first :: pre ++ post) with ((first :: pre) ++ post) in Hdf'.
  destruct (frame_without _ _ _ _ _ Hdf Hdf') as (d1 & f & d2 & -> & -> & Hf).
  assert (Hz : qval (USAGE (row_of f)) == 0) by (rewrite Hf, Hnan; reflexivity).
  eapply results_equiv_trans; [exact Hp|].
  eapply results_equiv_trans; [|apply results_equiv_sym; exact Hp'].
  apply priced_proper; try reflexivity; now apply qtotal_without.
Qed.

End MissingReadings.

Lemma missing_reading_skipped_witness :
  exists res res',
    analyze_frame
      [ mkRow "11/15/2023" "08:00" (Fin 2) "Wh";
        mkRow "11/15/2023" "09:00" XNaN "Wh";
        mkRow "06/01/2023" "12:00" (Fin 3) "Wh" ] = Ok res /\
    analyze_frame
      [ mkRow "11/15/2023" "08:00" (Fin 2) "Wh";
        mkRow "06/01/2023" "12:00" (Fin 3) "Wh" ] = Ok res' /\
    results_equiv res res'.
Proof.
  assert (H : { res | analyze_frame
      [ mkRow "11/15/2023" "08:00" (Fin 2) "Wh";
        mkRow "11/15/2023" "09:00" XNaN "Wh";
        mkRow "06/01/2023" "12:00" (Fin 3) "Wh" ] = Ok res })
    by (eexists; vm_compute; reflexivity).
  assert (H' : { res | analyze_frame
      [ mkRow "11/15/2023" "08:00" (Fin 2) "Wh";
        mkRow "06/01/2023" "12:00" (Fin 3) "Wh" ] = Ok res })
    by (eexists; vm_compute; reflexivity).
  destruct H as [res Hres], H' as [res' Hres'].
  exists res, res'. split; [exact Hres|]. split; [exact Hres'|].
  refine (missing_reading_skipped
            (mkRow "11/15/2023" "08:00" (Fin 2) "Wh")
            (mkRow "11/15/2023" "09:00" XNaN "Wh")
            [] [ mkRow "06/01/2023" "12:00" (Fin 3) "Wh" ]
            res res' eq_refl _ Hres Hres').
  repeat constructor.
Defined.
